(** * Weather agent: forecast aggregation, weather client and tool boundary

    A shallow embedding of the Python sources

    - [weather_agent/services/weather_service.py] (class [WeatherService]),
    - [weather_agent/tools.py] (the two tool operations and their helpers),
    - [weather_agent/lifecycle.py] (initialisation and cleanup),

    followed by the properties of the specification that are stated about
    them.

    Conventions of the embedding.

    - JSON numbers are exact rationals ([Q]); the conversions of a number to
      text ([str], [:.1f], [:.0f]) belong to the Python runtime and are
      fields of [PyRuntime].
    - Text is [string] (bytes); [str.title] is modelled on ASCII letters.
    - [datetime.fromtimestamp] reads the host's local time zone: the zone is
      the field [utcoffset] of [PyRuntime], the offset in seconds that is in
      force at a given instant.
    - A raised exception is a value of [exn]; code that can raise returns a
      [result]; code that also touches the host (agent state, HTTP session,
      artifact store, log) is a function of the [World].
    - Python dictionaries of fixed shape are records; the dictionaries
      returned by the tools, whose key set varies, and the agent state store
      are [gmap string _].
    - The [asyncio] event loop that the synchronous [cleanup_weather_agent]
      asks for is an input of it ([EventLoopPolicy]): the thread may have no
      loop, or one that is running or closed, and then the call raises
      [RuntimeError] before the coroutine starts. *)

From Stdlib Require Import ZArith QArith String Ascii List Lia Sorted.
From stdpp Require Import gmap strings list fin_maps pretty sorting.

Local Open Scope string_scope.
Local Open Scope list_scope.
Local Open Scope Z_scope.

(* ===================================================================== *)
(** * Exceptions and fallible computations *)
(* ===================================================================== *)

(** The handlers of the sources tell two classes apart: [ValueError] (and
    its subclasses) and every other [Exception].  Signals that are not an
    [Exception] (keyboard interrupt, cancellation of the task) are not
    failures of a call and are not modelled. *)
Inductive exn : Type :=
  | ValueError (msg : string)
  | Exception (msg : string).

(** [str(e)] for an exception built from one message. *)
Definition str_exn (e : exn) : string :=
  match e with ValueError m => m | Exception m => m end.

Inductive result (A : Type) : Type :=
  | Ok (a : A)
  | Raise (e : exn).
Arguments Ok {A} a.
Arguments Raise {A} e.

Definition bind {A B} (r : result A) (k : A -> result B) : result B :=
  match r with Ok a => k a | Raise e => Raise e end.

Declare Scope result_scope.
Delimit Scope result_scope with result.
Notation "x <- c1 ;; c2" := (bind c1 (fun x => c2))
  (at level 100, c1 at next level, right associativity) : result_scope.
Local Open Scope result_scope.

(* ===================================================================== *)
(** * Calendar: [datetime.fromtimestamp], [date], [isoformat] *)
(* ===================================================================== *)

Module Calendar.

(** A [datetime.date]: proleptic Gregorian year, month, day. *)
Record date : Type := Date { year : Z; month : Z; day : Z }.

#[global] Instance date_eq_dec : EqDecision date.
Proof. solve_decision. Defined.

(** A naive [datetime.datetime] at a resolution of one second. *)
Record datetime : Type := DateTime {
  dt_date : date;      (* .date() *)
  dt_hour : Z;         (* .hour *)
  dt_minute : Z;
  dt_second : Z
}.

(** The civil date of a day number (days since 1970-01-01), computed in
    400-year eras that start on 1 March. *)
Definition civil_from_days (z : Z) : date :=
  let z := z + 719468 in
  let era := z / 146097 in
  let doe := z mod 146097 in
  let yoe := (doe - doe / 1460 + doe / 36524 - doe / 146096) / 365 in
  let y := yoe + era * 400 in
  let doy := doe - (365 * yoe + yoe / 4 - yoe / 100) in
  let mp := (5 * doy + 2) / 153 in
  let d := doy - (153 * mp + 2) / 5 + 1 in
  let m := if mp <? 10 then mp + 3 else mp - 9 in
  Date (if m <=? 2 then y + 1 else y) m d.

(** The day number of a civil date, the inverse of [civil_from_days]. *)
Definition days_from_civil (c : date) : Z :=
  let y := if month c <=? 2 then year c - 1 else year c in
  let era := y / 400 in
  let yoe := y mod 400 in
  let mp := if 2 <? month c then month c - 3 else month c + 9 in
  let doy := (153 * mp + 2) / 5 + day c - 1 in
  let doe := yoe * 365 + yoe / 4 - yoe / 100 + doy in
  era * 146097 + doe - 719468.

(** [datetime.MINYEAR] and [datetime.MAXYEAR]. *)
Definition MINYEAR : Z := 1.
Definition MAXYEAR : Z := 9999.

Definition year_in_range (c : date) : bool :=
  (MINYEAR <=? year c) && (year c <=? MAXYEAR).

(** Local wall-clock seconds at instant [t] for a zone whose offset at [t]
    is [off t]. *)
Definition local_seconds (off : Z -> Z) (t : Z) : Z := t + off t.

(** Day number of the local calendar date at instant [t]. *)
Definition local_day (off : Z -> Z) (t : Z) : Z := local_seconds off t / 86400.

(** Hour of the local time of day at instant [t]. *)
Definition local_hour (off : Z -> Z) (t : Z) : Z :=
  (local_seconds off t mod 86400) / 3600.

(** [datetime.fromtimestamp(t)]: the local date and time at epoch second
    [t]; raises when the year leaves [MINYEAR..MAXYEAR]. *)
Definition fromtimestamp (off : Z -> Z) (t : Z) : result datetime :=
  let s := local_seconds off t in
  let c := civil_from_days (s / 86400) in
  let r := s mod 86400 in
  if year_in_range c
  then Ok (DateTime c (r / 3600) ((r mod 3600) / 60) (r mod 60))
  else Raise (ValueError "year is out of range").

(** Decimal digit [n] (0..9) as a character. *)
Definition digit (n : Z) : ascii := ascii_of_nat (Z.to_nat (48 + n mod 10)).

(** [%02d] and [%04d] for numbers within the width. *)
Definition pad2 (n : Z) : string :=
  String (digit (n / 10)) (String (digit n) "").
Definition pad4 (n : Z) : string :=
  String (digit (n / 1000)) (String (digit (n / 100)) (pad2 n)).

(** [date.isoformat()]: [YYYY-MM-DD]. *)
Definition isoformat (c : date) : string :=
  pad4 (year c) +:+ "-" +:+ pad2 (month c) +:+ "-" +:+ pad2 (day c).

(** Value of a decimal digit character, if it is one. *)
Definition digit_val (a : ascii) : option Z :=
  let n := Z.of_nat (nat_of_ascii a) in
  if (48 <=? n) && (n <=? 57) then Some (n - 48) else None.

Fixpoint digits_val (acc : Z) (l : list ascii) : option Z :=
  match l with
  | [] => Some acc
  | a :: l' =>
      match digit_val a with
      | Some v => digits_val (10 * acc + v) l'
      | None => None
      end
  end.

Definition is_leap (y : Z) : bool :=
  (y mod 4 =? 0) && (negb (y mod 100 =? 0) || (y mod 400 =? 0)).

Definition days_in_month (y m : Z) : Z :=
  if m =? 2 then (if is_leap y then 29 else 28)
  else if (m =? 4) || (m =? 6) || (m =? 9) || (m =? 11) then 30
  else 31.

(** [date(y, m, d)] validation. *)
Definition valid_date (c : date) : bool :=
  year_in_range c && (1 <=? month c) && (month c <=? 12)
  && (1 <=? day c) && (day c <=? days_in_month (year c) (month c)).

(** [datetime.fromisoformat] on the extended calendar-date form
    [YYYY-MM-DD], the form [isoformat] writes. *)
Definition fromisoformat (s : string) : result date :=
  match list_ascii_of_string s with
  | [y1; y2; y3; y4; "-"%char; m1; m2; "-"%char; d1; d2] =>
      match digits_val 0 [y1; y2; y3; y4], digits_val 0 [m1; m2],
            digits_val 0 [d1; d2] with
      | Some y, Some m, Some d =>
          if valid_date (Date y m d) then Ok (Date y m d)
          else Raise (ValueError ("Invalid isoformat string: " +:+ s))
      | _, _, _ => Raise (ValueError ("Invalid isoformat string: " +:+ s))
      end
  | _ => Raise (ValueError ("Invalid isoformat string: " +:+ s))
  end.

(** [%A]: the weekday name; day number 0 (1970-01-01) was a Thursday. *)
Definition weekday_name (c : date) : string :=
  match (days_from_civil c + 3) mod 7 with
  | 0 => "Monday" | 1 => "Tuesday" | 2 => "Wednesday" | 3 => "Thursday"
  | 4 => "Friday" | 5 => "Saturday" | _ => "Sunday"
  end.

(** [%B]: the month name. *)
Definition month_name (c : date) : string :=
  match month c with
  | 1 => "January" | 2 => "February" | 3 => "March" | 4 => "April"
  | 5 => "May" | 6 => "June" | 7 => "July" | 8 => "August"
  | 9 => "September" | 10 => "October" | 11 => "November" | _ => "December"
  end.

(** [strftime('%A, %B %d')]. *)
Definition strftime_A_B_d (c : date) : string :=
  weekday_name c +:+ ", " +:+ month_name c +:+ " " +:+ pad2 (day c).

(** [strftime('%Y%m%d_%H%M%S')] of the UTC time at epoch second [t]. *)
Definition strftime_compact_utc (t : Z) : string :=
  let c := civil_from_days (t / 86400) in
  let r := t mod 86400 in
  pad4 (year c) +:+ pad2 (month c) +:+ pad2 (day c) +:+ "_"
  +:+ pad2 (r / 3600) +:+ pad2 ((r mod 3600) / 60) +:+ pad2 (r mod 60).

End Calendar.

(* ===================================================================== *)
(** * Python runtime and built-ins used by the sources *)
(* ===================================================================== *)

(** What the sources take from the ambient Python process. *)
Record PyRuntime : Type := {
  utcoffset : Z -> Z;               (* local zone: offset in force at an instant *)
  str_number : Q -> string;         (* f"{x}" for a number *)
  format_fixed : nat -> Q -> string (* f"{x:.Nf}" *)
}.

(** [l[:n]] for a Python integer [n]: a negative [n] counts from the end. *)
Definition py_slice_to {A} (l : list A) (n : Z) : list A :=
  if 0 <=? n then take (Z.to_nat n) l
  else take (Z.to_nat (Z.of_nat (length l) + n)) l.

(** A [for] loop whose body can raise. *)
Fixpoint foldM {A S} (f : S -> A -> result S) (l : list A) (s : S) : result S :=
  match l with
  | [] => Ok s
  | x :: l' => s' <- f s x ;; foldM f l' s'
  end.

(** [min(l, key=key)]: the key is evaluated once per element, in order, and
    an element replaces the current best only when its key is strictly
    smaller. *)
Fixpoint min_key_from {A} (key : A -> result Z) (best : A) (kbest : Z)
    (l : list A) : result A :=
  match l with
  | [] => Ok best
  | x :: l' =>
      kx <- key x ;;
      if kx <? kbest then min_key_from key x kx l'
      else min_key_from key best kbest l'
  end.

Definition py_min_key {A} (key : A -> result Z) (l : list A) : result A :=
  match l with
  | [] => Raise (ValueError "min() iterable argument is empty")
  | x :: l' => kx <- key x ;; min_key_from key x kx l'
  end.

(** [x < y] on numbers. *)
Definition Qlt_bool (x y : Q) : bool := negb (Qle_bool y x).

(** [min(l)] and [max(l)] on numbers. *)
Definition py_min (l : list Q) : result Q :=
  match l with
  | [] => Raise (ValueError "min() iterable argument is empty")
  | x :: l' => Ok (fold_left (fun best y => if Qlt_bool y best then y else best) l' x)
  end.

Definition py_max (l : list Q) : result Q :=
  match l with
  | [] => Raise (ValueError "max() iterable argument is empty")
  | x :: l' => Ok (fold_left (fun best y => if Qlt_bool best y then y else best) l' x)
  end.

(** [str.title()] on ASCII text: a letter is upper-cased when the character
    before it is not a letter, lower-cased otherwise. *)
Definition is_upper (c : ascii) : bool :=
  let n := nat_of_ascii c in (65 <=? n)%nat && (n <=? 90)%nat.
Definition is_lower (c : ascii) : bool :=
  let n := nat_of_ascii c in (97 <=? n)%nat && (n <=? 122)%nat.
Definition to_upper (c : ascii) : ascii :=
  if is_lower c then ascii_of_nat (nat_of_ascii c - 32) else c.
Definition to_lower (c : ascii) : ascii :=
  if is_upper c then ascii_of_nat (nat_of_ascii c + 32) else c.

Fixpoint title_from (prev_cased : bool) (s : string) : string :=
  match s with
  | EmptyString => EmptyString
  | String c s' =>
      if is_lower c then
        String (if prev_cased then c else to_upper c) (title_from true s')
      else if is_upper c then
        String (if prev_cased then to_lower c else c) (title_from true s')
      else String c (title_from false s')
  end.

Definition title (s : string) : string := title_from false s.

(* ===================================================================== *)
(** * Data model *)
(* ===================================================================== *)

(** The [wind] object of a provider payload; both fields are optional. *)
Record Wind : Type := { speed : option Q; deg : option Q }.

(** One entry of [data['list']] of the forecast endpoint: a 3-hour sample. *)
Record RawSample : Type := {
  rs_dt : Z;                     (* item['dt'], epoch seconds *)
  rs_temp : Q;                   (* item['main']['temp'] *)
  rs_humidity : Q;               (* item['main']['humidity'] *)
  rs_description : string;       (* item['weather'][0]['description'] *)
  rs_wind : option Wind;         (* item.get('wind') *)
  rs_pop : option Q              (* item.get('pop') *)
}.

(** The decoded body of the forecast endpoint. *)
Record RawForecast : Type := {
  rf_list : list RawSample;      (* data['list'] *)
  rf_city_name : string;         (* data['city']['name'] *)
  rf_city_country : string       (* data['city']['country'] *)
}.

(** The decoded body of the current-conditions endpoint. *)
Record RawCurrent : Type := {
  rc_name : string;
  rc_country : string;           (* data['sys']['country'] *)
  rc_temp : Q;
  rc_feels_like : Q;
  rc_humidity : Q;
  rc_pressure : Q;
  rc_description : string;
  rc_wind : option Wind;
  rc_visibility : option Q;      (* metres *)
  rc_dt : Z;
  rc_sunrise : Z;
  rc_sunset : Z
}.

(** The dictionary built by [_format_current_weather]. *)
Record CurrentWeatherRecord : Type := {
  cw_location : string;
  cw_temperature : Q;
  cw_feels_like : Q;
  cw_humidity : Q;
  cw_pressure : Q;
  cw_description : string;
  cw_wind_speed : Q;
  cw_wind_direction : Q;
  cw_visibility : Q;             (* kilometres *)
  cw_timestamp : string;
  cw_sunrise : string;
  cw_sunset : string
}.

(** The seven-key dictionary built by [_aggregate_daily_forecast]. *)
Record DailyForecastRecord : Type := {
  df_date : string;
  df_temperature_min : Q;
  df_temperature_max : Q;
  df_description : string;
  df_humidity : Q;
  df_wind_speed : Q;
  df_precipitation_probability : Q
}.

(** What [_aggregate_daily_forecast] returns: [{}] for no samples, the
    seven-key dictionary otherwise. *)
Inductive DailyDict : Type :=
  | EmptyDict
  | Daily (r : DailyForecastRecord).

(** The dictionary built by [_format_forecast_data]. *)
Record ForecastResult : Type := {
  fr_location : string;
  fr_forecasts : list DailyDict
}.

(** An [aiohttp.ClientSession]. *)
Record ClientSession : Type := { closed : bool }.

(** An instance of the class [WeatherService]. *)
Record WeatherService : Type := {
  api_key : string;
  base_url : string;
  session : option ClientSession
}.

(** What the sources keep in the agent-specific state of the host. *)
Inductive StateValue : Type :=
  | SVService (ws : WeatherService)
  | SVStr (s : string)
  | SVInt (n : Z).

(** Python truthiness of a stored value ([if not weather_service]). *)
Definition truthy (v : StateValue) : bool :=
  match v with
  | SVService _ => true
  | SVStr s => negb (String.eqb s "")
  | SVInt n => negb (n =? 0)
  end.

(** The query of a request to the provider. *)
Record HttpRequest : Type := {
  url : string;
  q : string;
  appid : string;
  units_param : string;
  cnt : option Z
}.

(** What [session.get] and the decoding of its response come to. *)
Inductive HttpOutcome (Body : Type) : Type :=
  | Response200 (data : Body)           (* status 200 and a body of the expected shape *)
  | Response404                         (* status 404 *)
  | ResponseOther (message : option string)
                                        (* another status; [error_data.get('message')] *)
  | ClientError (msg : string)          (* the transport raises [aiohttp.ClientError] *)
  | BodyError (e : exn).                (* decoding the body or reading a key raises [e] *)
Arguments Response200 {Body} data.
Arguments Response404 {Body}.
Arguments ResponseOther {Body} message.
Arguments ClientError {Body} msg.
Arguments BodyError {Body} e.

(** The data a tool hands to the artifact store ([json.dumps] of it). *)
Inductive Payload : Type :=
  | PCurrent (d : CurrentWeatherRecord)
  | PForecast (d : ForecastResult).

(** The arguments of [save_artifact_with_metadata]. *)
Record ArtifactRequest : Type := {
  ar_app_name : string;
  ar_user_id : string;
  ar_session_id : string;
  ar_filename : string;
  ar_content : Payload;
  ar_mime_type : string;
  ar_timestamp : Z
}.

(** What [save_artifact_with_metadata] comes to: a dictionary, of which the
    sources read [status], or an exception. *)
Inductive SaveOutcome : Type :=
  | SaveReturned (status : option string)
  | SaveRaised (e : exn).

(** The collaborators outside the repository. *)
Record Host : Type := {
  agent_name : string;
  http_current : HttpRequest -> HttpOutcome RawCurrent;
  http_forecast : HttpRequest -> HttpOutcome RawForecast;
  save_artifact_with_metadata : ArtifactRequest -> SaveOutcome;
  now_utc : Z                           (* datetime.now(timezone.utc), epoch seconds *)
}.

Inductive LogLevel : Type := INFO | WARNING | ERROR.

(** Observable effects, in the order in which they happen. *)
Inductive Event : Type :=
  | EvLog (level : LogLevel) (msg : string)
  | EvStateGet (key : string)
  | EvStateSet (key : string)
  | EvHttpGet (req : HttpRequest)
  | EvArtifactSave (req : ArtifactRequest).

(** The mutable part of the host: the agent-specific state and the effects
    performed so far. *)
Record World : Type := {
  agent_state : gmap string StateValue;
  trace : list Event
}.

Definition emit (e : Event) (w : World) : World :=
  {| agent_state := agent_state w; trace := trace w ++ [e] |}.

Definition log_info (msg : string) : World -> World := emit (EvLog INFO msg).
Definition log_warning (msg : string) : World -> World := emit (EvLog WARNING msg).
Definition log_error (msg : string) : World -> World := emit (EvLog ERROR msg).

(** [host_component.get_agent_specific_state(key)]. *)
Definition get_agent_specific_state (key : string) (w : World)
    : option StateValue * World :=
  (agent_state w !! key, emit (EvStateGet key) w).

(** [host_component.set_agent_specific_state(key, value)]. *)
Definition set_agent_specific_state (key : string) (v : StateValue) (w : World)
    : World :=
  emit (EvStateSet key)
    {| agent_state := <[key := v]> (agent_state w); trace := trace w |}.

(** A method of [WeatherService] mutates the instance in place; the instance
    is the one object the state store holds under ["weather_service"], so
    the mutation is visible through the store. *)
Definition mutate_service (ws : WeatherService) (w : World) : World :=
  {| agent_state := <["weather_service" := SVService ws]> (agent_state w);
     trace := trace w |}.

(** A dictionary returned by a tool. *)
#[warnings="-register-all"]
Inductive Value : Type :=
  | VStr (s : string)
  | VCurrent (d : CurrentWeatherRecord)
  | VForecast (d : ForecastResult)
  | VDict (d : gmap string Value).

(** The agent object and the invocation context a tool receives. *)
Inductive HostComponent : Type := TheHostComponent.

Record Agent : Type := { host_component : option HostComponent }.

Record ToolContext : Type := {
  agent : option Agent;                 (* getattr(_invocation_context, "agent", None) *)
  app_name : string;
  user_id : string;
  session_id : string
}.

Definition NL : string := String (ascii_of_nat 10) "".

(** An [asyncio] event loop, as a caller that is not a coroutine finds it. *)
Inductive AbstractEventLoop : Type :=
  | Idle                                (* open and not running *)
  | Running                             (* running, as under a coroutine of the host *)
  | Closed.

(** What the calling thread has for [asyncio.get_event_loop()]. *)
Inductive EventLoopPolicy : Type :=
  | CurrentLoop (loop : AbstractEventLoop)
  | NoCurrentLoop (thread : string).    (* no loop is set and none is made *)

(** [asyncio.get_event_loop()]. *)
Definition get_event_loop (policy : EventLoopPolicy) : result AbstractEventLoop :=
  match policy with
  | CurrentLoop loop => Ok loop
  | NoCurrentLoop thread =>
      Raise (Exception ("There is no current event loop in thread '" +:+ thread
                        +:+ "'."))
  end.

(** [loop.run_until_complete(coroutine)] for a coroutine that returns
    normally: the loop is checked before the coroutine is started. *)
Definition run_until_complete (loop : AbstractEventLoop)
    (coroutine : World -> World) (w : World) : result unit * World :=
  match loop with
  | Idle => (Ok tt, coroutine w)
  | Running => (Raise (Exception "This event loop is already running"), w)
  | Closed => (Raise (Exception "Event loop is closed"), w)
  end.

(* ===================================================================== *)
(** * [services/weather_service.py] *)
(* ===================================================================== *)

Module weather_service.

Section Formatting.

Variable rt : PyRuntime.

(** [datetime.fromtimestamp(x['dt'])] in the host's zone. *)
Definition sample_datetime (x : RawSample) : result Calendar.datetime :=
  Calendar.fromtimestamp (utcoffset rt) (rs_dt x).

(** [x.get('wind', {}).get('speed', 0)]. *)
Definition wind_speed_or_0 (w : option Wind) : Q :=
  match w with
  | Some w' => match speed w' with Some v => v | None => 0%Q end
  | None => 0%Q
  end.

Definition wind_deg_or_0 (w : option Wind) : Q :=
  match w with
  | Some w' => match deg w' with Some v => v | None => 0%Q end
  | None => 0%Q
  end.

(** The key of the noon search: [abs(fromtimestamp(x['dt']).hour - 12)]. *)
Definition noon_key (x : RawSample) : result Z :=
  d <- sample_datetime x ;; Ok (Z.abs (Calendar.dt_hour d - 12)).

(** [noon_forecast = min(daily_data, key=...)]. *)
Definition noon_forecast (daily_data : list RawSample) : result RawSample :=
  py_min_key noon_key daily_data.

Definition _aggregate_daily_forecast (daily_data : list RawSample)
    : result DailyDict :=
  match daily_data with
  | [] => Ok EmptyDict
  | first :: _ =>
      let temps := map rs_temp daily_data in
      noon <- noon_forecast daily_data ;;
      d0 <- sample_datetime first ;;
      tmin <- py_min temps ;;
      tmax <- py_max temps ;;
      Ok (Daily {|
        df_date := Calendar.isoformat (Calendar.dt_date d0);
        df_temperature_min := tmin;
        df_temperature_max := tmax;
        df_description := title (rs_description noon);
        df_humidity := rs_humidity noon;
        df_wind_speed := wind_speed_or_0 (rs_wind noon);
        df_precipitation_probability :=
          (match rs_pop noon with Some p => p | None => 0 end * 100)%Q
      |})
  end.

(** The variables of the loop of [_format_forecast_data]. *)
Record LoopState : Type := {
  forecasts : list DailyDict;
  current_date : option Calendar.date;
  daily_data : list RawSample
}.

(** One iteration of [for item in data['list'][:days * 8]]. *)
Definition forecast_step (st : LoopState) (item : RawSample)
    : result LoopState :=
  d <- sample_datetime item ;;
  let forecast_date := Calendar.dt_date d in
  st1 <- (if decide (current_date st = Some forecast_date) then Ok st
          else
            fs <- match daily_data st with
                  | [] => Ok (forecasts st)
                  | _ :: _ =>
                      a <- _aggregate_daily_forecast (daily_data st) ;;
                      Ok (forecasts st ++ [a])
                  end ;;
            Ok {| forecasts := fs;
                  current_date := Some forecast_date;
                  daily_data := [] |}) ;;
  Ok {| forecasts := forecasts st1;
        current_date := current_date st1;
        daily_data := daily_data st1 ++ [item] |}.

Definition _format_forecast_data (data : RawForecast) (days : Z)
    : result ForecastResult :=
  let init := {| forecasts := []; current_date := None; daily_data := [] |} in
  st <- foldM forecast_step (py_slice_to (rf_list data) (days * 8)) init ;;
  fs <- match daily_data st with
        | [] => Ok (forecasts st)
        | _ :: _ =>
            a <- _aggregate_daily_forecast (daily_data st) ;;
            Ok (forecasts st ++ [a])
        end ;;
  Ok {| fr_location := rf_city_name data +:+ ", " +:+ rf_city_country data;
        fr_forecasts := py_slice_to fs days |}.

(** [datetime.fromtimestamp(t).isoformat()]. *)
Definition timestamp_isoformat (t : Z) : result string :=
  d <- Calendar.fromtimestamp (utcoffset rt) t ;;
  Ok (Calendar.isoformat (Calendar.dt_date d) +:+ "T"
      +:+ Calendar.pad2 (Calendar.dt_hour d) +:+ ":"
      +:+ Calendar.pad2 (Calendar.dt_minute d) +:+ ":"
      +:+ Calendar.pad2 (Calendar.dt_second d)).

Definition _format_current_weather (data : RawCurrent)
    : result CurrentWeatherRecord :=
  ts <- timestamp_isoformat (rc_dt data) ;;
  sunrise <- timestamp_isoformat (rc_sunrise data) ;;
  sunset <- timestamp_isoformat (rc_sunset data) ;;
  Ok {| cw_location := rc_name data +:+ ", " +:+ rc_country data;
        cw_temperature := rc_temp data;
        cw_feels_like := rc_feels_like data;
        cw_humidity := rc_humidity data;
        cw_pressure := rc_pressure data;
        cw_description := title (rc_description data);
        cw_wind_speed := wind_speed_or_0 (rc_wind data);
        cw_wind_direction := wind_deg_or_0 (rc_wind data);
        cw_visibility :=
          (match rc_visibility data with Some v => v | None => 0 end / 1000)%Q;
        cw_timestamp := ts;
        cw_sunrise := sunrise;
        cw_sunset := sunset |}.

End Formatting.

Section Client.

Variable rt : PyRuntime.
Variable host : Host.

Definition log_identifier : string := "[WeatherService]".

Definition _get_session (self : WeatherService)
    : ClientSession * WeatherService :=
  let fresh := {| closed := false |} in
  let renewed := {| api_key := api_key self; base_url := base_url self;
                    session := Some fresh |} in
  match session self with
  | None => (fresh, renewed)
  | Some s => if closed s then (fresh, renewed) else (s, self)
  end.

Definition close (self : WeatherService) (w : World)
    : result unit * WeatherService * World :=
  match session self with
  | Some s =>
      if negb (closed s) then
        (Ok tt,
         {| api_key := api_key self; base_url := base_url self;
            session := Some {| closed := true |} |},
         log_info (log_identifier +:+ " HTTP session closed") w)
      else (Ok tt, self, w)
  | None => (Ok tt, self, w)
  end.

(** The branches on [response.status], shared in shape by both methods. *)
Definition on_response {Body A} (what : string) (location : string)
    (format : Body -> result A) (o : HttpOutcome Body) (w : World)
    : result A * World :=
  match o with
  | Response200 data =>
      (format data,
       log_info (log_identifier +:+ " Successfully fetched " +:+ what
                 +:+ " for " +:+ location) w)
  | Response404 =>
      (Raise (ValueError ("Location '" +:+ location +:+ "' not found")), w)
  | ResponseOther message =>
      (Raise (Exception ("Weather API error: "
                         +:+ default "Unknown error" message)), w)
  | ClientError msg =>
      (Raise (Exception ("Network error: " +:+ msg)),
       log_error (log_identifier +:+ " Network error fetching " +:+ what
                  +:+ ": " +:+ msg) w)
  | BodyError e => (Raise e, w)
  end.

Definition get_current_weather (self : WeatherService)
    (location units : string) (w : World)
    : result CurrentWeatherRecord * WeatherService * World :=
  let w := log_info (log_identifier +:+ " Fetching current weather for: "
                     +:+ location) w in
  let '(_, self) := _get_session self in
  let req := {| url := base_url self +:+ "/weather"; q := location;
                appid := api_key self; units_param := units; cnt := None |} in
  let w := emit (EvHttpGet req) w in
  let '(r, w) := on_response "weather" location (_format_current_weather rt)
                   (http_current host req) w in
  (r, self, w).

Definition get_weather_forecast (self : WeatherService)
    (location : string) (days : Z) (units : string) (w : World)
    : result ForecastResult * WeatherService * World :=
  let w := log_info (log_identifier +:+ " Fetching " +:+ pretty days
                     +:+ "-day forecast for: " +:+ location) w in
  let '(_, self) := _get_session self in
  let req := {| url := base_url self +:+ "/forecast"; q := location;
                appid := api_key self; units_param := units;
                cnt := Some (Z.min (days * 8) 40) |} in
  let w := emit (EvHttpGet req) w in
  let '(r, w) := on_response "forecast" location
                   (fun data => _format_forecast_data rt data days)
                   (http_forecast host req) w in
  (r, self, w).

End Client.

End weather_service.

(* ===================================================================== *)
(** * [tools.py] *)
(* ===================================================================== *)

Module tools.

(** [{"status": "error", "message": message}]. *)
Definition error_dict (message : string) : gmap string Value :=
  {[ "status" := VStr "error"; "message" := VStr message ]}.

(** [str.strip()]: ASCII white space removed at both ends. *)
Definition is_space (c : ascii) : bool :=
  let n := nat_of_ascii c in
  ((9 <=? n)%nat && (n <=? 13)%nat) || (n =? 32)%nat.

Fixpoint lstrip (s : string) : string :=
  match s with
  | String c s' => if is_space c then lstrip s' else s
  | EmptyString => EmptyString
  end.

Fixpoint rstrip (s : string) : string :=
  match s with
  | String c s' =>
      match rstrip s' with
      | EmptyString => if is_space c then EmptyString else String c EmptyString
      | r => String c r
      end
  | EmptyString => EmptyString
  end.

Definition strip (s : string) : string := rstrip (lstrip s).

Section Tools.

Variable rt : PyRuntime.
Variable host : Host.

Definition _create_weather_summary (weather_data : CurrentWeatherRecord)
    : string :=
  let temp_unit := "°C" in
  let summary := "Current weather in " +:+ cw_location weather_data +:+ ":"
                 +:+ NL in
  let summary := summary +:+ "• Temperature: "
                 +:+ str_number rt (cw_temperature weather_data) +:+ temp_unit
                 +:+ " (feels like "
                 +:+ str_number rt (cw_feels_like weather_data) +:+ temp_unit
                 +:+ ")" +:+ NL in
  let summary := summary +:+ "• Conditions: " +:+ cw_description weather_data
                 +:+ NL in
  let summary := summary +:+ "• Humidity: "
                 +:+ str_number rt (cw_humidity weather_data) +:+ "%" +:+ NL in
  let summary := summary +:+ "• Wind: "
                 +:+ str_number rt (cw_wind_speed weather_data) +:+ " m/s"
                 +:+ NL in
  let summary := summary +:+ "• Visibility: "
                 +:+ str_number rt (cw_visibility weather_data) +:+ " km" in
  summary.

(** The body of the loop of [_create_forecast_summary]. *)
Definition forecast_summary_step (summary : string) (forecast : DailyDict)
    : result string :=
  match forecast with
  | EmptyDict => Raise (Exception "'date'")        (* KeyError *)
  | Daily f =>
      d <- Calendar.fromisoformat (df_date f) ;;
      let date := Calendar.strftime_A_B_d d in
      let summary := summary +:+ "• " +:+ date +:+ ": " +:+ df_description f
                     +:+ NL in
      let summary := summary +:+ "  High: "
                     +:+ format_fixed rt 1 (df_temperature_max f)
                     +:+ "°C, Low: "
                     +:+ format_fixed rt 1 (df_temperature_min f)
                     +:+ "°C" +:+ NL in
      let summary :=
        if Qlt_bool 0 (df_precipitation_probability f) then
          summary +:+ "  Precipitation: "
          +:+ format_fixed rt 0 (df_precipitation_probability f)
          +:+ "% chance" +:+ NL
        else summary in
      Ok (summary +:+ NL)
  end.

Definition _create_forecast_summary (forecast_data : ForecastResult)
    : result string :=
  summary <- foldM forecast_summary_step (fr_forecasts forecast_data)
               ("Weather forecast for " +:+ fr_location forecast_data +:+ ":"
                +:+ NL +:+ NL) ;;
  Ok (strip summary).

(** [_save_weather_artifact]: its own [try] turns every exception of the
    save into a dictionary. *)
Definition _save_weather_artifact (weather_data : Payload)
    (filename_base : string) (tool_context : ToolContext) (w : World)
    : gmap string Value * World :=
  let timestamp := now_utc host in
  let filename := filename_base +:+ "_"
                  +:+ Calendar.strftime_compact_utc timestamp +:+ ".json" in
  let req := {| ar_app_name := app_name tool_context;
                ar_user_id := user_id tool_context;
                ar_session_id := session_id tool_context;
                ar_filename := filename;
                ar_content := weather_data;
                ar_mime_type := "application/json";
                ar_timestamp := timestamp |} in
  let w := emit (EvArtifactSave req) w in
  match save_artifact_with_metadata host req with
  | SaveReturned status =>
      ({[ "filename" := VStr filename;
          "status" := VStr (default "success" status) ]}, w)
  | SaveRaised e =>
      (error_dict ("Failed to save artifact: " +:+ str_exn e),
       log_error ("[WeatherArtifact] Error saving artifact: " +:+ str_exn e) w)
  end.

(** The service found through the context; [inl message] stands for the
    early [return] of an error dictionary with that message. *)
Definition lookup_service (tool_context : ToolContext) (w : World)
    : (string + StateValue) * World :=
  let host_component :=
    match agent tool_context with
    | Some a => host_component a
    | None => None
    end in
  match host_component with
  | None => (inl "Could not access agent host component", w)
  | Some _ =>
      let '(weather_service, w) :=
        get_agent_specific_state "weather_service" w in
      match weather_service with
      | Some v =>
          if truthy v then (inr v, w)
          else (inl "Weather service not initialized", w)
      | None => (inl "Weather service not initialized", w)
      end
  end.

(** The [except ValueError] and [except Exception] clauses of a tool. *)
Definition handle (log_identifier what : string)
    (r : result (gmap string Value)) (w : World)
    : result (gmap string Value) * World :=
  match r with
  | Ok d => (Ok d, w)
  | Raise (ValueError m) =>
      (Ok (error_dict ("Location error: " +:+ m)),
       log_warning (log_identifier +:+ " Invalid location: " +:+ m) w)
  | Raise (Exception m) =>
      (Ok (error_dict ("Weather service error: " +:+ m)),
       log_error (log_identifier +:+ " Error getting " +:+ what +:+ ": " +:+ m) w)
  end.

(** The [try] block of [get_current_weather]. *)
Definition current_weather_try (log_identifier location units : string)
    (save_to_file : bool) (tool_context : ToolContext) (w : World)
    : result (gmap string Value) * World :=
  let '(found, w) := lookup_service tool_context w in
  match found with
  | inl message => (Ok (error_dict message), w)
  | inr (SVService ws) =>
      let '(fetched, ws, w) :=
        weather_service.get_current_weather rt host ws location units w in
      let w := mutate_service ws w in
      match fetched with
      | Raise e => (Raise e, w)
      | Ok weather_data =>
          let summary := _create_weather_summary weather_data in
          let result : gmap string Value :=
            {[ "status" := VStr "success";
               "location" := VStr (cw_location weather_data);
               "summary" := VStr summary;
               "data" := VCurrent weather_data ]} in
          let '(result, w) :=
            if save_to_file then
              let '(artifact_result, w) :=
                _save_weather_artifact (PCurrent weather_data)
                  ("current_weather_" +:+ location) tool_context w in
              (<["artifact" := VDict artifact_result]> result, w)
            else (result, w) in
          (Ok result,
           log_info (log_identifier +:+ " Successfully retrieved weather for "
                     +:+ location) w)
      end
  | inr _ =>
      (Raise (Exception "object has no attribute 'get_current_weather'"), w)
  end.

Definition get_current_weather (location units : string)
    (save_to_file : bool) (tool_context : option ToolContext) (w : World)
    : result (gmap string Value) * World :=
  let log_identifier := "[GetCurrentWeather]" in
  let w := log_info (log_identifier +:+ " Getting current weather for: "
                     +:+ location) w in
  match tool_context with
  | None =>
      (Ok (error_dict "Tool context is required for weather operations"), w)
  | Some ctx =>
      let '(r, w) :=
        current_weather_try log_identifier location units save_to_file ctx w in
      handle log_identifier "weather" r w
  end.

(** The [try] block of [get_weather_forecast]. *)
Definition weather_forecast_try (log_identifier location : string) (days : Z)
    (units : string) (save_to_file : bool) (tool_context : ToolContext)
    (w : World) : result (gmap string Value) * World :=
  let '(found, w) := lookup_service tool_context w in
  match found with
  | inl message => (Ok (error_dict message), w)
  | inr (SVService ws) =>
      let '(fetched, ws, w) :=
        weather_service.get_weather_forecast rt host ws location days units w in
      let w := mutate_service ws w in
      match fetched with
      | Raise e => (Raise e, w)
      | Ok forecast_data =>
          match _create_forecast_summary forecast_data with
          | Raise e => (Raise e, w)
          | Ok summary =>
              let result : gmap string Value :=
                {[ "status" := VStr "success";
                   "location" := VStr (fr_location forecast_data);
                   "summary" := VStr summary;
                   "data" := VForecast forecast_data ]} in
              let '(result, w) :=
                if save_to_file then
                  let '(artifact_result, w) :=
                    _save_weather_artifact (PForecast forecast_data)
                      ("forecast_" +:+ location +:+ "_" +:+ pretty days
                       +:+ "day") tool_context w in
                  (<["artifact" := VDict artifact_result]> result, w)
                else (result, w) in
              (Ok result,
               log_info (log_identifier
                         +:+ " Successfully retrieved forecast for "
                         +:+ location) w)
          end
      end
  | inr _ =>
      (Raise (Exception "object has no attribute 'get_weather_forecast'"), w)
  end.

Definition get_weather_forecast (location : string) (days : Z)
    (units : string) (save_to_file : bool)
    (tool_context : option ToolContext) (w : World)
    : result (gmap string Value) * World :=
  let log_identifier := "[GetWeatherForecast]" in
  let w := log_info (log_identifier +:+ " Getting " +:+ pretty days
                     +:+ "-day forecast for: " +:+ location) w in
  match tool_context with
  | None =>
      (Ok (error_dict "Tool context is required for weather operations"), w)
  | Some ctx =>
      if negb ((1 <=? days) && (days <=? 5)) then
        (Ok (error_dict "Days must be between 1 and 5"), w)
      else
        let '(r, w) :=
          weather_forecast_try log_identifier location days units
            save_to_file ctx w in
        handle log_identifier "forecast" r w
  end.

End Tools.

End tools.

(* ===================================================================== *)
(** * [lifecycle.py] *)
(* ===================================================================== *)

Module lifecycle.

Record WeatherAgentInitConfig : Type := {
  cfg_api_key : string;                 (* api_key.get_secret_value() *)
  cfg_base_url : string;
  startup_message : string
}.

(** [f"{v}"] for a stored value. *)
Definition str_state_value (v : StateValue) : string :=
  match v with
  | SVInt n => pretty n
  | SVStr s => s
  | SVService _ => "<WeatherService object>"
  end.

Section Lifecycle.

Variable host : Host.

Definition initialize_weather_agent (init_config : WeatherAgentInitConfig)
    (w : World) : result unit * World :=
  let log_identifier := "[" +:+ agent_name host +:+ ":init]" in
  let w := log_info (log_identifier
                     +:+ " Starting Weather Agent initialization...") w in
  let weather_service :=
    {| api_key := cfg_api_key init_config;
       base_url := cfg_base_url init_config;
       session := None |} in
  let w := set_agent_specific_state "weather_service"
             (SVService weather_service) w in
  let w := log_info (log_identifier +:+ " " +:+ startup_message init_config) w in
  let w := set_agent_specific_state "initialized_at"
             (SVStr "2024-01-01T00:00:00Z") w in
  let w := set_agent_specific_state "weather_requests_count" (SVInt 0) w in
  let w := log_info (log_identifier
                     +:+ " Weather Agent initialization completed successfully")
             w in
  (Ok tt, w).

(** The value [cleanup_async] binds to [request_count]:
    [get_agent_specific_state("weather_requests_count", 0)]. *)
Definition read_request_count (w : World) : StateValue * World :=
  let '(v, w) := get_agent_specific_state "weather_requests_count" w in
  (default (SVInt 0) v, w).

(** The [try] block of [cleanup_async]. *)
Definition cleanup_try (log_identifier : string) (w : World)
    : result unit * World :=
  let '(weather_service, w) := get_agent_specific_state "weather_service" w in
  let '(closed_ok, w) :=
    match weather_service with
    | Some (SVService ws) =>
        let '(r, ws, w) := weather_service.close ws w in
        let w := mutate_service ws w in
        match r with
        | Ok _ =>
            (Ok tt,
             log_info (log_identifier +:+ " Weather service closed successfully")
               w)
        | Raise e => (Raise e, w)
        end
    | Some v =>
        if truthy v
        then (Raise (Exception "object has no attribute 'close'"), w)
        else (Ok tt, w)
    | None => (Ok tt, w)
    end in
  match closed_ok with
  | Raise e => (Raise e, w)
  | Ok _ =>
      let '(request_count, w) := read_request_count w in
      let w := log_info (log_identifier +:+ " Agent processed "
                         +:+ str_state_value request_count
                         +:+ " weather requests during its lifetime") w in
      (Ok tt, log_info (log_identifier +:+ " Weather Agent cleanup completed") w)
  end.

(** The coroutine [cleanup_async]: its [except Exception] clause logs what
    the [try] block raises, so it returns normally. *)
Definition cleanup_async (log_identifier : string) (w : World) : World :=
  let '(r, w) := cleanup_try log_identifier w in
  match r with
  | Ok _ => w
  | Raise e =>
      log_error (log_identifier +:+ " Error during cleanup: " +:+ str_exn e) w
  end.

(** [cleanup_weather_agent]: the two calls on the event loop are outside
    every [try], so what they raise reaches the caller, the coroutine not
    having started. *)
Definition cleanup_weather_agent (policy : EventLoopPolicy) (w : World)
    : result unit * World :=
  let log_identifier := "[" +:+ agent_name host +:+ ":cleanup]" in
  let w := log_info (log_identifier +:+ " Starting Weather Agent cleanup...") w in
  match get_event_loop policy with
  | Raise e => (Raise e, w)
  | Ok loop =>
      let '(r, w) := run_until_complete loop (cleanup_async log_identifier) w in
      match r with
      | Raise e => (Raise e, w)
      | Ok _ =>
          (Ok tt,
           log_info (log_identifier
                     +:+ " Weather Agent cleanup completed successfully") w)
      end
  end.

End Lifecycle.

End lifecycle.

(* ===================================================================== *)
(** * Runs of the agent *)
(* ===================================================================== *)

(** One call of a tool, as the host framework issues it. *)
Inductive ToolCall : Type :=
  | CallCurrentWeather (location units : string) (save_to_file : bool)
      (tool_context : option ToolContext)
  | CallWeatherForecast (location : string) (days : Z) (units : string)
      (save_to_file : bool) (tool_context : option ToolContext).

(** The world after one call; the collaborators may answer differently at
    every call. *)
Definition run_call (rt : PyRuntime) (c : Host * ToolCall) (w : World) : World :=
  match c with
  | (host, CallCurrentWeather location units save_to_file ctx) =>
      snd (tools.get_current_weather rt host location units save_to_file ctx w)
  | (host, CallWeatherForecast location days units save_to_file ctx) =>
      snd (tools.get_weather_forecast rt host location days units save_to_file
             ctx w)
  end.

Definition run_calls (rt : PyRuntime) (calls : list (Host * ToolCall))
    (w : World) : World :=
  fold_left (fun w c => run_call rt c w) calls w.

(** The HTTP requests among the effects of a trace. *)
Definition http_requests (t : list Event) : list HttpRequest :=
  omap (fun e => match e with EvHttpGet r => Some r | _ => None end) t.

(** The reads of the state store among the effects of a trace. *)
Definition state_reads (t : list Event) : list string :=
  omap (fun e => match e with EvStateGet k => Some k | _ => None end) t.

(** Shape of a tool result: [{status: "success", location, summary, data}],
    possibly with [artifact], or [{status: "error", message}]. *)
Definition success_result (d : gmap string Value) : Prop :=
  d !! "status" = Some (VStr "success")
  /\ (exists l, d !! "location" = Some (VStr l))
  /\ (exists s, d !! "summary" = Some (VStr s))
  /\ is_Some (d !! "data").

Definition error_result (d : gmap string Value) : Prop :=
  exists message, d = tools.error_dict message.

(* ===================================================================== *)
(** * Notions used in the statements *)
(* ===================================================================== *)

(** What a tool call leaves alone in the state store: every key but the
    service instance, which stays a service instance. *)
Definition same_state_but_service (w w' : World) : Prop :=
  (forall k, k <> "weather_service" ->
             agent_state w' !! k = agent_state w !! k)
  /\ ((exists ws, agent_state w !! "weather_service" = Some (SVService ws)) ->
      exists ws, agent_state w' !! "weather_service" = Some (SVService ws)).

(** The sample has a calendar date: [datetime.fromtimestamp] of its [dt]
    does not raise. *)
Definition dated (rt : PyRuntime) (x : RawSample) : Prop :=
  exists d, weather_service.sample_datetime rt x = Ok d.

(** The local calendar date of a sample, and its day number. *)
Definition sample_day (rt : PyRuntime) (x : RawSample) : Z :=
  Calendar.local_day (utcoffset rt) (rs_dt x).

Definition sample_date (rt : PyRuntime) (x : RawSample) : Calendar.date :=
  Calendar.civil_from_days (sample_day rt x).

(** The local hour of a sample and its distance to noon. *)
Definition sample_hour (rt : PyRuntime) (x : RawSample) : Z :=
  Calendar.local_hour (utcoffset rt) (rs_dt x).

Definition noon_distance (rt : PyRuntime) (x : RawSample) : Z :=
  Z.abs (sample_hour rt x - 12).

(** [m], at position [i] of [l], minimises [k] over [l], and every element
    before position [i] has a strictly larger [k]. *)
Definition first_minimum {A} (k : A -> Z) (l : list A) (i : nat) (m : A)
    : Prop :=
  l !! i = Some m
  /\ (forall y, y ∈ l -> k m <= k y)
  /\ (forall j y, (j < i)%nat -> l !! j = Some y -> k m < k y).

(** The local calendar never runs backwards: a later instant does not fall
    on an earlier local date.  Every zone of constant offset is such. *)
Definition calendar_monotone (rt : PyRuntime) : Prop :=
  forall t1 t2, t1 <= t2 ->
    Calendar.local_day (utcoffset rt) t1 <= Calendar.local_day (utcoffset rt) t2.

(** The samples come in the order of their timestamps. *)
Definition chronological (samples : list RawSample) : Prop :=
  StronglySorted (fun a b => rs_dt a <= rs_dt b) samples.

(** The number of distinct calendar dates among the samples. *)
Definition distinct_dates (rt : PyRuntime) (samples : list RawSample) : nat :=
  length (remove_dups (map (sample_date rt) samples)).

(** The samples of the list that fall on the date [d]. *)
Definition samples_on (rt : PyRuntime) (d : Calendar.date)
    (samples : list RawSample) : list RawSample :=
  filter (fun x => sample_date rt x = d) samples.

(** A daily record together with the day and the run of samples it was
    built from. *)
Record DayGroup : Type := {
  g_day : Z;
  g_run : list RawSample;
  g_record : DailyForecastRecord
}.

(** The record of [g] is what [_aggregate_daily_forecast] makes of its run,
    the run is not empty, all its samples fall on the day of [g], and the
    record is dated with that day. *)
Definition well_built (rt : PyRuntime) (g : DayGroup) : Prop :=
  g_run g <> []
  /\ Forall (fun x => sample_day rt x = g_day g) (g_run g)
  /\ weather_service._aggregate_daily_forecast rt (g_run g)
     = Ok (Daily (g_record g))
  /\ df_date (g_record g)
     = Calendar.isoformat (Calendar.civil_from_days (g_day g)).

(** What the loop of [_format_forecast_data] has built after the samples
    [items]. *)
Definition loop_inv (rt : PyRuntime) (items : list RawSample)
    (st : weather_service.LoopState) : Prop :=
  exists gs : list DayGroup,
    weather_service.forecasts st = map (fun g => Daily (g_record g)) gs
    /\ concat (map g_run gs) ++ weather_service.daily_data st = items
    /\ Forall (well_built rt) gs
    /\ StronglySorted Z.lt (map g_day gs)
    /\ match weather_service.current_date st with
       | None => weather_service.daily_data st = [] /\ gs = []
       | Some d =>
           exists k, d = Calendar.civil_from_days k
                     /\ weather_service.daily_data st <> []
                     /\ Forall (fun x => sample_day rt x = k)
                          (weather_service.daily_data st)
                     /\ Forall (fun g => g_day g < k) gs
       end.

(** The samples come in the order of their local calendar days. *)
Definition day_sorted (rt : PyRuntime) (items : list RawSample) : Prop :=
  StronglySorted (fun a b => sample_day rt a <= sample_day rt b) items.

(* ===================================================================== *)
(** * Sample inputs *)
(* ===================================================================== *)

(** A runtime in the UTC zone that writes a number as a fraction. *)
Definition sample_runtime : PyRuntime := {|
  utcoffset := fun _ => 0;
  str_number := fun x => pretty (Qnum x) +:+ "/" +:+ pretty (Zpos (Qden x));
  format_fixed := fun _ x => pretty (Qnum x) +:+ "/" +:+ pretty (Zpos (Qden x))
|}.

(** A host whose collaborators give the same answer to every request. *)
Definition sample_host (current : HttpOutcome RawCurrent)
    (forecast : HttpOutcome RawForecast) (saved : SaveOutcome) : Host := {|
  agent_name := "weather_agent";
  http_current := fun _ => current;
  http_forecast := fun _ => forecast;
  save_artifact_with_metadata := fun _ => saved;
  now_utc := 1704110400
|}.

Definition sample_context : ToolContext := {|
  agent := Some {| host_component := Some TheHostComponent |};
  app_name := "app";
  user_id := "user";
  session_id := "session"
|}.

Definition sample_config : lifecycle.WeatherAgentInitConfig := {|
  lifecycle.cfg_api_key := "key";
  lifecycle.cfg_base_url := "https://api.openweathermap.org/data/2.5";
  lifecycle.startup_message :=
    "Weather Agent is ready to provide weather information!"
|}.

Definition empty_world : World := {| agent_state := ∅; trace := [] |}.

(** The world right after [initialize_weather_agent]. *)
Definition initialized_world : World :=
  snd (lifecycle.initialize_weather_agent
         (sample_host Response404 Response404 (SaveReturned None))
         sample_config empty_world).

(** The dictionary a tool returned. *)
Definition result_or_empty (out : result (gmap string Value) * World)
    : gmap string Value :=
  match fst out with Ok d => d | Raise _ => ∅ end.

(** Midnight UTC of 2024-01-01, in epoch seconds. *)
Definition jan1 : Z := 1704067200.

Definition sample_at (t : Z) (temp : Q) (description : string) : RawSample := {|
  rs_dt := t;
  rs_temp := temp;
  rs_humidity := 50%Q;
  rs_description := description;
  rs_wind := Some {| speed := Some (3 # 1)%Q; deg := None |};
  rs_pop := Some (1 # 2)%Q
|}.

(** Three samples of 2024-01-01 and two of 2024-01-02. *)
Definition sample_list : list RawSample :=
  [ sample_at (jan1 + 6 * 3600) 1 "light rain";
    sample_at (jan1 + 12 * 3600) 3 "clear sky";
    sample_at (jan1 + 18 * 3600) 2 "few clouds";
    sample_at (jan1 + 86400 + 9 * 3600) 5 "overcast clouds";
    sample_at (jan1 + 86400 + 15 * 3600) 7 "scattered clouds" ].

Definition sample_forecast : RawForecast := {|
  rf_list := sample_list;
  rf_city_name := "London";
  rf_city_country := "GB"
|}.

Definition sample_current : RawCurrent := {|
  rc_name := "London";
  rc_country := "GB";
  rc_temp := (7 # 2)%Q;
  rc_feels_like := 1%Q;
  rc_humidity := 81%Q;
  rc_pressure := 1012%Q;
  rc_description := "light rain";
  rc_wind := Some {| speed := Some (4 # 1)%Q; deg := Some 250%Q |};
  rc_visibility := Some 10000%Q;
  rc_dt := jan1 + 12 * 3600;
  rc_sunrise := jan1 + 8 * 3600;
  rc_sunset := jan1 + 16 * 3600
|}.

(* ===================================================================== *)
(** * Notions used in the further properties *)
(* ===================================================================== *)


(** The dictionary is a seven-key daily record, not [{}], and carries the
    ISO date of a sample that has a calendar date. *)
Definition dated_record (rt : PyRuntime) (a : DailyDict) : Prop :=
  exists r x, a = Daily r /\ dated rt x
              /\ df_date r = Calendar.isoformat (sample_date rt x).

(** The dictionary is a seven-key daily record, not [{}], and carries the
    ISO date of one of [samples], which has a calendar date. *)
Definition record_of_sample (rt : PyRuntime) (samples : list RawSample)
    (a : DailyDict) : Prop :=
  exists r x, a = Daily r /\ In x samples /\ dated rt x
              /\ df_date r = Calendar.isoformat (sample_date rt x).

(** What the loop over some of [samples] keeps, whatever their order. *)
Definition loop_safe (rt : PyRuntime) (samples : list RawSample) (n : nat)
    (st : weather_service.LoopState) : Prop :=
  Forall (fun x => dated rt x /\ In x samples) (weather_service.daily_data st)
  /\ Forall (record_of_sample rt samples) (weather_service.forecasts st)
  /\ (length (weather_service.forecasts st)
      + length (weather_service.daily_data st) <= n)%nat.

(** The artifact saves among the effects of a trace. *)
Definition artifact_saves (t : list Event) : list ArtifactRequest :=
  omap (fun e => match e with EvArtifactSave r => Some r | _ => None end) t.

(** The context leads to the host component and the state store holds the
    service instance [ws]. *)
Definition service_reachable (ctx : ToolContext) (w : World)
    (ws : WeatherService) : Prop :=
  (exists a hc, agent ctx = Some a /\ host_component a = Some hc)
  /\ agent_state w !! "weather_service" = Some (SVService ws).

(** From [w] to [w'] the HTTP requests [reqs] and the artifact saves [saves]
    were added, in this order, and nothing else of either kind. *)
Definition adds (w w' : World) (reqs : list HttpRequest)
    (saves : list ArtifactRequest) : Prop :=
  http_requests (trace w') = http_requests (trace w) ++ reqs
  /\ artifact_saves (trace w') = artifact_saves (trace w) ++ saves.

(** The [params] of the two requests. *)
Definition current_request (ws : WeatherService) (location units : string)
    : HttpRequest :=
  {| url := base_url ws +:+ "/weather"; q := location; appid := api_key ws;
     units_param := units; cnt := None |}.

Definition forecast_request (ws : WeatherService) (location : string)
    (days : Z) (units : string) : HttpRequest :=
  {| url := base_url ws +:+ "/forecast"; q := location; appid := api_key ws;
     units_param := units; cnt := Some (Z.min (days * 8) 40) |}.
(** The arguments [_save_weather_artifact] passes to the artifact store. *)
Definition artifact_request (host : Host) (content : Payload)
    (filename_base : string) (ctx : ToolContext) : ArtifactRequest :=
  {| ar_app_name := app_name ctx;
     ar_user_id := user_id ctx;
     ar_session_id := session_id ctx;
     ar_filename := filename_base +:+ "_"
                    +:+ Calendar.strftime_compact_utc (now_utc host)
                    +:+ ".json";
     ar_content := content;
     ar_mime_type := "application/json";
     ar_timestamp := now_utc host |}.

(** The message of the error dictionary a tool returns for a failed fetch. *)
Definition failure_message {Body} (o : HttpOutcome Body) (location : string)
    : option string :=
  match o with
  | Response200 _ => None
  | Response404 =>
      Some ("Location error: " +:+ "Location '" +:+ location +:+ "' not found")
  | ResponseOther message =>
      Some ("Weather service error: " +:+ "Weather API error: "
            +:+ default "Unknown error" message)
  | ClientError msg =>
      Some ("Weather service error: " +:+ "Network error: " +:+ msg)
  | BodyError (ValueError m) => Some ("Location error: " +:+ m)
  | BodyError (Exception m) => Some ("Weather service error: " +:+ m)
  end.

(** The data a success dictionary carries, as the artifact store gets it. *)
Definition payload_of_value (v : Value) : option Payload :=
  match v with
  | VCurrent d => Some (PCurrent d)
  | VForecast d => Some (PForecast d)
  | _ => None
  end.

(** What a call has saved: nothing, with a result that has no [artifact]
    key, or, when [save_to_file] is set and the result is a success, the
    fetched data once, with an [artifact] dictionary that has a status. *)
Definition save_outcome (host : Host) (save_to_file : bool)
    (tool_context : option ToolContext) (filename_base : string)
    (w : World) (out : result (gmap string Value) * World) : Prop :=
  exists r, out.1 = Ok r
  /\ ((save_to_file = false \/ error_result r)
      /\ artifact_saves (trace out.2) = artifact_saves (trace w)
      /\ r !! "artifact" = None
      \/ save_to_file = true /\ success_result r
         /\ exists ctx v p a,
              tool_context = Some ctx
              /\ r !! "data" = Some v /\ payload_of_value v = Some p
              /\ artifact_saves (trace out.2)
                 = artifact_saves (trace w)
                   ++ [artifact_request host p filename_base ctx]
              /\ r !! "artifact" = Some (VDict a)
              /\ is_Some (a !! "status")).

(** [datetime.fromtimestamp(t)] does not raise. *)
Definition representable (rt : PyRuntime) (t : Z) : Prop :=
  exists d, Calendar.fromtimestamp (utcoffset rt) t = Ok d.

(** The service instance [initialize_weather_agent] stores for
    [sample_config]. *)
Definition sample_service : WeatherService :=
  {| api_key := "key";
     base_url := "https://api.openweathermap.org/data/2.5";
     session := None |}.

(* ===================================================================== *)
(** * The built-ins on known values *)
(* ===================================================================== *)

Example civil_epoch : Calendar.civil_from_days 0 = Calendar.Date 1970 1 1.
Proof. reflexivity. Qed.

Example civil_leap_day :
  Calendar.isoformat (Calendar.civil_from_days 19782) = "2024-02-29".
Proof. reflexivity. Qed.

Example iso_round :
  Calendar.fromisoformat "2024-02-29" = Ok (Calendar.Date 2024 2 29).
Proof. reflexivity. Qed.

Example strftime_example :
  Calendar.strftime_A_B_d (Calendar.Date 2024 1 1) = "Monday, January 01".
Proof. reflexivity. Qed.

Example title_example : title "light rain" = "Light Rain".
Proof. reflexivity. Qed.

(* ===================================================================== *)
(** * Properties of the tool boundary *)
(* ===================================================================== *)

Section ToolBoundary.

Variable rt : PyRuntime.
Variable host : Host.

Lemma error_dict_status m :
  tools.error_dict m !! "status" = Some (VStr "error").
Proof. unfold tools.error_dict. by simplify_map_eq. Qed.

Lemma error_dict_message m :
  tools.error_dict m !! "message" = Some (VStr m).
Proof. unfold tools.error_dict. by simplify_map_eq. Qed.

Lemma handle_returns li what r w :
  (forall d, r = Ok d -> success_result d \/ error_result d) ->
  exists d, fst (tools.handle li what r w) = Ok d
            /\ (success_result d \/ error_result d).
Proof.
  intros Hr. destruct r as [d|[m|m]]; simpl.
  - exists d. split; [done|]. by apply Hr.
  - eexists. split; [done|]. right. by eexists.
  - eexists. split; [done|]. right. by eexists.
Qed.

Lemma current_try_shape li location units save ctx w d :
  fst (tools.current_weather_try rt host li location units save ctx w) = Ok d ->
  success_result d \/ error_result d.
Proof.
  unfold tools.current_weather_try.
  destruct (tools.lookup_service ctx w) as [[m|v] w1].
  - simpl. intros [= <-]. right. by eexists.
  - destruct v as [ws| |]; simpl; [|discriminate..].
    destruct (weather_service.get_current_weather rt host ws location units w1)
      as [[[wd|e] ws'] w2]; simpl; [|discriminate].
    destruct save; simpl.
    + destruct (tools._save_weather_artifact host (PCurrent wd) _ ctx _)
        as [a w3]; simpl.
      intros [= <-]. left. unfold success_result.
      rewrite !lookup_insert_ne by done. simplify_map_eq. naive_solver.
    + intros [= <-]. left. unfold success_result. simplify_map_eq. naive_solver.
Qed.

Lemma forecast_try_shape li location days units save ctx w d :
  fst (tools.weather_forecast_try rt host li location days units save ctx w)
    = Ok d ->
  success_result d \/ error_result d.
Proof.
  unfold tools.weather_forecast_try.
  destruct (tools.lookup_service ctx w) as [[m|v] w1].
  - simpl. intros [= <-]. right. by eexists.
  - destruct v as [ws| |]; simpl; [|discriminate..].
    destruct (weather_service.get_weather_forecast rt host ws location days
                units w1) as [[[fd|e] ws'] w2]; simpl; [|discriminate].
    destruct (tools._create_forecast_summary rt fd) as [summary|e]; simpl;
      [|discriminate].
    destruct save; simpl.
    + destruct (tools._save_weather_artifact host (PForecast fd) _ ctx _)
        as [a w3]; simpl.
      intros [= <-]. left. unfold success_result.
      rewrite !lookup_insert_ne by done. simplify_map_eq. naive_solver.
    + intros [= <-]. left. unfold success_result. simplify_map_eq. naive_solver.
Qed.

End ToolBoundary.

(** C3. Whatever the inputs, the context, the state of the host and the
    answers of the collaborators (unknown location, upstream error, network
    error, missing context, service not initialised), [get_current_weather]
    and [get_weather_forecast] return a dictionary, never an exception: the
    dictionary is [{status: "success", location, summary, data, ...}] or
    [{status: "error", message}]. *)
Theorem tools_return_tagged_dictionary
    (rt : PyRuntime) (host : Host) (location units : string) (days : Z)
    (save_to_file : bool) (tool_context : option ToolContext) (w : World) :
  (exists d,
      fst (tools.get_current_weather rt host location units save_to_file
             tool_context w) = Ok d
      /\ (success_result d \/ error_result d))
  /\ (exists d,
      fst (tools.get_weather_forecast rt host location days units save_to_file
             tool_context w) = Ok d
      /\ (success_result d \/ error_result d)).
Proof.
  split.
  - unfold tools.get_current_weather.
    destruct tool_context as [ctx|].
    + destruct (tools.current_weather_try rt host _ location units
                  save_to_file ctx _) as [r w1] eqn:Htry.
      apply handle_returns. intros d ->.
      eapply current_try_shape. by rewrite Htry.
    + eexists. split; [done|]. right. by eexists.
  - unfold tools.get_weather_forecast.
    destruct tool_context as [ctx|].
    + destruct (negb _).
      * eexists. split; [done|]. right. by eexists.
      * destruct (tools.weather_forecast_try rt host _ location days units
                    save_to_file ctx _) as [r w1] eqn:Htry.
        apply handle_returns. intros d ->.
        eapply forecast_try_shape. by rewrite Htry.
    + eexists. split; [done|]. right. by eexists.
Qed.

Lemma error_dict_inj m1 m2 : tools.error_dict m1 = tools.error_dict m2 -> m1 = m2.
Proof.
  intros H. apply (f_equal (fun d => d !! "message")) in H.
  rewrite !error_dict_message in H. by injection H.
Qed.

(** C4, as stated, fails when no tool context is supplied: the context check
    comes first, so [days = 0] is answered with the missing-context error,
    not with the validation error. *)
Lemma days_validation_follows_context_check :
  fst (tools.get_weather_forecast sample_runtime
         (sample_host Response404 Response404 (SaveReturned None))
         "London" 0 "metric" false None initialized_world)
  = Ok (tools.error_dict "Tool context is required for weather operations")
  /\ tools.error_dict "Tool context is required for weather operations"
     <> tools.error_dict "Days must be between 1 and 5".
Proof.
  split; [reflexivity|]. intros H. apply error_dict_inj in H. discriminate.
Qed.

(** C4 (amended). For every [days] outside [1..5], [get_weather_forecast]
    returns an error dictionary and does nothing but write its first log
    line: no HTTP request is issued and the state store, hence the weather
    service, is neither read nor changed.  The message is the validation
    error ["Days must be between 1 and 5"] when a tool context is supplied
    and the missing-context error when it is not. *)
Theorem days_out_of_range_rejected_first
    (rt : PyRuntime) (host : Host) (location units : string) (days : Z)
    (save_to_file : bool) (tool_context : option ToolContext) (w : World) :
  days < 1 \/ 5 < days ->
  let out := tools.get_weather_forecast rt host location days units
               save_to_file tool_context w in
  fst out = Ok (tools.error_dict
                  (match tool_context with
                   | Some _ => "Days must be between 1 and 5"
                   | None => "Tool context is required for weather operations"
                   end))
  /\ (exists line, trace (snd out) = trace w ++ [EvLog INFO line])
  /\ http_requests (trace (snd out)) = http_requests (trace w)
  /\ state_reads (trace (snd out)) = state_reads (trace w)
  /\ agent_state (snd out) = agent_state w.
Proof.
  intros Hdays. unfold tools.get_weather_forecast.
  assert (Hneg : negb ((1 <=? days) && (days <=? 5)) = true).
  { apply negb_true_iff, andb_false_iff.
    destruct Hdays; [left; apply Z.leb_gt | right; apply Z.leb_gt]; lia. }
  assert (Hlog : forall line t, http_requests (t ++ [EvLog INFO line])
                                = http_requests t
                                /\ state_reads (t ++ [EvLog INFO line])
                                   = state_reads t).
  { intros line t. unfold http_requests, state_reads.
    rewrite !omap_app. simpl. by rewrite !app_nil_r. }
  destruct tool_context as [ctx|]; [rewrite Hneg|]; simpl;
    (split; [done|]); (split; [by eexists|]);
    (split; [apply Hlog|]); (split; [apply Hlog|done]).
Qed.

Lemma days_out_of_range_rejected_first_witness :
  (6 < 1 \/ 5 < 6)
  /\ fst (tools.get_weather_forecast sample_runtime
            (sample_host Response404 Response404 (SaveReturned None))
            "London" 6 "metric" false (Some sample_context) initialized_world)
     = Ok (tools.error_dict "Days must be between 1 and 5").
Proof.
  split; [lia|].
  apply (days_out_of_range_rejected_first sample_runtime
           (sample_host Response404 Response404 (SaveReturned None))
           "London" "metric" 6 false (Some sample_context) initialized_world).
  lia.
Defined.

Lemma on_response_404 {Body A} what location (format : Body -> result A) w :
  weather_service.on_response what location format Response404 w
  = (Raise (ValueError ("Location '" +:+ location +:+ "' not found")), w).
Proof. reflexivity. Qed.

Lemma lookup_service_found ctx a hc v w :
  agent ctx = Some a -> host_component a = Some hc ->
  agent_state w !! "weather_service" = Some v -> truthy v = true ->
  tools.lookup_service ctx w
  = (inr v, emit (EvStateGet "weather_service") w).
Proof.
  intros Ha Hh Hv Ht. unfold tools.lookup_service, get_agent_specific_state.
  by rewrite Ha, Hh, Hv, Ht.
Qed.

(** C5. When the provider answers 404 to the requests about [location], both
    methods of the client raise [ValueError("Location '<location>' not
    found")], which carries the location, and both tools turn it into
    [{status: "error", message: "Location error: Location '<location>' not
    found"}], which is no ["Weather service error: ..."] result. *)
Theorem not_found_is_location_error
    (rt : PyRuntime) (host : Host) (location units : string) (days : Z)
    (save_to_file : bool) (ctx : ToolContext) (a : Agent) (hc : HostComponent)
    (ws : WeatherService) (w : World) :
  (forall req, q req = location -> http_current host req = Response404) ->
  (forall req, q req = location -> http_forecast host req = Response404) ->
  agent ctx = Some a -> host_component a = Some hc ->
  agent_state w !! "weather_service" = Some (SVService ws) ->
  1 <= days <= 5 ->
  let not_found := "Location '" +:+ location +:+ "' not found" in
  (forall self w0,
      (weather_service.get_current_weather rt host self location units w0).1.1
      = Raise (ValueError not_found))
  /\ (forall self w0,
      (weather_service.get_weather_forecast rt host self location days units
         w0).1.1 = Raise (ValueError not_found))
  /\ fst (tools.get_current_weather rt host location units save_to_file
            (Some ctx) w)
     = Ok (tools.error_dict ("Location error: " +:+ not_found))
  /\ fst (tools.get_weather_forecast rt host location days units save_to_file
            (Some ctx) w)
     = Ok (tools.error_dict ("Location error: " +:+ not_found))
  /\ (forall m, tools.error_dict ("Location error: " +:+ not_found)
                <> tools.error_dict ("Weather service error: " +:+ m)).
Proof.
  intros Hcur Hfc Ha Hh Hws Hdays not_found.
  assert (Hc : forall self w0,
      (weather_service.get_current_weather rt host self location units w0).1.1
      = Raise (ValueError not_found)).
  { intros self w0. unfold weather_service.get_current_weather.
    destruct (weather_service._get_session self) as [s self'].
    rewrite Hcur by done. by rewrite on_response_404. }
  assert (Hf : forall self w0,
      (weather_service.get_weather_forecast rt host self location days units
         w0).1.1 = Raise (ValueError not_found)).
  { intros self w0. unfold weather_service.get_weather_forecast.
    destruct (weather_service._get_session self) as [s self'].
    rewrite Hfc by done. by rewrite on_response_404. }
  split; [exact Hc|]. split; [exact Hf|]. split; [|split].
  - unfold tools.get_current_weather, tools.current_weather_try.
    erewrite lookup_service_found by done. cbv beta iota.
    match goal with
    | |- context [weather_service.get_current_weather ?r ?h ?s ?l ?u ?w0] =>
        pose proof (Hc s w0) as Hr;
        destruct (weather_service.get_current_weather r h s l u w0)
          as [[fetched ws'] w']
    end.
    simpl in Hr. by subst fetched.
  - unfold tools.get_weather_forecast, tools.weather_forecast_try.
    replace (negb ((1 <=? days) && (days <=? 5))) with false
      by (symmetry; apply negb_false_iff, andb_true_iff;
          split; apply Z.leb_le; lia).
    erewrite lookup_service_found by done. cbv beta iota.
    match goal with
    | |- context [weather_service.get_weather_forecast ?r ?h ?s ?l ?d ?u ?w0] =>
        pose proof (Hf s w0) as Hr;
        destruct (weather_service.get_weather_forecast r h s l d u w0)
          as [[fetched ws'] w']
    end.
    simpl in Hr. by subst fetched.
  - intros m H. apply error_dict_inj in H. discriminate.
Qed.

Lemma not_found_is_location_error_witness :
  fst (tools.get_current_weather sample_runtime
         (sample_host Response404 Response404 (SaveReturned None))
         "Nowhereville" "metric" false (Some sample_context) initialized_world)
  = Ok (tools.error_dict
          "Location error: Location 'Nowhereville' not found").
Proof.
  pose proof (not_found_is_location_error sample_runtime
           (sample_host Response404 Response404 (SaveReturned None))
           "Nowhereville" "metric" 5 false sample_context
           {| host_component := Some TheHostComponent |} TheHostComponent
           {| api_key := "key";
              base_url := "https://api.openweathermap.org/data/2.5";
              session := None |}
           initialized_world
           (fun _ _ => eq_refl) (fun _ _ => eq_refl) eq_refl eq_refl eq_refl
           ltac:(lia)) as H.
  exact (proj1 (proj2 (proj2 H))).
Defined.

Lemma handle_error_not_success li what e w r :
  fst (tools.handle li what (Raise e) w) = Ok r ->
  r !! "status" = Some (VStr "success") -> False.
Proof.
  destruct e; simpl; intros [= <-]; rewrite error_dict_status; discriminate.
Qed.

Lemma error_dict_not_success m :
  tools.error_dict m !! "status" = Some (VStr "success") -> False.
Proof. rewrite error_dict_status. discriminate. Qed.

Lemma string_app_assoc (a b c : string) : (a +:+ b) +:+ c = a +:+ (b +:+ c).
Proof.
  induction a as [|x a IH]; [done|].
  change (String x ((a +:+ b) +:+ c) = String x (a +:+ b +:+ c)).
  by f_equal.
Qed.

(** C9. The summary of the current-weather tool is a function of the weather
    record alone, and it writes the temperature and the feels-like
    temperature followed by ["°C"]: every success result of
    [get_current_weather], for whatever [units], carries that summary of its
    [data]. *)
Theorem current_summary_labels_celsius (rt : PyRuntime) (host : Host) :
  (forall d : CurrentWeatherRecord,
      exists rest,
        tools._create_weather_summary rt d
        = "Current weather in " +:+ cw_location d +:+ ":" +:+ NL
          +:+ "• Temperature: " +:+ str_number rt (cw_temperature d) +:+ "°C"
          +:+ " (feels like " +:+ str_number rt (cw_feels_like d) +:+ "°C"
          +:+ ")" +:+ NL +:+ rest)
  /\ (forall location units save_to_file tool_context w r,
      fst (tools.get_current_weather rt host location units save_to_file
             tool_context w) = Ok r ->
      r !! "status" = Some (VStr "success") ->
      exists d,
        r !! "data" = Some (VCurrent d)
        /\ r !! "summary" = Some (VStr (tools._create_weather_summary rt d))).
Proof.
  split.
  - intros d. unfold tools._create_weather_summary. cbv zeta.
    eexists. rewrite !string_app_assoc. reflexivity.
  - intros location units save ctxo w r.
    unfold tools.get_current_weather.
    destruct ctxo as [ctx|]; simpl;
      [|intros [= <-] H; by destruct (error_dict_not_success _ H)].
    unfold tools.current_weather_try.
    destruct (tools.lookup_service ctx _) as [[m|v] w1]; simpl;
      [intros [= <-] H; by destruct (error_dict_not_success _ H)|].
    destruct v as [ws| |]; simpl;
      [|intros [= <-] H; by destruct (error_dict_not_success _ H)..].
    destruct (weather_service.get_current_weather rt host ws location units w1)
      as [[[wd|ex] ws'] w2]; simpl;
      [|intros H1 H2; by destruct (handle_error_not_success _ _ _ _ _ H1 H2)].
    destruct save; simpl.
    + destruct (tools._save_weather_artifact host (PCurrent wd) _ ctx _)
        as [ar w3]. simpl. intros [= <-] _. exists wd.
      rewrite !lookup_insert_ne by done. by simplify_map_eq.
    + intros [= <-] _. exists wd. by simplify_map_eq.
Qed.

Lemma current_summary_labels_celsius_witness :
  exists d,
    result_or_empty (tools.get_current_weather sample_runtime
       (sample_host (Response200 sample_current)
          (Response200 sample_forecast) (SaveReturned None))
       "London" "imperial" false (Some sample_context) initialized_world)
    !! "data" = Some (VCurrent d)
    /\ result_or_empty (tools.get_current_weather sample_runtime
         (sample_host (Response200 sample_current)
            (Response200 sample_forecast) (SaveReturned None))
         "London" "imperial" false (Some sample_context) initialized_world)
       !! "summary"
       = Some (VStr (tools._create_weather_summary sample_runtime d)).
Proof.
  apply (proj2 (current_summary_labels_celsius sample_runtime
           (sample_host (Response200 sample_current)
              (Response200 sample_forecast) (SaveReturned None)))
           "London" "imperial" false (Some sample_context) initialized_world);
    vm_compute; reflexivity.
Defined.

Example imperial_summary_in_celsius :
  result_or_empty (tools.get_current_weather sample_runtime
     (sample_host (Response200 sample_current)
        (Response200 sample_forecast) (SaveReturned None))
     "London" "imperial" false (Some sample_context) initialized_world)
  !! "summary"
  = Some (VStr ("Current weather in London, GB:" +:+ NL
                +:+ "• Temperature: 7/2°C (feels like 1/1°C)" +:+ NL
                +:+ "• Conditions: Light Rain" +:+ NL
                +:+ "• Humidity: 81/1%" +:+ NL
                +:+ "• Wind: 4/1 m/s" +:+ NL
                +:+ "• Visibility: 10000/1000 km")).
Proof. vm_compute. reflexivity. Qed.

(* ===================================================================== *)
(** * The request counter *)
(* ===================================================================== *)

Lemma same_state_refl w : same_state_but_service w w.
Proof. by split. Qed.

Lemma same_state_trans w1 w2 w3 :
  same_state_but_service w1 w2 -> same_state_but_service w2 w3 ->
  same_state_but_service w1 w3.
Proof.
  intros [H1 H1'] [H2 H2']. split.
  - intros k Hk. by rewrite H2, H1.
  - auto.
Qed.

Lemma same_state_emit e w : same_state_but_service w (emit e w).
Proof. by split. Qed.

Lemma same_state_mutate ws w : same_state_but_service w (mutate_service ws w).
Proof.
  split.
  - intros k Hk. simpl. by rewrite lookup_insert_ne.
  - intros _. exists ws. simpl. by rewrite lookup_insert_eq.
Qed.

Lemma same_state_of_eq w w' :
  agent_state w' = agent_state w -> same_state_but_service w w'.
Proof. intros H. split; rewrite H; auto. Qed.

Lemma on_response_state {Body A} what location (format : Body -> result A) o w :
  agent_state (snd (weather_service.on_response what location format o w))
  = agent_state w.
Proof. by destruct o. Qed.

Lemma service_current_state rt host ws location units w :
  agent_state
    (snd (weather_service.get_current_weather rt host ws location units w))
  = agent_state w.
Proof.
  unfold weather_service.get_current_weather.
  destruct (weather_service._get_session ws) as [s ws'].
  match goal with
  | |- context [weather_service.on_response ?a ?b ?c ?d ?e] =>
      pose proof (on_response_state a b c d e) as H;
      destruct (weather_service.on_response a b c d e) as [r w']
  end.
  simpl in *. by rewrite H.
Qed.

Lemma service_forecast_state rt host ws location days units w :
  agent_state
    (snd (weather_service.get_weather_forecast rt host ws location days units w))
  = agent_state w.
Proof.
  unfold weather_service.get_weather_forecast.
  destruct (weather_service._get_session ws) as [s ws'].
  match goal with
  | |- context [weather_service.on_response ?a ?b ?c ?d ?e] =>
      pose proof (on_response_state a b c d e) as H;
      destruct (weather_service.on_response a b c d e) as [r w']
  end.
  simpl in *. by rewrite H.
Qed.

Lemma save_artifact_state host d fb ctx w :
  agent_state (snd (tools._save_weather_artifact host d fb ctx w))
  = agent_state w.
Proof.
  unfold tools._save_weather_artifact.
  by destruct (save_artifact_with_metadata host _).
Qed.

Lemma lookup_service_state ctx w :
  agent_state (snd (tools.lookup_service ctx w)) = agent_state w.
Proof.
  unfold tools.lookup_service.
  destruct (match agent ctx with Some a => host_component a | None => None end);
    [|done].
  simpl. destruct (agent_state w !! "weather_service") as [v|]; [|done].
  by destruct (truthy v).
Qed.

Lemma handle_state li what r w :
  agent_state (snd (tools.handle li what r w)) = agent_state w.
Proof. by destruct r as [d|[m|m]]. Qed.

Lemma current_try_state rt host li location units save ctx w :
  same_state_but_service w
    (snd (tools.current_weather_try rt host li location units save ctx w)).
Proof.
  unfold tools.current_weather_try.
  pose proof (lookup_service_state ctx w) as Hl.
  destruct (tools.lookup_service ctx w) as [[m|v] w1]; simpl in *;
    [by apply same_state_of_eq|].
  destruct v as [ws| |]; simpl; [|by apply same_state_of_eq..].
  pose proof (service_current_state rt host ws location units w1) as Hs.
  destruct (weather_service.get_current_weather rt host ws location units w1)
    as [[fetched ws'] w2]; simpl in *.
  eapply same_state_trans; [apply same_state_of_eq; exact Hl|].
  eapply same_state_trans; [apply same_state_of_eq; exact Hs|].
  eapply same_state_trans; [apply (same_state_mutate ws')|].
  destruct fetched as [wd|e]; simpl; [|apply same_state_refl].
  destruct save; simpl; [|apply same_state_of_eq; done].
  match goal with
  | |- context [tools._save_weather_artifact ?a ?b ?c ?d ?e] =>
      pose proof (save_artifact_state a b c d e) as Ha;
      destruct (tools._save_weather_artifact a b c d e) as [ar w3]
  end.
  simpl in *. by apply same_state_of_eq.
Qed.

Lemma forecast_try_state rt host li location days units save ctx w :
  same_state_but_service w
    (snd (tools.weather_forecast_try rt host li location days units save ctx w)).
Proof.
  unfold tools.weather_forecast_try.
  pose proof (lookup_service_state ctx w) as Hl.
  destruct (tools.lookup_service ctx w) as [[m|v] w1]; simpl in *;
    [by apply same_state_of_eq|].
  destruct v as [ws| |]; simpl; [|by apply same_state_of_eq..].
  pose proof (service_forecast_state rt host ws location days units w1) as Hs.
  destruct (weather_service.get_weather_forecast rt host ws location days
              units w1) as [[fetched ws'] w2]; simpl in *.
  eapply same_state_trans; [apply same_state_of_eq; exact Hl|].
  eapply same_state_trans; [apply same_state_of_eq; exact Hs|].
  eapply same_state_trans; [apply (same_state_mutate ws')|].
  destruct fetched as [fd|e]; simpl; [|apply same_state_refl].
  destruct (tools._create_forecast_summary rt fd) as [summary|e]; simpl;
    [|apply same_state_refl].
  destruct save; simpl; [|apply same_state_of_eq; done].
  match goal with
  | |- context [tools._save_weather_artifact ?a ?b ?c ?d ?e] =>
      pose proof (save_artifact_state a b c d e) as Ha;
      destruct (tools._save_weather_artifact a b c d e) as [ar w3]
  end.
  simpl in *. by apply same_state_of_eq.
Qed.

Lemma run_call_state rt c w : same_state_but_service w (run_call rt c w).
Proof.
  destruct c as [host [location units save ctxo|location days units save ctxo]];
    simpl.
  - unfold tools.get_current_weather.
    destruct ctxo as [ctx|]; [|by apply same_state_of_eq].
    match goal with
    | |- context [tools.current_weather_try ?a ?b ?c ?d ?e ?f ?g ?h] =>
        pose proof (current_try_state a b c d e f g h) as Ht;
        destruct (tools.current_weather_try a b c d e f g h) as [r w1]
    end.
    simpl in Ht. eapply same_state_trans; [|apply same_state_of_eq, handle_state].
    eapply same_state_trans; [|exact Ht]. by apply same_state_of_eq.
  - unfold tools.get_weather_forecast.
    destruct ctxo as [ctx|]; [|by apply same_state_of_eq].
    destruct (negb _); [by apply same_state_of_eq|].
    match goal with
    | |- context [tools.weather_forecast_try ?a ?b ?c ?d ?e ?f ?g ?h ?i] =>
        pose proof (forecast_try_state a b c d e f g h i) as Ht;
        destruct (tools.weather_forecast_try a b c d e f g h i) as [r w1]
    end.
    simpl in Ht. eapply same_state_trans; [|apply same_state_of_eq, handle_state].
    eapply same_state_trans; [|exact Ht]. by apply same_state_of_eq.
Qed.

Lemma run_calls_state rt calls w : same_state_but_service w (run_calls rt calls w).
Proof.
  revert w. induction calls as [|c calls IH]; intros w; simpl.
  - apply same_state_refl.
  - eapply same_state_trans; [apply run_call_state|apply IH].
Qed.

Lemma trace_emit_here e w : In e (trace (emit e w)).
Proof. simpl. apply in_or_app. right. by left. Qed.

Lemma trace_emit_later e e' w : In e (trace w) -> In e (trace (emit e' w)).
Proof. intros H. simpl. apply in_or_app. by left. Qed.

Lemma cleanup_try_reports_count li w ws :
  agent_state w !! "weather_service" = Some (SVService ws) ->
  agent_state w !! "weather_requests_count" = Some (SVInt 0) ->
  fst (lifecycle.cleanup_try li w) = Ok tt
  /\ In (EvLog INFO (li +:+ " Agent processed " +:+ "0"
                     +:+ " weather requests during its lifetime"))
        (trace (snd (lifecycle.cleanup_try li w))).
Proof.
  intros Hws Hcount.
  unfold lifecycle.cleanup_try, get_agent_specific_state. simpl.
  rewrite Hws. unfold weather_service.close.
  destruct (session ws) as [[[|]]|]; simpl;
    unfold lifecycle.read_request_count, get_agent_specific_state; simpl;
    rewrite lookup_insert_ne by done; rewrite Hcount; simpl;
    (split; [done|]);
    apply in_or_app; left; apply in_or_app; right; by left.
Qed.

(** C10. [initialize_weather_agent] stores 0 under
    ["weather_requests_count"]; no sequence of tool calls, whatever the
    arguments and the answers of the collaborators, changes that entry; so
    the value [cleanup_async] reads back is 0.  When the event loop of the
    calling thread is open and not running, [cleanup_weather_agent] returns
    normally and has logged that the agent processed 0 weather requests; in
    every other case [asyncio.get_event_loop()] or [run_until_complete]
    raises, the cleanup raises right after its first log line and the
    counter is not read. *)
Theorem request_count_stays_zero
    (rt : PyRuntime) (host : Host) (cfg : lifecycle.WeatherAgentInitConfig)
    (w0 : World) (calls : list (Host * ToolCall)) (policy : EventLoopPolicy) :
  let w1 := snd (lifecycle.initialize_weather_agent host cfg w0) in
  let w2 := run_calls rt calls w1 in
  let out := lifecycle.cleanup_weather_agent host policy w2 in
  agent_state w1 !! "weather_requests_count" = Some (SVInt 0)
  /\ agent_state w2 !! "weather_requests_count" = Some (SVInt 0)
  /\ fst (lifecycle.read_request_count w2) = SVInt 0
  /\ match policy with
     | CurrentLoop Idle =>
         fst out = Ok tt
         /\ In (EvLog INFO (("[" +:+ agent_name host +:+ ":cleanup]")
                            +:+ " Agent processed " +:+ "0"
                            +:+ " weather requests during its lifetime"))
               (trace (snd out))
     | _ =>
         exists e,
           out = (Raise e,
                  log_info (("[" +:+ agent_name host +:+ ":cleanup]")
                            +:+ " Starting Weather Agent cleanup...") w2)
     end.
Proof.
  intros w1 w2 out.
  assert (H1 : agent_state w1 !! "weather_requests_count" = Some (SVInt 0)).
  { subst w1. unfold lifecycle.initialize_weather_agent. simpl.
    by rewrite lookup_insert_eq. }
  assert (Hs1 : exists ws, agent_state w1 !! "weather_service"
                           = Some (SVService ws)).
  { subst w1. unfold lifecycle.initialize_weather_agent. simpl.
    eexists. rewrite !lookup_insert_ne by done. by rewrite lookup_insert_eq. }
  destruct (run_calls_state rt calls w1) as [Hkeep Hserv]. fold w2 in Hkeep, Hserv.
  assert (H2 : agent_state w2 !! "weather_requests_count" = Some (SVInt 0)).
  { by rewrite Hkeep. }
  destruct (Hserv Hs1) as [ws Hws].
  split; [exact H1|]. split; [exact H2|]. split.
  - unfold lifecycle.read_request_count, get_agent_specific_state. simpl.
    by rewrite H2.
  - subst out. unfold lifecycle.cleanup_weather_agent.
    destruct policy as [[| |]|thread];
      cbn [get_event_loop run_until_complete]; [|by eexists..].
    unfold lifecycle.cleanup_async.
    match goal with
    | |- context [lifecycle.cleanup_try ?li ?w] =>
        destruct (cleanup_try_reports_count li w ws Hws H2) as [Hok Hin];
        destruct (lifecycle.cleanup_try li w) as [r w3]
    end.
    simpl in Hok, Hin. subst r. cbn [fst snd]. split; [done|].
    by apply trace_emit_later.
Qed.

(* ===================================================================== *)
(** * The weather client *)
(* ===================================================================== *)

(** C8. [close()] is idempotent.  On a client that never opened a session it
    returns normally and changes nothing.  On any client it returns
    normally and leaves the session absent or closed, and a second [close()]
    right after it returns normally too and changes nothing more. *)
Theorem close_is_idempotent
    (key base : string) (self : WeatherService) (w : World) :
  weather_service.close
    {| api_key := key; base_url := base; session := None |} w
  = (Ok tt, {| api_key := key; base_url := base; session := None |}, w)
  /\ (weather_service.close self w).1.1 = Ok tt
  /\ (session (weather_service.close self w).1.2 = None
      \/ session (weather_service.close self w).1.2
         = Some {| closed := true |})
  /\ weather_service.close (weather_service.close self w).1.2
       (weather_service.close self w).2
     = (Ok tt, (weather_service.close self w).1.2,
        (weather_service.close self w).2).
Proof.
  split; [reflexivity|].
  unfold weather_service.close.
  destruct self as [k b [[[|]]|]]; simpl; auto.
Qed.

(* ===================================================================== *)
(** * Daily aggregation *)
(* ===================================================================== *)

Lemma py_slice_to_nil {A} (n : Z) : py_slice_to (@nil A) n = [].
Proof. unfold py_slice_to. destruct (0 <=? n); apply take_nil. Qed.

(** C7. For an empty list of raw samples [_format_forecast_data] returns, for
    every [days], a result whose sequence of daily records is empty, and
    [_aggregate_daily_forecast] returns the empty dictionary; neither
    raises. *)
Theorem empty_samples_give_no_records
    (rt : PyRuntime) (name country : string) (days : Z) :
  weather_service._format_forecast_data rt
    {| rf_list := []; rf_city_name := name; rf_city_country := country |} days
  = Ok {| fr_location := name +:+ ", " +:+ country; fr_forecasts := [] |}
  /\ weather_service._aggregate_daily_forecast rt [] = Ok EmptyDict.
Proof.
  split; [|reflexivity].
  unfold weather_service._format_forecast_data. simpl.
  rewrite py_slice_to_nil. simpl. by rewrite py_slice_to_nil.
Qed.

Section Representative.

Variable rt : PyRuntime.

Lemma sample_datetime_dated x d :
  weather_service.sample_datetime rt x = Ok d ->
  Calendar.dt_date d = sample_date rt x
  /\ Calendar.dt_hour d = sample_hour rt x.
Proof.
  unfold weather_service.sample_datetime, Calendar.fromtimestamp.
  destruct (Calendar.year_in_range _); [|discriminate].
  by intros [= <-].
Qed.

Lemma noon_key_dated x :
  dated rt x -> weather_service.noon_key rt x = Ok (noon_distance rt x).
Proof.
  intros [d Hd]. unfold weather_service.noon_key. rewrite Hd. simpl.
  by destruct (sample_datetime_dated x d Hd) as [_ ->].
Qed.

Lemma first_minimum_singleton {A} (k : A -> Z) x : first_minimum k [x] 0 x.
Proof.
  split; [done|]. split.
  - intros y Hy. apply list_elem_of_singleton in Hy. subst. lia.
  - intros j y Hj. lia.
Qed.

Lemma first_minimum_snoc_keep {A} (k : A -> Z) pre i best x :
  first_minimum k pre i best -> k best <= k x ->
  first_minimum k (pre ++ [x]) i best.
Proof.
  intros (Hi & Hmin & Hbefore) Hx. split; [|split].
  - by rewrite lookup_app_l by (by eapply lookup_lt_Some).
  - intros y Hy. apply elem_of_app in Hy as [Hy|Hy]; [by apply Hmin|].
    apply list_elem_of_singleton in Hy. by subst.
  - intros j y Hj Hy. apply (Hbefore j y Hj).
    rewrite lookup_app_l in Hy; [done|].
    apply lookup_lt_Some in Hi. lia.
Qed.

Lemma first_minimum_snoc_replace {A} (k : A -> Z) pre i best x :
  first_minimum k pre i best -> k x < k best ->
  first_minimum k (pre ++ [x]) (length pre) x.
Proof.
  intros (Hi & Hmin & Hbefore) Hx. split; [|split].
  - rewrite lookup_app_r by lia. by rewrite Nat.sub_diag.
  - intros y Hy. apply elem_of_app in Hy as [Hy|Hy].
    + specialize (Hmin y Hy). lia.
    + apply list_elem_of_singleton in Hy. subst. lia.
  - intros j y Hj Hy. rewrite lookup_app_l in Hy by done.
    assert (Hin : y ∈ pre) by (apply list_elem_of_lookup; eauto).
    specialize (Hmin y Hin). lia.
Qed.

Lemma min_key_from_first_minimum {A} (key : A -> result Z) (k : A -> Z) l :
  forall pre i best,
    (forall x, x ∈ l -> key x = Ok (k x)) ->
    first_minimum k pre i best ->
    exists i' m, min_key_from key best (k best) l = Ok m
                 /\ first_minimum k (pre ++ l) i' m.
Proof.
  induction l as [|x l IH]; intros pre i best Hkey Hbest.
  - exists i, best. by rewrite app_nil_r.
  - simpl. rewrite (Hkey x) by (by left). simpl.
    assert (Hl : forall y, y ∈ l -> key y = Ok (k y)).
    { intros y Hy. apply Hkey. by right. }
    replace (pre ++ x :: l) with ((pre ++ [x]) ++ l)
      by (by rewrite <- app_assoc).
    destruct (k x <? k best) eqn:Hlt.
    + apply Z.ltb_lt in Hlt.
      apply (IH _ (length pre) x Hl).
      by eapply first_minimum_snoc_replace.
    + apply Z.ltb_ge in Hlt.
      apply (IH _ i best Hl).
      by apply first_minimum_snoc_keep.
Qed.

Lemma noon_forecast_first_minimum daily_data :
  daily_data <> [] -> Forall (dated rt) daily_data ->
  exists i x, weather_service.noon_forecast rt daily_data = Ok x
              /\ first_minimum (noon_distance rt) daily_data i x.
Proof.
  intros Hne Hdated. destruct daily_data as [|first rest]; [done|].
  unfold weather_service.noon_forecast, py_min_key.
  rewrite noon_key_dated by (by inversion Hdated). simpl.
  apply (min_key_from_first_minimum _ (noon_distance rt) rest [first] 0%nat first).
  - intros x Hx. apply noon_key_dated.
    rewrite Forall_forall in Hdated. apply Hdated. by right.
  - apply first_minimum_singleton.
Qed.

End Representative.

(** C2. For every non-empty group of samples that have a calendar date, the
    representative sample [noon_forecast] is the first element, in the
    original order, among those whose hour minimises [abs(hour - 12)], and
    the description, humidity, wind speed and precipitation probability of
    the daily record are read from it.  In particular, of three samples at
    hours 6, 12 and 18 the one at hour 12 is chosen. *)
Theorem representative_is_closest_to_noon
    (rt : PyRuntime) (daily_data : list RawSample) :
  daily_data <> [] -> Forall (dated rt) daily_data ->
  (exists i x r,
      weather_service.noon_forecast rt daily_data = Ok x
      /\ first_minimum (noon_distance rt) daily_data i x
      /\ weather_service._aggregate_daily_forecast rt daily_data = Ok (Daily r)
      /\ df_description r = title (rs_description x)
      /\ df_humidity r = rs_humidity x
      /\ df_wind_speed r = weather_service.wind_speed_or_0 (rs_wind x)
      /\ df_precipitation_probability r
         = (match rs_pop x with Some p => p | None => 0 end * 100)%Q)
  /\ (forall a b c,
      daily_data = [a; b; c] ->
      sample_hour rt a = 6 -> sample_hour rt b = 12 -> sample_hour rt c = 18 ->
      weather_service.noon_forecast rt daily_data = Ok b).
Proof.
  intros Hne Hdated. split.
  - destruct (noon_forecast_first_minimum rt daily_data Hne Hdated)
      as (i & x & Hnoon & Hmin).
    destruct daily_data as [|first rest]; [done|].
    assert (Hfirst : dated rt first) by (by inversion Hdated).
    destruct Hfirst as [d0 Hd0].
    unfold weather_service._aggregate_daily_forecast.
    rewrite Hnoon, Hd0. simpl.
    eexists i, x, _. split; [done|]. split; [exact Hmin|].
    split; [reflexivity|]. by simpl.
  - intros a b c -> Ha Hb Hc.
    unfold weather_service.noon_forecast, py_min_key.
    inversion Hdated as [|? ? Da Hbc]; subst.
    inversion Hbc as [|? ? Db Hc']; subst.
    inversion Hc' as [|? ? Dc _]; subst.
    simpl. rewrite !noon_key_dated by done. unfold noon_distance.
    rewrite Ha, Hb, Hc. reflexivity.
Qed.

Lemma representative_is_closest_to_noon_witness :
  weather_service.noon_forecast sample_runtime (take 3 sample_list)
  = Ok (sample_at (jan1 + 12 * 3600) 3 "clear sky").
Proof.
  refine (proj2 (representative_is_closest_to_noon sample_runtime
                   (take 3 sample_list) _ _) _ _ _ eq_refl _ _ _).
  - discriminate.
  - repeat constructor; eexists; vm_compute; reflexivity.
  - reflexivity.
  - reflexivity.
  - reflexivity.
Defined.

(* ===================================================================== *)
(** * Calendar facts *)
(* ===================================================================== *)

Section CalendarFacts.
Import Calendar.

Lemma era_bounds doe :
  0 <= doe < 146097 ->
  let yoe := (doe - doe / 1460 + doe / 36524 - doe / 146096) / 365 in
  let doy := doe - (365 * yoe + yoe / 4 - yoe / 100) in
  let mp := (5 * doy + 2) / 153 in
  let d := doy - (153 * mp + 2) / 5 + 1 in
  0 <= yoe <= 399 /\ 0 <= doy <= 365 /\ 0 <= mp <= 11 /\ 1 <= d <= 31.
Proof. intros H. cbv zeta. Z.div_mod_to_equations. lia. Qed.

Lemma civil_from_days_bounds z :
  1 <= month (civil_from_days z) <= 12 /\ 1 <= day (civil_from_days z) <= 31.
Proof.
  unfold civil_from_days. cbv zeta.
  assert (Hdoe : 0 <= (z + 719468) mod 146097 < 146097)
    by (apply Z.mod_pos_bound; lia).
  destruct (era_bounds _ Hdoe) as (Hyoe & Hdoy & Hmp & Hd).
  cbv zeta in Hyoe, Hdoy, Hmp, Hd. simpl month. simpl day.
  split; [|exact Hd].
  destruct (_ <? 10) eqn:E; [apply Z.ltb_lt in E|apply Z.ltb_ge in E]; lia.
Qed.

Lemma days_from_civil_from_days z : days_from_civil (civil_from_days z) = z.
Proof.
  unfold civil_from_days, days_from_civil. cbv zeta.
  assert (Hdoe : 0 <= (z + 719468) mod 146097 < 146097)
    by (apply Z.mod_pos_bound; lia).
  destruct (era_bounds _ Hdoe) as (Hyoe & Hdoy & Hmp & Hd).
  cbv zeta in Hyoe, Hdoy, Hmp, Hd. simpl month. simpl day. simpl year.
  set (doe := (z + 719468) mod 146097) in *.
  set (era := (z + 719468) / 146097) in *.
  set (yoe := (doe - doe / 1460 + doe / 36524 - doe / 146096) / 365) in *.
  set (doy := doe - (365 * yoe + yoe / 4 - yoe / 100)) in *.
  set (mp := (5 * doy + 2) / 153) in *.
  assert (Hz : z + 719468 = 146097 * era + doe) by (apply Z.div_mod; lia).
  assert (Hy : (if (if mp <? 10 then mp + 3 else mp - 9) <=? 2
                then (if (if mp <? 10 then mp + 3 else mp - 9) <=? 2
                      then yoe + era * 400 + 1 else yoe + era * 400) - 1
                else (if (if mp <? 10 then mp + 3 else mp - 9) <=? 2
                      then yoe + era * 400 + 1 else yoe + era * 400))
               = yoe + era * 400).
  { destruct (_ <=? 2); lia. }
  rewrite Hy.
  assert (Hmpp : (if 2 <? (if mp <? 10 then mp + 3 else mp - 9)
                  then (if mp <? 10 then mp + 3 else mp - 9) - 3
                  else (if mp <? 10 then mp + 3 else mp - 9) + 9) = mp).
  { destruct (mp <? 10) eqn:E; [apply Z.ltb_lt in E|apply Z.ltb_ge in E].
    - replace (2 <? mp + 3) with true by (symmetry; apply Z.ltb_lt; lia). lia.
    - replace (2 <? mp - 9) with false by (symmetry; apply Z.ltb_ge; lia). lia. }
  rewrite Hmpp.
  assert (He : (yoe + era * 400) / 400 = era).
  { rewrite Z.div_add by lia. rewrite Z.div_small by lia. lia. }
  assert (Hm : (yoe + era * 400) mod 400 = yoe).
  { rewrite Z.mod_add by lia. apply Z.mod_small. lia. }
  rewrite He, Hm. subst doy. lia.
Qed.

Lemma civil_from_days_inj z1 z2 :
  civil_from_days z1 = civil_from_days z2 -> z1 = z2.
Proof.
  intros H. rewrite <- (days_from_civil_from_days z1), H.
  apply days_from_civil_from_days.
Qed.

Lemma digit_inj a b :
  0 <= a -> 0 <= b -> digit a = digit b -> a mod 10 = b mod 10.
Proof.
  intros Ha Hb H. unfold digit in H.
  apply (f_equal nat_of_ascii) in H.
  assert (Hra : 0 <= a mod 10 < 10) by (apply Z.mod_pos_bound; lia).
  assert (Hrb : 0 <= b mod 10 < 10) by (apply Z.mod_pos_bound; lia).
  rewrite !nat_ascii_embedding in H by lia. lia.
Qed.

Lemma pad2_inj a b : 0 <= a < 100 -> 0 <= b < 100 -> pad2 a = pad2 b -> a = b.
Proof.
  intros Ha Hb H. unfold pad2 in H. injection H as H1 H0.
  apply digit_inj in H0; [|lia..].
  apply digit_inj in H1; [|apply Z.div_pos; lia..].
  Z.div_mod_to_equations. lia.
Qed.

Lemma pad4_inj a b :
  0 <= a < 10000 -> 0 <= b < 10000 -> pad4 a = pad4 b -> a = b.
Proof.
  intros Ha Hb H. unfold pad4, pad2 in H. injection H as H3 H2 H1 H0.
  apply digit_inj in H0; [|lia..].
  apply digit_inj in H1; [|apply Z.div_pos; lia..].
  apply digit_inj in H2; [|apply Z.div_pos; lia..].
  apply digit_inj in H3; [|apply Z.div_pos; lia..].
  Z.div_mod_to_equations. lia.
Qed.

Lemma isoformat_inj c1 c2 :
  0 <= year c1 < 10000 -> 0 <= month c1 < 100 -> 0 <= day c1 < 100 ->
  0 <= year c2 < 10000 -> 0 <= month c2 < 100 -> 0 <= day c2 < 100 ->
  isoformat c1 = isoformat c2 -> c1 = c2.
Proof.
  intros Hy1 Hm1 Hd1 Hy2 Hm2 Hd2 H.
  destruct c1 as [y1 m1 d1], c2 as [y2 m2 d2]. simpl in *.
  unfold isoformat, pad4, pad2 in H. simpl year in H. simpl month in H. simpl day in H.
  cbv [String.append] in H.
  injection H as A1 A2 A3 A4 B1 B2 C1 C2.
  assert (y1 = y2).
  { apply pad4_inj; [done..|]. unfold pad4, pad2. by rewrite A1, A2, A3, A4. }
  assert (m1 = m2).
  { apply pad2_inj; [done..|]. unfold pad2. by rewrite B1, B2. }
  assert (d1 = d2).
  { apply pad2_inj; [done..|]. unfold pad2. by rewrite C1, C2. }
  by subst.
Qed.

End CalendarFacts.

(* ===================================================================== *)
(** * One daily record per calendar date *)
(* ===================================================================== *)

Lemma foldM_app {A S} (f : S -> A -> result S) l1 l2 s :
  foldM f (l1 ++ l2) s = bind (foldM f l1 s) (foldM f l2).
Proof.
  revert s. induction l1 as [|x l1 IH]; intros s; simpl; [done|].
  destruct (f s x); simpl; [apply IH|done].
Qed.

Section Grouping.

Variable rt : PyRuntime.

Lemma aggregate_dated run k :
  run <> [] -> Forall (dated rt) run ->
  Forall (fun x => sample_day rt x = k) run ->
  exists r, weather_service._aggregate_daily_forecast rt run = Ok (Daily r)
            /\ df_date r = Calendar.isoformat (Calendar.civil_from_days k).
Proof.
  intros Hne Hdated Hday.
  destruct (noon_forecast_first_minimum rt run Hne Hdated) as (i & x & Hx & _).
  destruct run as [|first rest]; [done|].
  assert (Hfirst : dated rt first) by (by inversion Hdated).
  destruct Hfirst as [d0 Hd0].
  unfold weather_service._aggregate_daily_forecast.
  rewrite Hx, Hd0. simpl. eexists. split; [done|]. simpl.
  destruct (sample_datetime_dated rt first d0 Hd0) as [-> _].
  unfold sample_date. by rewrite (Forall_inv Hday).
Qed.

Lemma strongly_sorted_snoc (ks : list Z) k :
  StronglySorted Z.lt ks -> Forall (fun k' => k' < k) ks ->
  StronglySorted Z.lt (ks ++ [k]).
Proof.
  intros Hs Hk. apply StronglySorted_app. split; [|split].
  - intros x1 x2 H1 H2. apply list_elem_of_singleton in H2. subst.
    rewrite Forall_forall in Hk. by apply Hk.
  - done.
  - repeat constructor.
Qed.

Lemma forecast_step_inv items st x :
  loop_inv rt items st -> Forall (dated rt) items -> dated rt x ->
  (forall y, y ∈ items -> sample_day rt y <= sample_day rt x) ->
  exists st', weather_service.forecast_step rt st x = Ok st'
              /\ loop_inv rt (items ++ [x]) st'.
Proof.
  intros (gs & Hfs & Hitems & Hgs & Hsorted & Hcur) Hdated [d Hd] Hle.
  destruct (sample_datetime_dated rt x d Hd) as [Hdate _].
  unfold weather_service.forecast_step. rewrite Hd. simpl.
  rewrite Hdate.
  destruct (decide (weather_service.current_date st = Some (sample_date rt x)))
    as [Heq|Hne].
  - (* same date: the sample joins the open run *)
    simpl. eexists. split; [done|].
    rewrite Heq in Hcur. destruct Hcur as (k & Hk & Hnon & Hall & Hlt).
    apply civil_from_days_inj in Hk.
    exists gs. simpl. rewrite Heq.
    split; [done|]. split; [by rewrite app_assoc, Hitems|].
    split; [done|]. split; [done|].
    exists k. split; [by rewrite <- Hk|]. split.
    { intros H. by apply app_eq_nil in H as [_ ?]. }
    split; [|done].
    apply Forall_app. split; [done|]. repeat constructor. done.
  - (* another date: the open run, if any, is aggregated *)
    destruct (weather_service.current_date st) as [d'|] eqn:Hc.
    + destruct Hcur as (k & Hk & Hnon & Hall & Hlt).
      assert (Hsub : Forall (dated rt) (weather_service.daily_data st)).
      { rewrite <- Hitems in Hdated. by apply Forall_app in Hdated as [_ ?]. }
      destruct (aggregate_dated _ k Hnon Hsub Hall) as (r & Hr & Hrd).
      destruct (weather_service.daily_data st) as [|y0 ys] eqn:Hdd; [done|].
      rewrite Hr. simpl. eexists. split; [done|].
      set (g := {| g_day := k; g_run := y0 :: ys; g_record := r |}).
      assert (Hk_lt : k < sample_day rt x).
      { assert (k <> sample_day rt x).
        { intros ->. apply Hne. by rewrite Hk. }
        assert (sample_day rt y0 <= sample_day rt x).
        { apply Hle. rewrite <- Hitems. apply elem_of_app. right. by left. }
        rewrite (Forall_inv Hall) in *. lia. }
      exists (gs ++ [g]). simpl.
      split; [by rewrite Hfs, map_app|].
      split. { rewrite map_app, concat_app. simpl. rewrite app_nil_r.
               by rewrite <- Hitems, <- !app_assoc. }
      split. { apply Forall_app. split; [done|]. constructor; [|constructor].
               unfold well_built. simpl. done. }
      split. { rewrite map_app. simpl. apply strongly_sorted_snoc; [done|].
               by apply Forall_fmap. }
      exists (sample_day rt x). split; [done|]. split; [done|].
      split; [by repeat constructor|].
      apply Forall_app. split.
      * eapply Forall_impl; [exact Hlt|]. simpl. intros. lia.
      * by repeat constructor.
    + destruct Hcur as [Hdd ->]. rewrite Hdd. simpl.
      eexists. split; [done|]. exists []. simpl.
      rewrite Hdd in Hitems. simpl in Hitems. subst items. simpl in Hfs.
      split; [done|]. split; [done|]. split; [done|].
      split; [constructor|].
      exists (sample_day rt x). split; [done|]. split; [done|].
      split; [by repeat constructor|done].
Qed.


Lemma loop_runs items :
  Forall (dated rt) items -> day_sorted rt items ->
  exists st,
    foldM (weather_service.forecast_step rt) items
      {| weather_service.forecasts := [];
         weather_service.current_date := None;
         weather_service.daily_data := [] |} = Ok st
    /\ loop_inv rt items st.
Proof.
  induction items as [|x items IH] using rev_ind; intros Hdated Hsorted.
  - eexists. split; [done|]. exists []. simpl. repeat split; constructor.
  - apply Forall_app in Hdated as [Hd1 Hd2].
    apply StronglySorted_app in Hsorted as (Hle & Hs1 & _).
    destruct (IH Hd1 Hs1) as (st & Hst & Hinv).
    destruct (forecast_step_inv items st x Hinv Hd1 (Forall_inv Hd2))
      as (st' & Hstep & Hinv').
    { intros y Hy. apply Hle; [done|]. by left. }
    exists st'. split; [|done].
    rewrite foldM_app, Hst. simpl. by rewrite Hstep.
Qed.

(** The groups the loop has built once its last run is appended. *)
Lemma final_append items st :
  Forall (dated rt) items -> loop_inv rt items st ->
  exists gs : list DayGroup,
    match weather_service.daily_data st with
    | [] => Ok (weather_service.forecasts st)
    | _ :: _ =>
        a <- weather_service._aggregate_daily_forecast rt
               (weather_service.daily_data st) ;;
        Ok (weather_service.forecasts st ++ [a])
    end = Ok (map (fun g => Daily (g_record g)) gs)
    /\ concat (map g_run gs) = items
    /\ Forall (well_built rt) gs
    /\ StronglySorted Z.lt (map g_day gs).
Proof.
  intros Hdated (gs & Hfs & Hitems & Hgs & Hsort & Hcur).
  destruct (weather_service.current_date st) as [d|].
  - destruct Hcur as (k & Hk & Hnon & Hall & Hlt).
    assert (Hsub : Forall (dated rt) (weather_service.daily_data st)).
    { rewrite <- Hitems in Hdated. by apply Forall_app in Hdated as [_ ?]. }
    destruct (aggregate_dated _ k Hnon Hsub Hall) as (r & Hr & Hrd).
    destruct (weather_service.daily_data st) as [|y0 ys] eqn:Hdd; [done|].
    rewrite Hr. simpl.
    exists (gs ++ [{| g_day := k; g_run := y0 :: ys; g_record := r |}]).
    split; [by rewrite Hfs, map_app|].
    split. { rewrite map_app, concat_app. simpl. by rewrite app_nil_r. }
    split. { apply Forall_app. split; [done|]. constructor; [|constructor].
             unfold well_built. simpl. done. }
    rewrite map_app. simpl. apply strongly_sorted_snoc; [done|].
    by apply Forall_fmap.
  - destruct Hcur as [Hdd ->]. rewrite Hdd in *. simpl in *.
    exists []. rewrite Hfs. simpl. repeat split; [done|constructor..].
Qed.

Lemma group_members (gs : list DayGroup) g x :
  g ∈ gs -> x ∈ g_run g -> x ∈ concat (map g_run gs).
Proof.
  intros Hg Hx. apply list_elem_of_In, in_concat. exists (g_run g).
  split; [|by apply list_elem_of_In].
  apply in_map. by apply list_elem_of_In.
Qed.

Lemma member_group (gs : list DayGroup) x :
  x ∈ concat (map g_run gs) -> exists g, g ∈ gs /\ x ∈ g_run g.
Proof.
  intros Hx. apply list_elem_of_In, in_concat in Hx as (run & Hrun & Hx).
  apply in_map_iff in Hrun as (g & <- & Hg).
  exists g. split; by apply list_elem_of_In.
Qed.

Lemma strongly_sorted_lt_NoDup (ks : list Z) :
  StronglySorted Z.lt ks -> NoDup ks.
Proof.
  induction 1 as [|k ks Hs IH Hall]; constructor; [|done].
  intros Hin. rewrite Forall_forall in Hall. specialize (Hall k Hin). lia.
Qed.

Lemma group_dates_NoDup (gs : list DayGroup) :
  StronglySorted Z.lt (map g_day gs) ->
  NoDup (map Calendar.civil_from_days (map g_day gs)).
Proof.
  intros Hs. apply NoDup_fmap_2_strong.
  - intros k1 k2 _ _. apply civil_from_days_inj.
  - by apply strongly_sorted_lt_NoDup.
Qed.

Lemma groups_count (gs : list DayGroup) :
  Forall (well_built rt) gs -> StronglySorted Z.lt (map g_day gs) ->
  length gs = distinct_dates rt (concat (map g_run gs)).
Proof.
  intros Hgs Hsorted. unfold distinct_dates.
  rewrite <- (length_map g_day gs).
  rewrite <- (length_map Calendar.civil_from_days (map g_day gs)).
  apply Permutation_length, NoDup_Permutation.
  - by apply group_dates_NoDup.
  - apply NoDup_remove_dups.
  - intros d. rewrite elem_of_remove_dups. rewrite Forall_forall in Hgs.
    split.
    + intros Hd. apply list_elem_of_fmap in Hd as (k & -> & Hk).
      apply list_elem_of_fmap in Hk as (g & -> & Hg).
      destruct (Hgs g Hg) as (Hne & Hall & _).
      destruct (g_run g) as [|x run] eqn:Hrun; [done|].
      apply list_elem_of_fmap. exists x. split.
      * unfold sample_date. by rewrite (Forall_inv Hall).
      * apply (group_members gs g); [done|]. rewrite Hrun. by left.
    + intros Hd. apply list_elem_of_fmap in Hd as (x & -> & Hx).
      apply member_group in Hx as (g & Hg & Hx).
      destruct (Hgs g Hg) as (_ & Hall & _).
      rewrite Forall_forall in Hall.
      apply list_elem_of_fmap. exists (g_day g). split.
      * unfold sample_date. by rewrite (Hall x Hx).
      * apply list_elem_of_fmap. by exists g.
Qed.

Lemma filter_all {A} (P : A -> Prop) `{!forall x, Decision (P x)} (l : list A) :
  Forall P l -> filter P l = l.
Proof.
  induction 1 as [|x l Hx Hl IH]; [done|].
  rewrite filter_cons. destruct (decide (P x)); [by rewrite IH|done].
Qed.

Lemma run_within_filter (P : RawSample -> Prop) `{!forall x, Decision (P x)}
    (gs : list DayGroup) g :
  g ∈ gs -> Forall P (g_run g) ->
  (length (g_run g) <= length (filter P (concat (map g_run gs))))%nat.
Proof.
  intros Hg Hall. induction gs as [|g' gs IH]; [by apply elem_of_nil in Hg|].
  simpl. rewrite filter_app, length_app.
  apply elem_of_cons in Hg as [->|Hg].
  - rewrite (filter_all P _ Hall). lia.
  - specialize (IH Hg). lia.
Qed.

Lemma filter_take_length {A} (P : A -> Prop) `{!forall x, Decision (P x)}
    n (l : list A) :
  (length (filter P (take n l)) <= length (filter P l))%nat.
Proof.
  rewrite <- (take_drop n l) at 2. rewrite filter_app, length_app. lia.
Qed.

Lemma concat_length_bound (gs : list DayGroup) b :
  Forall (fun g => (length (g_run g) <= b)%nat) gs ->
  (length (concat (map g_run gs)) <= b * length gs)%nat.
Proof.
  induction 1 as [|g gs Hg Hgs IH]; simpl; [lia|].
  rewrite length_app. lia.
Qed.

Lemma distinct_dates_take n samples :
  (distinct_dates rt (take n samples) <= distinct_dates rt samples)%nat.
Proof.
  unfold distinct_dates. apply submseteq_length, NoDup_submseteq.
  - apply NoDup_remove_dups.
  - intros d. rewrite !elem_of_remove_dups. intros Hd.
    apply list_elem_of_fmap in Hd as (x & -> & Hx).
    apply list_elem_of_fmap. exists x. split; [done|].
    rewrite <- (take_drop n samples). apply elem_of_app. by left.
Qed.

Lemma chronological_day_sorted samples :
  calendar_monotone rt -> chronological samples -> day_sorted rt samples.
Proof.
  intros Hmono. unfold chronological, day_sorted.
  induction 1 as [|x l Hs IH Hall]; constructor; [done|].
  eapply Forall_impl; [exact Hall|]. simpl. intros y Hy. by apply Hmono.
Qed.

End Grouping.

Lemma dated_year_in_range rt x :
  dated rt x ->
  1 <= Calendar.year (sample_date rt x) <= 9999.
Proof.
  intros [d Hd]. unfold weather_service.sample_datetime,
    Calendar.fromtimestamp in Hd.
  fold (Calendar.local_day (utcoffset rt) (rs_dt x)) in Hd.
  fold (sample_day rt x) in Hd. fold (sample_date rt x) in Hd.
  destruct (Calendar.year_in_range (sample_date rt x)) eqn:E; [|discriminate].
  unfold Calendar.year_in_range, Calendar.MINYEAR, Calendar.MAXYEAR in E.
  apply andb_true_iff in E as [E1 E2].
  apply Z.leb_le in E1, E2. lia.
Qed.


Lemma constant_offset_monotone (rt : PyRuntime) (c : Z) :
  (forall t, utcoffset rt t = c) -> calendar_monotone rt.
Proof.
  intros Hc t1 t2 Hle. unfold Calendar.local_day, Calendar.local_seconds.
  rewrite !Hc. apply Z.div_le_mono; lia.
Qed.


(* ===================================================================== *)
(** * Further properties: calendar round trip *)
(* ===================================================================== *)

Section CalendarRoundTrip.
Import Calendar.

Lemma civil_day_within_month z :
  day (civil_from_days z)
  <= days_in_month (year (civil_from_days z)) (month (civil_from_days z)).
Proof.
  unfold civil_from_days. cbv zeta.
  assert (Hdoe : 0 <= (z + 719468) mod 146097 < 146097)
    by (apply Z.mod_pos_bound; lia).
  destruct (era_bounds _ Hdoe) as (Hyoe & Hdoy & Hmp & Hd).
  cbv zeta in Hyoe, Hdoy, Hmp, Hd. simpl month. simpl day. simpl year.
  set (doe := (z + 719468) mod 146097) in *.
  set (era := (z + 719468) / 146097) in *.
  set (yoe := (doe - doe / 1460 + doe / 36524 - doe / 146096) / 365) in *.
  set (doy := doe - (365 * yoe + yoe / 4 - yoe / 100)) in *.
  set (mp := (5 * doy + 2) / 153) in *.
  unfold days_in_month, is_leap.
  assert (Hmp' : mp = 0 \/ mp = 1 \/ mp = 2 \/ mp = 3 \/ mp = 4 \/ mp = 5 \/ mp = 6
                 \/ mp = 7 \/ mp = 8 \/ mp = 9 \/ mp = 10 \/ mp = 11) by lia.
  destruct Hmp' as [E|[E|[E|[E|[E|[E|[E|[E|[E|[E|[E|E]]]]]]]]]]];
    rewrite E in *; simpl; subst mp.
  1-11: (Z.div_mod_to_equations; lia).
  (* February *)
  assert (Hy : ((yoe + era * 400 + 1) mod 4 = (yoe + 1) mod 4)
               /\ ((yoe + era * 400 + 1) mod 100 = (yoe + 1) mod 100)
               /\ ((yoe + era * 400 + 1) mod 400 = (yoe + 1) mod 400)).
  { Z.div_mod_to_equations. lia. }
  destruct Hy as (-> & -> & ->).
  clearbody era. clear era.
  subst doy yoe. clearbody doe.
  (repeat match goal with |- context [?a =? ?b] => destruct (Z.eqb_spec a b) end;
    simpl; Z.div_mod_to_equations; lia).
Qed.

Lemma digit_val_digit n : 0 <= n -> digit_val (digit n) = Some (n mod 10).
Proof.
  intros Hn. unfold digit_val, digit.
  assert (Hr : 0 <= n mod 10 < 10) by (apply Z.mod_pos_bound; lia).
  rewrite nat_ascii_embedding by lia.
  rewrite Z2Nat.id by lia.
  replace ((48 <=? 48 + n mod 10) && (48 + n mod 10 <=? 57)) with true.
  - f_equal. lia.
  - symmetry. apply andb_true_iff. split; apply Z.leb_le; lia.
Qed.

Lemma fromisoformat_isoformat c :
  valid_date c = true -> fromisoformat (isoformat c) = Ok c.
Proof.
  intros Hv. destruct c as [y m d].
  pose proof Hv as Hv'.
  unfold valid_date, year_in_range, MINYEAR, MAXYEAR in Hv'. simpl in Hv'.
  repeat (apply andb_true_iff in Hv' as [Hv' ?]).
  repeat match goal with H : (_ <=? _) = true |- _ => apply Z.leb_le in H end.
  assert (Hd31 : d <= 31).
  { unfold days_in_month in *.
    repeat match goal with H : context [if ?b then _ else _] |- _ => destruct b end;
      lia. }
  unfold fromisoformat, isoformat, pad4, pad2. simpl year. simpl month. simpl day.
  cbv [String.append list_ascii_of_string]. cbv [digits_val].
  rewrite !digit_val_digit by (try apply Z.div_pos; lia).
  replace (10 * (10 * (10 * (10 * 0 + (y / 1000) mod 10) + (y / 100) mod 10)
                 + (y / 10) mod 10) + y mod 10) with y
    by (Z.div_mod_to_equations; lia).
  replace (10 * (10 * 0 + (m / 10) mod 10) + m mod 10) with m
    by (Z.div_mod_to_equations; lia).
  replace (10 * (10 * 0 + (d / 10) mod 10) + d mod 10) with d
    by (Z.div_mod_to_equations; lia).
  by rewrite Hv.
Qed.

Lemma civil_valid_date z :
  year_in_range (civil_from_days z) = true ->
  valid_date (civil_from_days z) = true.
Proof.
  intros Hy. unfold valid_date. rewrite Hy.
  pose proof (civil_from_days_bounds z) as [Hm Hd].
  pose proof (civil_day_within_month z) as Hdim.
  rewrite !andb_true_iff. repeat split; try done; apply Z.leb_le;
    [lia|lia|lia|exact Hdim].
Qed.

End CalendarRoundTrip.

(* ===================================================================== *)
(** * Further properties: aggregation, tools and lifecycle *)
(* ===================================================================== *)

Lemma Qlt_bool_true x y : Qlt_bool x y = true -> (x <= y)%Q.
Proof.
  unfold Qlt_bool. intros H. apply negb_true_iff in H.
  destruct (Qlt_le_dec x y) as [Hlt|Hle]; [by apply Qlt_le_weak|].
  apply Qle_bool_iff in Hle. congruence.
Qed.

Lemma Qlt_bool_false x y : Qlt_bool x y = false -> (y <= x)%Q.
Proof.
  unfold Qlt_bool. intros H. apply negb_false_iff in H.
  by apply Qle_bool_iff.
Qed.

Lemma fold_min_spec (l : list Q) (best : Q) :
  let m := fold_left (fun best y => if Qlt_bool y best then y else best) l best in
  (m = best \/ m ∈ l) /\ (m <= best)%Q /\ (forall t, t ∈ l -> (m <= t)%Q).
Proof.
  revert best. induction l as [|y l IH]; intros best; simpl.
  - split; [by left|]. split; [apply Qle_refl|]. intros t Ht.
    by apply elem_of_nil in Ht.
  - destruct (IH (if Qlt_bool y best then y else best)) as (Hin & Hle & Hall).
    destruct (Qlt_bool y best) eqn:E.
    + apply Qlt_bool_true in E. split; [|split].
      * right. destruct Hin as [->|Hin]; [by left|by right].
      * by eapply Qle_trans.
      * intros t Ht. apply elem_of_cons in Ht as [->|Ht]; [done|by apply Hall].
    + apply Qlt_bool_false in E. split; [|split].
      * destruct Hin as [->|Hin]; [by left|right; by right].
      * done.
      * intros t Ht. apply elem_of_cons in Ht as [->|Ht]; [|by apply Hall].
        by eapply Qle_trans.
Qed.

Lemma fold_max_spec (l : list Q) (best : Q) :
  let m := fold_left (fun best y => if Qlt_bool best y then y else best) l best in
  (m = best \/ m ∈ l) /\ (best <= m)%Q /\ (forall t, t ∈ l -> (t <= m)%Q).
Proof.
  revert best. induction l as [|y l IH]; intros best; simpl.
  - split; [by left|]. split; [apply Qle_refl|]. intros t Ht.
    by apply elem_of_nil in Ht.
  - destruct (IH (if Qlt_bool best y then y else best)) as (Hin & Hle & Hall).
    destruct (Qlt_bool best y) eqn:E.
    + apply Qlt_bool_true in E. split; [|split].
      * right. destruct Hin as [->|Hin]; [by left|by right].
      * by eapply Qle_trans.
      * intros t Ht. apply elem_of_cons in Ht as [->|Ht]; [done|by apply Hall].
    + apply Qlt_bool_false in E. split; [|split].
      * destruct Hin as [->|Hin]; [by left|right; by right].
      * done.
      * intros t Ht. apply elem_of_cons in Ht as [->|Ht]; [|by apply Hall].
        by eapply Qle_trans.
Qed.

Lemma py_min_spec (l : list Q) :
  l <> [] ->
  exists m, py_min l = Ok m /\ m ∈ l /\ (forall t, t ∈ l -> (m <= t)%Q).
Proof.
  destruct l as [|x l]; [done|]. intros _. eexists. split; [done|].
  destruct (fold_min_spec l x) as (Hin & Hle & Hall). split.
  - destruct Hin as [->|Hin]; [by left|by right].
  - intros t Ht. apply elem_of_cons in Ht as [->|Ht]; [done|by apply Hall].
Qed.

Lemma py_max_spec (l : list Q) :
  l <> [] ->
  exists m, py_max l = Ok m /\ m ∈ l /\ (forall t, t ∈ l -> (t <= m)%Q).
Proof.
  destruct l as [|x l]; [done|]. intros _. eexists. split; [done|].
  destruct (fold_max_spec l x) as (Hin & Hle & Hall). split.
  - destruct Hin as [->|Hin]; [by left|by right].
  - intros t Ht. apply elem_of_cons in Ht as [->|Ht]; [done|by apply Hall].
Qed.

(** X1. For every non-empty run of samples that have a calendar date,
    [_aggregate_daily_forecast] returns a record whose [temperature_min] and
    [temperature_max] are temperatures of samples of the run, bound the
    temperature of every sample of the run from below and from above, and
    satisfy [temperature_min <= temperature_max]. *)
Theorem daily_temperatures_bound_the_run
    (rt : PyRuntime) (run : list RawSample) :
  run <> [] -> Forall (dated rt) run ->
  exists r,
    weather_service._aggregate_daily_forecast rt run = Ok (Daily r)
    /\ df_temperature_min r ∈ map rs_temp run
    /\ df_temperature_max r ∈ map rs_temp run
    /\ (forall x, x ∈ run ->
          (df_temperature_min r <= rs_temp x)%Q
          /\ (rs_temp x <= df_temperature_max r)%Q)
    /\ (df_temperature_min r <= df_temperature_max r)%Q.
Proof.
  intros Hne Hdated.
  destruct (noon_forecast_first_minimum rt run Hne Hdated) as (i & x & Hx & _).
  destruct run as [|first rest]; [done|].
  assert (Hfirst : dated rt first) by (by inversion Hdated).
  destruct Hfirst as [d0 Hd0].
  destruct (py_min_spec (map rs_temp (first :: rest))) as (lo & Hlo & Hlo_in & Hlo_le);
    [done|].
  destruct (py_max_spec (map rs_temp (first :: rest))) as (hi & Hhi & Hhi_in & Hhi_le);
    [done|].
  unfold weather_service._aggregate_daily_forecast.
  rewrite Hx, Hd0, Hlo, Hhi. simpl. eexists. split; [done|]. simpl.
  split; [done|]. split; [done|]. split.
  - intros y Hy.
    assert (rs_temp y ∈ map rs_temp (first :: rest))
      by (apply list_elem_of_fmap; eauto).
    split; [by apply Hlo_le|by apply Hhi_le].
  - by apply Hlo_le.
Qed.

Lemma daily_temperatures_bound_the_run_witness :
  exists r,
    weather_service._aggregate_daily_forecast sample_runtime
      (take 3 sample_list) = Ok (Daily r)
    /\ (df_temperature_min r <= df_temperature_max r)%Q.
Proof.
  destruct (daily_temperatures_bound_the_run sample_runtime (take 3 sample_list))
    as (r & Hr & _ & _ & _ & Hle).
  - discriminate.
  - repeat constructor; eexists; vm_compute; reflexivity.
  - exists r. split; [exact Hr|exact Hle].
Defined.

Lemma aggregate_total rt first rest :
  Forall (dated rt) (first :: rest) ->
  exists r, weather_service._aggregate_daily_forecast rt (first :: rest)
            = Ok (Daily r)
            /\ df_date r = Calendar.isoformat (sample_date rt first).
Proof.
  intros Hdated.
  destruct (noon_forecast_first_minimum rt (first :: rest)) as (i & x & Hx & _);
    [done..|].
  assert (Hfirst : dated rt first) by (by inversion Hdated).
  destruct Hfirst as [d0 Hd0].
  unfold weather_service._aggregate_daily_forecast.
  rewrite Hx, Hd0. simpl. eexists. split; [done|]. simpl.
  by destruct (sample_datetime_dated rt first d0 Hd0) as [-> _].
Qed.

Lemma record_of_sample_dated rt samples a :
  record_of_sample rt samples a -> dated_record rt a.
Proof. intros (r & x & ? & _ & ? & ?). by exists r, x. Qed.

Lemma forecast_step_safe rt samples n st x :
  loop_safe rt samples n st -> dated rt x -> In x samples ->
  exists st', weather_service.forecast_step rt st x = Ok st'
              /\ loop_safe rt samples (S n) st'.
Proof.
  intros (Hd & Hf & Hlen) [d Hx] Hin.
  unfold weather_service.forecast_step. rewrite Hx. simpl.
  destruct (decide _) as [Heq|Hne]; simpl.
  - eexists. split; [done|]. split; [|split]; simpl.
    + apply Forall_app. split; [done|].
      constructor; [split; [by exists d|done]|constructor].
    + done.
    + rewrite length_app. simpl. lia.
  - destruct (weather_service.daily_data st) as [|y ys] eqn:Hdd.
    + simpl. eexists. split; [done|]. split; [|split]; simpl.
      * constructor; [split; [by exists d|done]|constructor].
      * done.
      * simpl in Hlen. lia.
    + destruct (aggregate_total rt y ys) as (r & Hr & Hrd).
      { eapply Forall_impl; [exact Hd|]. by intros ? [? _]. }
      rewrite Hr. simpl. eexists. split; [done|]. split; [|split]; simpl.
      * constructor; [split; [by exists d|done]|constructor].
      * apply Forall_app. split; [done|].
        constructor; [|constructor]. exists r, y.
        apply Forall_inv in Hd. destruct Hd as [Hy Hyin]. done.
      * rewrite length_app. simpl in *. lia.
Qed.

Lemma loop_safe_runs rt samples items :
  Forall (fun x => dated rt x /\ In x samples) items ->
  forall n st, loop_safe rt samples n st ->
  exists st', foldM (weather_service.forecast_step rt) items st = Ok st'
              /\ loop_safe rt samples (n + length items) st'.
Proof.
  induction 1 as [|x items [Hx Hin] Hitems IH]; intros n st Hst; simpl.
  - exists st. split; [done|]. by rewrite Nat.add_0_r.
  - destruct (forecast_step_safe rt samples n st x Hst Hx Hin)
      as (st1 & Hstep & Hst1).
    rewrite Hstep. simpl.
    destruct (IH (S n) st1 Hst1) as (st' & Hrun & Hst').
    exists st'. split; [done|].
    by replace (n + S (length items))%nat with (S n + length items)%nat by lia.
Qed.

Lemma py_slice_to_length {A} (l : list A) (n : Z) :
  0 <= n ->
  Z.of_nat (length (py_slice_to l n)) <= n
  /\ (length (py_slice_to l n) <= length l)%nat.
Proof.
  intros Hn. unfold py_slice_to.
  replace (0 <=? n) with true by (symmetry; apply Z.leb_le; lia).
  rewrite length_take. lia.
Qed.

Lemma py_slice_to_Forall {A} (P : A -> Prop) (l : list A) (n : Z) :
  Forall P l -> Forall P (py_slice_to l n).
Proof. intros H. unfold py_slice_to. destruct (0 <=? n); by apply Forall_take. Qed.

Lemma format_forecast_safe
    (rt : PyRuntime) (data : RawForecast) (days : Z) :
  0 <= days -> Forall (dated rt) (rf_list data) ->
  exists fr,
    weather_service._format_forecast_data rt data days = Ok fr
    /\ fr_location fr = rf_city_name data +:+ ", " +:+ rf_city_country data
    /\ Z.of_nat (length (fr_forecasts fr)) <= days
    /\ (length (fr_forecasts fr) <= length (rf_list data))%nat
    /\ Forall (record_of_sample rt (rf_list data)) (fr_forecasts fr).
Proof.
  intros Hdays Hdated.
  assert (Hitems : Forall (fun x => dated rt x /\ In x (rf_list data))
                     (py_slice_to (rf_list data) (days * 8))).
  { apply py_slice_to_Forall, Forall_forall. intros x Hx. split.
    - by apply (proj1 (Forall_forall _ _) Hdated).
    - by apply list_elem_of_In. }
  destruct (loop_safe_runs rt (rf_list data) _ Hitems 0%nat
              {| weather_service.forecasts := [];
                 weather_service.current_date := None;
                 weather_service.daily_data := [] |})
    as (st & Hst & Hd & Hf & Hlen).
  { split; [constructor|]. split; [constructor|]. simpl. lia. }
  unfold weather_service._format_forecast_data. cbv zeta. rewrite Hst. simpl.
  assert (Hitems_len :
    (length (py_slice_to (rf_list data) (days * 8)) <= length (rf_list data))%nat)
    by (apply py_slice_to_length; lia).
  assert (Hfs : exists fs,
    match weather_service.daily_data st with
    | [] => Ok (weather_service.forecasts st)
    | _ :: _ =>
        a <- weather_service._aggregate_daily_forecast rt
               (weather_service.daily_data st) ;;
        Ok (weather_service.forecasts st ++ [a])
    end = Ok fs
    /\ Forall (record_of_sample rt (rf_list data)) fs
    /\ (length fs <= length (rf_list data))%nat).
  { destruct (weather_service.daily_data st) as [|y ys] eqn:Hdd.
    - exists (weather_service.forecasts st). split; [done|]. split; [done|].
      simpl in Hlen. lia.
    - destruct (aggregate_total rt y ys) as (r & Hr & Hrd).
      { eapply Forall_impl; [exact Hd|]. by intros ? [? _]. }
      rewrite Hr. simpl. eexists. split; [done|]. split.
      + apply Forall_app. split; [done|].
        constructor; [|constructor]. exists r, y.
        apply Forall_inv in Hd. destruct Hd as [Hy Hyin]. done.
      + rewrite length_app. simpl in *. lia. }
  destruct Hfs as (fs & -> & Hdaily & Hfs_len). simpl.
  eexists. split; [done|]. simpl. split; [done|].
  destruct (py_slice_to_length fs days Hdays) as [H1 H2].
  split; [done|]. split; [lia|]. by apply py_slice_to_Forall.
Qed.

(** X2. For every [days >= 0] and every list of samples that have a
    calendar date, in whatever order, [_format_forecast_data] returns
    normally: the location is ["<city name>, <country>"], there are at most
    [days] daily records and at most as many as there are samples, and every
    one is a seven-key record (never [{}]) that carries the ISO date of a
    sample of the list. *)
Theorem forecast_is_total_and_bounded
    (rt : PyRuntime) (data : RawForecast) (days : Z) :
  0 <= days -> Forall (dated rt) (rf_list data) ->
  exists fr,
    weather_service._format_forecast_data rt data days = Ok fr
    /\ fr_location fr = rf_city_name data +:+ ", " +:+ rf_city_country data
    /\ Z.of_nat (length (fr_forecasts fr)) <= days
    /\ (length (fr_forecasts fr) <= length (rf_list data))%nat
    /\ Forall (fun a =>
                 exists r x,
                   a = Daily r /\ In x (rf_list data) /\ dated rt x
                   /\ df_date r = Calendar.isoformat (sample_date rt x))
              (fr_forecasts fr).
Proof. apply format_forecast_safe. Qed.

Lemma forecast_is_total_and_bounded_witness :
  exists fr,
    weather_service._format_forecast_data sample_runtime sample_forecast 1
    = Ok fr
    /\ Z.of_nat (length (fr_forecasts fr)) <= 1
    /\ Forall (fun a =>
                 exists r x,
                   a = Daily r /\ In x sample_list
                   /\ df_date r
                      = Calendar.isoformat (sample_date sample_runtime x))
              (fr_forecasts fr).
Proof.
  destruct (forecast_is_total_and_bounded sample_runtime sample_forecast 1)
    as (fr & Hfr & _ & Hlen & _ & Hrec).
  - lia.
  - repeat constructor; eexists; vm_compute; reflexivity.
  - exists fr. split; [exact Hfr|]. split; [exact Hlen|].
    eapply Forall_impl; [exact Hrec|].
    intros a (r & x & Ha & Hin & _ & Hd). exists r, x.
    split; [exact Ha|]. split; [exact Hin|exact Hd].
Defined.

Lemma forecast_step_same rt st x :
  dated rt x ->
  weather_service.current_date st = Some (sample_date rt x) ->
  weather_service.forecast_step rt st x
  = Ok {| weather_service.forecasts := weather_service.forecasts st;
          weather_service.current_date := weather_service.current_date st;
          weather_service.daily_data := weather_service.daily_data st ++ [x] |}.
Proof.
  intros [d Hd] Hcur. unfold weather_service.forecast_step. rewrite Hd. simpl.
  destruct (sample_datetime_dated rt x d Hd) as [-> _].
  by destruct (decide _).
Qed.

Lemma forecast_step_new rt st x a :
  dated rt x ->
  weather_service.current_date st <> Some (sample_date rt x) ->
  weather_service.daily_data st <> [] ->
  weather_service._aggregate_daily_forecast rt (weather_service.daily_data st)
  = Ok a ->
  weather_service.forecast_step rt st x
  = Ok {| weather_service.forecasts := weather_service.forecasts st ++ [a];
          weather_service.current_date := Some (sample_date rt x);
          weather_service.daily_data := [x] |}.
Proof.
  intros [d Hd] Hcur Hne Ha. unfold weather_service.forecast_step.
  rewrite Hd. simpl.
  destruct (sample_datetime_dated rt x d Hd) as [-> _].
  destruct (decide _); [done|].
  destruct (weather_service.daily_data st) as [|y ys]; [done|].
  by rewrite Ha.
Qed.

Lemma forecast_step_first rt st x :
  dated rt x ->
  weather_service.current_date st <> Some (sample_date rt x) ->
  weather_service.daily_data st = [] ->
  weather_service.forecast_step rt st x
  = Ok {| weather_service.forecasts := weather_service.forecasts st;
          weather_service.current_date := Some (sample_date rt x);
          weather_service.daily_data := [x] |}.
Proof.
  intros [d Hd] Hcur Hnil. unfold weather_service.forecast_step.
  rewrite Hd. simpl.
  destruct (sample_datetime_dated rt x d Hd) as [-> _].
  destruct (decide _); [done|]. by rewrite Hnil.
Qed.

(** X3. Grouping is by runs, not by date: of three samples whose dates are
    [d], [d'], [d] with [d <> d'], [_format_forecast_data] (for [days >= 3])
    makes three records, the first and the third with the same date. *)
Theorem reappearing_date_gets_second_record
    (rt : PyRuntime) (a b c : RawSample) (name country : string) (days : Z) :
  dated rt a -> dated rt b -> dated rt c ->
  sample_date rt a = sample_date rt c ->
  sample_date rt a <> sample_date rt b ->
  3 <= days ->
  exists ra rb rc,
    weather_service._format_forecast_data rt
      {| rf_list := [a; b; c]; rf_city_name := name;
         rf_city_country := country |} days
    = Ok {| fr_location := name +:+ ", " +:+ country;
            fr_forecasts := [Daily ra; Daily rb; Daily rc] |}
    /\ df_date ra = Calendar.isoformat (sample_date rt a)
    /\ df_date rb = Calendar.isoformat (sample_date rt b)
    /\ df_date rc = df_date ra.
Proof.
  intros Da Db Dc Hac Hab Hdays.
  destruct (aggregate_total rt a []) as (ra & Hra & Hda);
    [by repeat constructor|].
  destruct (aggregate_total rt b []) as (rb & Hrb & Hdb);
    [by repeat constructor|].
  destruct (aggregate_total rt c []) as (rc & Hrc & Hdc);
    [by repeat constructor|].
  exists ra, rb, rc.
  split; [|split; [done|split; [done|by rewrite Hdc, Hda, Hac]]].
  unfold weather_service._format_forecast_data. cbv zeta.
  cbn [rf_list rf_city_name rf_city_country].
  assert (Hs1 : py_slice_to [a; b; c] (days * 8) = [a; b; c]).
  { unfold py_slice_to. replace (0 <=? days * 8) with true
      by (symmetry; apply Z.leb_le; lia).
    apply take_ge. simpl. lia. }
  rewrite Hs1. cbn [foldM].
  rewrite (forecast_step_first rt _ a Da) by done. cbn [bind].
  erewrite (forecast_step_new rt _ b _ Db); cbn [weather_service.daily_data
    weather_service.current_date weather_service.forecasts];
    [|congruence|done|exact Hra].
  cbn [bind].
  erewrite (forecast_step_new rt _ c _ Dc); cbn [weather_service.daily_data
    weather_service.current_date weather_service.forecasts];
    [|congruence|done|exact Hrb].
  cbn [bind weather_service.daily_data weather_service.forecasts].
  rewrite Hrc. cbn [bind app].
  assert (Hs2 : py_slice_to [Daily ra; Daily rb; Daily rc] days
                = [Daily ra; Daily rb; Daily rc]).
  { unfold py_slice_to. replace (0 <=? days) with true
      by (symmetry; apply Z.leb_le; lia).
    apply take_ge. simpl. lia. }
  by rewrite Hs2.
Qed.

Lemma reappearing_date_gets_second_record_witness :
  exists ra rb rc,
    weather_service._format_forecast_data sample_runtime
      {| rf_list := [sample_at jan1 1 "a"; sample_at (jan1 + 86400) 2 "b";
                     sample_at (jan1 + 3600) 3 "c"];
         rf_city_name := "London"; rf_city_country := "GB" |} 5
    = Ok {| fr_location := "London" +:+ ", " +:+ "GB";
            fr_forecasts := [Daily ra; Daily rb; Daily rc] |}
    /\ df_date rc = df_date ra.
Proof.
  destruct (reappearing_date_gets_second_record sample_runtime
              (sample_at jan1 1 "a") (sample_at (jan1 + 86400) 2 "b")
              (sample_at (jan1 + 3600) 3 "c") "London" "GB" 5)
    as (ra & rb & rc & H & _ & _ & Hd).
  - eexists; vm_compute; reflexivity.
  - eexists; vm_compute; reflexivity.
  - eexists; vm_compute; reflexivity.
  - vm_compute; reflexivity.
  - vm_compute; discriminate.
  - lia.
  - exists ra, rb, rc. split; [exact H|exact Hd].
Defined.

Lemma adds_refl w : adds w w [] [].
Proof. split; by rewrite app_nil_r. Qed.

Lemma adds_trans w1 w2 w3 r1 r2 s1 s2 :
  adds w1 w2 r1 s1 -> adds w2 w3 r2 s2 -> adds w1 w3 (r1 ++ r2) (s1 ++ s2).
Proof.
  intros [H1 H1'] [H2 H2']. split.
  - by rewrite H2, H1, app_assoc.
  - by rewrite H2', H1', app_assoc.
Qed.

Lemma adds_of_trace w w' :
  trace w' = trace w -> adds w w' [] [].
Proof. intros H. split; by rewrite H, app_nil_r. Qed.

Lemma adds_emit e w :
  adds w (emit e w)
    (match e with EvHttpGet r => [r] | _ => [] end)
    (match e with EvArtifactSave r => [r] | _ => [] end).
Proof.
  unfold adds, http_requests, artifact_saves. simpl. rewrite !omap_app.
  by destruct e.
Qed.

Lemma adds_log_info m w : adds w (log_info m w) [] [].
Proof. apply (adds_emit (EvLog INFO m)). Qed.
Lemma adds_log_warning m w : adds w (log_warning m w) [] [].
Proof. apply (adds_emit (EvLog WARNING m)). Qed.
Lemma adds_log_error m w : adds w (log_error m w) [] [].
Proof. apply (adds_emit (EvLog ERROR m)). Qed.
Lemma adds_state_get k w : adds w (emit (EvStateGet k) w) [] [].
Proof. apply (adds_emit (EvStateGet k)). Qed.
Lemma adds_mutate ws w : adds w (mutate_service ws w) [] [].
Proof. by apply adds_of_trace. Qed.

(** Sequencing with empty additions on one side. *)
Lemma adds_then_nothing w1 w2 w3 r s :
  adds w1 w2 r s -> adds w2 w3 [] [] -> adds w1 w3 r s.
Proof.
  intros H1 H2. pose proof (adds_trans _ _ _ _ _ _ _ H1 H2) as H.
  by rewrite !app_nil_r in H.
Qed.

Lemma nothing_then_adds w1 w2 w3 r s :
  adds w1 w2 [] [] -> adds w2 w3 r s -> adds w1 w3 r s.
Proof. intros H1 H2. exact (adds_trans _ _ _ _ _ _ _ H1 H2). Qed.

Lemma session_after_get self :
  session (weather_service._get_session self).2 = Some {| closed := false |}
  /\ api_key (weather_service._get_session self).2 = api_key self
  /\ base_url (weather_service._get_session self).2 = base_url self
  /\ (session self = Some {| closed := false |} ->
      (weather_service._get_session self).2 = self).
Proof.
  unfold weather_service._get_session.
  destruct self as [k b [[[|]]|]]; simpl; repeat split; try done.
Qed.

Lemma on_response_adds {Body A} what location (format : Body -> result A) o w :
  adds w (weather_service.on_response what location format o w).2 [] [].
Proof.
  destruct o; simpl; first [apply adds_log_info | apply adds_log_error
                           | apply adds_refl].
Qed.

(** The two methods of the client, one request each. *)
Lemma service_current_unfold rt host self location units w :
  let w1 := emit (EvHttpGet (current_request self location units))
              (log_info (weather_service.log_identifier
                         +:+ " Fetching current weather for: " +:+ location) w) in
  let out := weather_service.on_response "weather" location
               (weather_service._format_current_weather rt)
               (http_current host (current_request self location units)) w1 in
  weather_service.get_current_weather rt host self location units w
  = (out.1, (weather_service._get_session self).2, out.2).
Proof.
  cbv zeta. unfold weather_service.get_current_weather, current_request.
  destruct (session_after_get self) as (_ & Hk & Hb & _).
  destruct (weather_service._get_session self) as [s self'] eqn:E.
  simpl in Hk, Hb. rewrite Hk, Hb.
  by destruct (weather_service.on_response _ _ _ _ _).
Qed.

Lemma service_forecast_unfold rt host self location days units w :
  let w1 := emit (EvHttpGet (forecast_request self location days units))
              (log_info (weather_service.log_identifier +:+ " Fetching "
                         +:+ pretty days +:+ "-day forecast for: "
                         +:+ location) w) in
  let out := weather_service.on_response "forecast" location
               (fun data => weather_service._format_forecast_data rt data days)
               (http_forecast host (forecast_request self location days units))
               w1 in
  weather_service.get_weather_forecast rt host self location days units w
  = (out.1, (weather_service._get_session self).2, out.2).
Proof.
  cbv zeta. unfold weather_service.get_weather_forecast, forecast_request.
  destruct (session_after_get self) as (_ & Hk & Hb & _).
  destruct (weather_service._get_session self) as [s self'] eqn:E.
  simpl in Hk, Hb. rewrite Hk, Hb.
  by destruct (weather_service.on_response _ _ _ _ _).
Qed.

Lemma service_current_adds rt host self location units w :
  adds w (weather_service.get_current_weather rt host self location units w).2
    [current_request self location units] [].
Proof.
  rewrite service_current_unfold. cbv zeta. simpl.
  eapply adds_then_nothing; [|apply on_response_adds].
  eapply nothing_then_adds; [apply adds_log_info|].
  apply (adds_emit (EvHttpGet _)).
Qed.

Lemma service_forecast_adds rt host self location days units w :
  adds w
    (weather_service.get_weather_forecast rt host self location days units w).2
    [forecast_request self location days units] [].
Proof.
  rewrite service_forecast_unfold. cbv zeta. simpl.
  eapply adds_then_nothing; [|apply on_response_adds].
  eapply nothing_then_adds; [apply adds_log_info|].
  apply (adds_emit (EvHttpGet _)).
Qed.

(** X8. After [get_current_weather] or [get_weather_forecast] the client
    holds an open session and the same API key and base URL, whatever the
    session was before (absent, closed or open) and whatever the outcome of
    the request; in particular a fetch after [close()] opens a session
    again. *)
Theorem fetch_leaves_session_open
    (rt : PyRuntime) (host : Host) (key base : string)
    (s : option ClientSession) (location : string) (days : Z) (units : string)
    (w : World) :
  let self := {| api_key := key; base_url := base; session := s |} in
  let opened := {| api_key := key; base_url := base;
                   session := Some {| closed := false |} |} in
  (weather_service.get_current_weather rt host self location units w).1.2
  = opened
  /\ (weather_service.get_weather_forecast rt host self location days units
        w).1.2 = opened
  /\ (weather_service.get_current_weather rt host
        (weather_service.close self w).1.2 location units
        (weather_service.close self w).2).1.2 = opened.
Proof.
  cbv zeta. rewrite !service_current_unfold, service_forecast_unfold.
  cbv zeta. cbn [fst snd].
  unfold weather_service.close, weather_service._get_session.
  destruct s as [[[|]]|]; done.
Qed.

Lemma reachable_lookup ctx w ws :
  service_reachable ctx w ws ->
  tools.lookup_service ctx w
  = (inr (SVService ws), emit (EvStateGet "weather_service") w).
Proof.
  intros [(a & hc & Ha & Hh) Hws].
  by apply (lookup_service_found ctx a hc).
Qed.

(** The current-weather tool once the service is found. *)
Lemma current_tool_reached rt host location units save ctx w ws :
  service_reachable ctx w ws ->
  let fetched :=
    weather_service.get_current_weather rt host ws location units
      (emit (EvStateGet "weather_service")
         (log_info ("[GetCurrentWeather]" +:+ " Getting current weather for: "
                    +:+ location) w)) in
  let w2 := mutate_service fetched.1.2 fetched.2 in
  tools.get_current_weather rt host location units save (Some ctx) w
  = match fetched.1.1 with
    | Raise e => tools.handle "[GetCurrentWeather]" "weather" (Raise e) w2
    | Ok weather_data =>
        let result : gmap string Value :=
          {[ "status" := VStr "success";
             "location" := VStr (cw_location weather_data);
             "summary" := VStr (tools._create_weather_summary rt weather_data);
             "data" := VCurrent weather_data ]} in
        let saved :=
          tools._save_weather_artifact host (PCurrent weather_data)
            ("current_weather_" +:+ location) ctx w2 in
        (Ok (if save then <["artifact" := VDict saved.1]> result else result),
         log_info ("[GetCurrentWeather]"
                   +:+ " Successfully retrieved weather for " +:+ location)
           (if save then saved.2 else w2))
    end.
Proof.
  intros Hreach. cbv zeta.
  unfold tools.get_current_weather, tools.current_weather_try.
  rewrite (reachable_lookup ctx _ ws)
    by (destruct Hreach as [H1 H2]; split; [exact H1|exact H2]).
  cbv beta iota.
  destruct (weather_service.get_current_weather rt host ws location units _)
    as [[[wd|e] ws'] w2]; cbn [fst snd]; [|done].
  destruct save; [|done].
  by destruct (tools._save_weather_artifact host (PCurrent wd) _ ctx _).
Qed.

(** The forecast tool once the service is found. *)
Lemma forecast_tool_reached rt host location days units save ctx w ws :
  service_reachable ctx w ws -> 1 <= days <= 5 ->
  let fetched :=
    weather_service.get_weather_forecast rt host ws location days units
      (emit (EvStateGet "weather_service")
         (log_info ("[GetWeatherForecast]" +:+ " Getting " +:+ pretty days
                    +:+ "-day forecast for: " +:+ location) w)) in
  let w2 := mutate_service fetched.1.2 fetched.2 in
  tools.get_weather_forecast rt host location days units save (Some ctx) w
  = match fetched.1.1 with
    | Raise e => tools.handle "[GetWeatherForecast]" "forecast" (Raise e) w2
    | Ok forecast_data =>
        match tools._create_forecast_summary rt forecast_data with
        | Raise e => tools.handle "[GetWeatherForecast]" "forecast" (Raise e) w2
        | Ok summary =>
            let result : gmap string Value :=
              {[ "status" := VStr "success";
                 "location" := VStr (fr_location forecast_data);
                 "summary" := VStr summary;
                 "data" := VForecast forecast_data ]} in
            let saved :=
              tools._save_weather_artifact host (PForecast forecast_data)
                ("forecast_" +:+ location +:+ "_" +:+ pretty days +:+ "day")
                ctx w2 in
            (Ok (if save then <["artifact" := VDict saved.1]> result
                 else result),
             log_info ("[GetWeatherForecast]"
                       +:+ " Successfully retrieved forecast for " +:+ location)
               (if save then saved.2 else w2))
        end
    end.
Proof.
  intros Hreach Hdays. cbv zeta.
  unfold tools.get_weather_forecast, tools.weather_forecast_try.
  replace (negb ((1 <=? days) && (days <=? 5))) with false
    by (symmetry; apply negb_false_iff, andb_true_iff;
        split; apply Z.leb_le; lia).
  rewrite (reachable_lookup ctx _ ws)
    by (destruct Hreach as [H1 H2]; split; [exact H1|exact H2]).
  cbv beta iota.
  destruct (weather_service.get_weather_forecast rt host ws location days
              units _) as [[[fd|e] ws'] w2]; cbn [fst snd]; [|done].
  destruct (tools._create_forecast_summary rt fd) as [summary|e]; [|done].
  destruct save; [|done].
  by destruct (tools._save_weather_artifact host (PForecast fd) _ ctx _).
Qed.

Lemma handle_adds li what r w : adds w (tools.handle li what r w).2 [] [].
Proof.
  destruct r as [d|[m|m]]; simpl;
    first [apply adds_refl | apply adds_log_warning | apply adds_log_error].
Qed.

Lemma save_adds host d fb ctx w :
  adds w (tools._save_weather_artifact host d fb ctx w).2 []
    [artifact_request host d fb ctx].
Proof.
  unfold tools._save_weather_artifact. fold (artifact_request host d fb ctx).
  destruct (save_artifact_with_metadata host _); simpl.
  - apply (adds_emit (EvArtifactSave _)).
  - eapply adds_then_nothing; [apply (adds_emit (EvArtifactSave _))|].
    apply adds_log_error.
Qed.

Lemma save_status host d fb ctx w :
  exists s, (tools._save_weather_artifact host d fb ctx w).1 !! "status"
            = Some (VStr s).
Proof.
  unfold tools._save_weather_artifact.
  destruct (save_artifact_with_metadata host _); simpl.
  - eexists. by simplify_map_eq.
  - eexists. apply error_dict_status.
Qed.

Lemma on_response_failure {Body A} what location (format : Body -> result A)
    (o : HttpOutcome Body) w m :
  failure_message o location = Some m ->
  exists e, (weather_service.on_response what location format o w).1 = Raise e
            /\ forall li wh w', (tools.handle li wh (Raise e) w').1
                                = Ok (tools.error_dict m).
Proof.
  destruct o as [data| |msg|msg|[msg|msg]]; simpl; intros [= <-];
    eexists; (split; [reflexivity|]); intros; reflexivity.
Qed.

(** X4. When the service is reached and the fetch fails, the tool returns
    [{status: "error", message}] with the message of [failure_message]: a
    status other than 200 and 404 gives ["Weather service error: Weather API
    error: <provider message or Unknown error>"], a transport error gives
    ["Weather service error: Network error: <cause>"], and a [ValueError]
    raised while the body is read gives ["Location error: ..."], any other
    exception ["Weather service error: ..."]. *)
Theorem failed_fetch_is_classified
    (rt : PyRuntime) (host : Host) (location units : string) (days : Z)
    (save_to_file : bool) (ctx : ToolContext) (ws : WeatherService)
    (w : World) (m : string) :
  service_reachable ctx w ws -> 1 <= days <= 5 ->
  (failure_message
     (http_current host (current_request ws location units)) location = Some m ->
   (tools.get_current_weather rt host location units save_to_file
      (Some ctx) w).1 = Ok (tools.error_dict m))
  /\ (failure_message
        (http_forecast host (forecast_request ws location days units)) location
      = Some m ->
      (tools.get_weather_forecast rt host location days units save_to_file
         (Some ctx) w).1 = Ok (tools.error_dict m)).
Proof.
  intros Hreach Hdays. split; intros Hm.
  - rewrite (current_tool_reached rt host location units save_to_file ctx w ws)
      by done.
    rewrite service_current_unfold. cbv zeta. cbn [fst snd].
    destruct (on_response_failure "weather" location
                (weather_service._format_current_weather rt) _
                (emit (EvHttpGet (current_request ws location units))
                   (log_info (weather_service.log_identifier
                      +:+ " Fetching current weather for: " +:+ location)
                      (emit (EvStateGet "weather_service")
                         (log_info ("[GetCurrentWeather]"
                            +:+ " Getting current weather for: " +:+ location)
                            w)))) m Hm) as (e & -> & He).
    apply He.
  - rewrite (forecast_tool_reached rt host location days units save_to_file
               ctx w ws) by done.
    rewrite service_forecast_unfold. cbv zeta. cbn [fst snd].
    destruct (on_response_failure "forecast" location
                (fun data => weather_service._format_forecast_data rt data days)
                _
                (emit (EvHttpGet (forecast_request ws location days units))
                   (log_info (weather_service.log_identifier +:+ " Fetching "
                      +:+ pretty days +:+ "-day forecast for: " +:+ location)
                      (emit (EvStateGet "weather_service")
                         (log_info ("[GetWeatherForecast]" +:+ " Getting "
                            +:+ pretty days +:+ "-day forecast for: "
                            +:+ location) w)))) m Hm) as (e & -> & He).
    apply He.
Qed.

Lemma sample_reachable : service_reachable sample_context initialized_world
                           sample_service.
Proof. split; [by eexists _, _|]. vm_compute. reflexivity. Qed.

Lemma failed_fetch_is_classified_witness :
  (tools.get_current_weather sample_runtime
     (sample_host (ResponseOther (Some "Invalid API key"))
        (ClientError "timeout") (SaveReturned None))
     "London" "metric" false (Some sample_context) initialized_world).1
  = Ok (tools.error_dict
          "Weather service error: Weather API error: Invalid API key").
Proof.
  apply (proj1 (failed_fetch_is_classified sample_runtime
           (sample_host (ResponseOther (Some "Invalid API key"))
              (ClientError "timeout") (SaveReturned None))
           "London" "metric" 5 false sample_context sample_service
           initialized_world _ sample_reachable ltac:(lia))).
  reflexivity.
Defined.

Lemma tool_requests
    (rt : PyRuntime) (host : Host) (location units : string) (days : Z)
    (save_to_file : bool) (ctx : ToolContext) (ws : WeatherService)
    (w : World) :
  service_reachable ctx w ws -> 1 <= days <= 5 ->
  http_requests
    (trace (tools.get_current_weather rt host location units save_to_file
              (Some ctx) w).2)
  = http_requests (trace w)
    ++ [{| url := base_url ws +:+ "/weather"; q := location;
           appid := api_key ws; units_param := units; cnt := None |}]
  /\ http_requests
       (trace (tools.get_weather_forecast rt host location days units
                 save_to_file (Some ctx) w).2)
     = http_requests (trace w)
       ++ [{| url := base_url ws +:+ "/forecast"; q := location;
              appid := api_key ws; units_param := units;
              cnt := Some (days * 8) |}].
Proof.
  intros Hreach Hdays. split.
  - rewrite (current_tool_reached rt host location units save_to_file ctx w ws)
      by done. cbv zeta.
    match goal with
    | |- context [weather_service.get_current_weather ?r ?h ?s ?l ?u ?w0] =>
        pose proof (service_current_adds r h s l u w0) as Hs;
        destruct (weather_service.get_current_weather r h s l u w0)
          as [[fetched ws'] w2]
    end.
    cbn [fst snd] in *.
    assert (H0 : adds w w2 [current_request ws location units] []).
    { eapply nothing_then_adds; [|exact Hs].
      eapply adds_then_nothing; [apply adds_log_info|apply adds_state_get]. }
    assert (H1 : adds w (mutate_service ws' w2)
                   [current_request ws location units] []).
    { eapply adds_then_nothing; [exact H0|apply adds_mutate]. }
    destruct fetched as [wd|e].
    + cbn [snd]. destruct save_to_file.
      * pose proof (save_adds host (PCurrent wd)
                      ("current_weather_" +:+ location) ctx
                      (mutate_service ws' w2)) as [Hsave _].
        destruct H1 as [H1 _]. simpl. unfold http_requests in *.
        rewrite omap_app. simpl. rewrite app_nil_r.
        rewrite Hsave, app_nil_r. exact H1.
      * destruct H1 as [H1 _]. simpl. unfold http_requests in *.
        rewrite omap_app. simpl. rewrite app_nil_r. exact H1.
    + pose proof (handle_adds "[GetCurrentWeather]" "weather" (Raise e)
                    (mutate_service ws' w2)) as [Hh _].
      rewrite app_nil_r in Hh. rewrite Hh. apply H1.
  - rewrite (forecast_tool_reached rt host location days units save_to_file
               ctx w ws) by done. cbv zeta.
    replace (days * 8) with (Z.min (days * 8) 40) by lia.
    match goal with
    | |- context [weather_service.get_weather_forecast ?r ?h ?s ?l ?d ?u ?w0] =>
        pose proof (service_forecast_adds r h s l d u w0) as Hs;
        destruct (weather_service.get_weather_forecast r h s l d u w0)
          as [[fetched ws'] w2]
    end.
    cbn [fst snd] in *.
    assert (H0 : adds w w2 [forecast_request ws location days units] []).
    { eapply nothing_then_adds; [|exact Hs].
      eapply adds_then_nothing; [apply adds_log_info|apply adds_state_get]. }
    assert (H1 : adds w (mutate_service ws' w2)
                   [forecast_request ws location days units] []).
    { eapply adds_then_nothing; [exact H0|apply adds_mutate]. }
    assert (Hfail : forall e,
      http_requests
        (trace (tools.handle "[GetWeatherForecast]" "forecast" (Raise e)
                  (mutate_service ws' w2)).2)
      = http_requests (trace w) ++ [forecast_request ws location days units]).
    { intros e.
      pose proof (handle_adds "[GetWeatherForecast]" "forecast" (Raise e)
                    (mutate_service ws' w2)) as [Hh _].
      rewrite app_nil_r in Hh. rewrite Hh. apply H1. }
    destruct fetched as [fd|e]; [|apply Hfail].
    destruct (tools._create_forecast_summary rt fd) as [summary|e];
      [|apply Hfail].
    cbn [snd]. destruct save_to_file.
    + pose proof (save_adds host (PForecast fd)
                    ("forecast_" +:+ location +:+ "_" +:+ pretty days +:+ "day")
                    ctx (mutate_service ws' w2)) as [Hsave _].
      destruct H1 as [H1 _]. simpl. unfold http_requests in *.
      rewrite omap_app. simpl. rewrite app_nil_r.
      rewrite Hsave, app_nil_r. exact H1.
    + destruct H1 as [H1 _]. simpl. unfold http_requests in *.
      rewrite omap_app. simpl. rewrite app_nil_r. exact H1.
Qed.

(** X5. A call that reaches the service issues exactly one HTTP request,
    whatever the provider answers and whether or not an artifact is saved:
    to [<base_url>/weather] or [<base_url>/forecast], with [q] the location,
    [appid] the API key of the stored service, the given [units], and for a
    forecast [cnt = days * 8] (for [days] in 1..5). *)
Theorem one_request_from_arguments_and_service
    (rt : PyRuntime) (host : Host) (location units : string) (days : Z)
    (save_to_file : bool) (ctx : ToolContext) (ws : WeatherService)
    (w : World) :
  service_reachable ctx w ws -> 1 <= days <= 5 ->
  http_requests
    (trace (tools.get_current_weather rt host location units save_to_file
              (Some ctx) w).2)
  = http_requests (trace w)
    ++ [{| url := base_url ws +:+ "/weather"; q := location;
           appid := api_key ws; units_param := units; cnt := None |}]
  /\ http_requests
       (trace (tools.get_weather_forecast rt host location days units
                 save_to_file (Some ctx) w).2)
     = http_requests (trace w)
       ++ [{| url := base_url ws +:+ "/forecast"; q := location;
              appid := api_key ws; units_param := units;
              cnt := Some (days * 8) |}].
Proof. apply tool_requests. Qed.

Lemma one_request_from_arguments_and_service_witness :
  http_requests
    (trace (tools.get_weather_forecast sample_runtime
              (sample_host Response404 Response404 (SaveReturned None))
              "London" 3 "metric" false (Some sample_context)
              initialized_world).2)
  = http_requests (trace initialized_world)
    ++ [{| url := base_url sample_service +:+ "/forecast"; q := "London";
           appid := api_key sample_service; units_param := "metric";
           cnt := Some (3 * 8) |}].
Proof.
  apply (proj2 (one_request_from_arguments_and_service sample_runtime
           (sample_host Response404 Response404 (SaveReturned None))
           "London" "metric" 3 false sample_context sample_service
           initialized_world sample_reachable ltac:(lia))).
Defined.

Lemma reachable_dec ctx w :
  (exists ws, service_reachable ctx w ws)
  \/ (forall ws, ~ service_reachable ctx w ws).
Proof.
  unfold service_reachable.
  destruct (agent ctx) as [a|] eqn:Ha.
  2:{ right. intros ws [(a & hc & H & _) _]. discriminate. }
  destruct (host_component a) as [hc|] eqn:Hh.
  2:{ right. intros ws [(a' & hc & H & H') _]. congruence. }
  destruct (agent_state w !! "weather_service") as [[ws| |]|] eqn:Hs.
  - left. exists ws. split; [by exists a, hc|done].
  - right. intros ws [_ H]. discriminate.
  - right. intros ws [_ H]. discriminate.
  - right. intros ws [_ H]. discriminate.
Qed.

Ltac adds_by_computation :=
  unfold adds, http_requests, artifact_saves, log_info, log_warning, log_error;
  simpl; rewrite ?omap_app; simpl; rewrite ?app_nil_r; done.

Lemma current_tool_unreached rt host location units save ctx w :
  (forall ws, ~ service_reachable ctx w ws) ->
  let out := tools.get_current_weather rt host location units save
               (Some ctx) w in
  (exists m, out.1 = Ok (tools.error_dict m))
  /\ adds w out.2 [] [] /\ agent_state out.2 = agent_state w.
Proof.
  intros Hun. cbv zeta.
  unfold tools.get_current_weather, tools.current_weather_try,
    tools.lookup_service, get_agent_specific_state, service_reachable in *.
  destruct (agent ctx) as [a|] eqn:Ha; cbn [fst snd agent_state emit log_info].
  2:{ split; [by eexists|]. split; [adds_by_computation|done]. }
  destruct (host_component a) as [hc|] eqn:Hh.
  2:{ split; [by eexists|]. split; [adds_by_computation|done]. }
  destruct (agent_state w !! "weather_service") as [[ws|s|n]|] eqn:Hs.
  - exfalso. apply (Hun ws). split; [by exists a, hc|done].
  - destruct (truthy (SVStr s)); simpl;
      (split; [by eexists|]); (split; [adds_by_computation|done]).
  - destruct (truthy (SVInt n)); simpl;
      (split; [by eexists|]); (split; [adds_by_computation|done]).
  - simpl. split; [by eexists|]. split; [adds_by_computation|done].
Qed.

Lemma forecast_tool_unreached rt host location days units save ctx w :
  (forall ws, ~ service_reachable ctx w ws) ->
  let out := tools.get_weather_forecast rt host location days units save
               (Some ctx) w in
  (exists m, out.1 = Ok (tools.error_dict m))
  /\ adds w out.2 [] [] /\ agent_state out.2 = agent_state w.
Proof.
  intros Hun. cbv zeta.
  unfold tools.get_weather_forecast.
  destruct (negb _).
  { split; [by eexists|]. split; [adds_by_computation|done]. }
  unfold tools.weather_forecast_try,
    tools.lookup_service, get_agent_specific_state, service_reachable in *.
  destruct (agent ctx) as [a|] eqn:Ha; cbn [fst snd agent_state emit log_info].
  2:{ split; [by eexists|]. split; [adds_by_computation|done]. }
  destruct (host_component a) as [hc|] eqn:Hh.
  2:{ split; [by eexists|]. split; [adds_by_computation|done]. }
  destruct (agent_state w !! "weather_service") as [[ws|s|n]|] eqn:Hs.
  - exfalso. apply (Hun ws). split; [by exists a, hc|done].
  - destruct (truthy (SVStr s)); simpl;
      (split; [by eexists|]); (split; [adds_by_computation|done]).
  - destruct (truthy (SVInt n)); simpl;
      (split; [by eexists|]); (split; [adds_by_computation|done]).
  - simpl. split; [by eexists|]. split; [adds_by_computation|done].
Qed.

(** X6. When the service instance cannot be found (no tool context, no
    agent, no host component, or nothing that is a service under
    ["weather_service"]), both tools return an error dictionary, issue no
    HTTP request, save no artifact and leave the state store as it is. *)
Theorem no_service_no_request
    (rt : PyRuntime) (host : Host) (location units : string) (days : Z)
    (save_to_file : bool) (tool_context : option ToolContext) (w : World) :
  (forall ctx ws, tool_context = Some ctx -> ~ service_reachable ctx w ws) ->
  let c := tools.get_current_weather rt host location units save_to_file
             tool_context w in
  let f := tools.get_weather_forecast rt host location days units save_to_file
             tool_context w in
  (exists m, c.1 = Ok (tools.error_dict m))
  /\ http_requests (trace c.2) = http_requests (trace w)
  /\ artifact_saves (trace c.2) = artifact_saves (trace w)
  /\ agent_state c.2 = agent_state w
  /\ (exists m, f.1 = Ok (tools.error_dict m))
  /\ http_requests (trace f.2) = http_requests (trace w)
  /\ artifact_saves (trace f.2) = artifact_saves (trace w)
  /\ agent_state f.2 = agent_state w.
Proof.
  intros Hun. cbv zeta.
  assert (Hshape : forall out : result (gmap string Value) * World,
    (exists m, out.1 = Ok (tools.error_dict m))
    /\ adds w out.2 [] [] /\ agent_state out.2 = agent_state w ->
    (exists m, out.1 = Ok (tools.error_dict m))
    /\ http_requests (trace out.2) = http_requests (trace w)
    /\ artifact_saves (trace out.2) = artifact_saves (trace w)
    /\ agent_state out.2 = agent_state w).
  { intros out (Hm & [Hr Hs] & Hst). rewrite app_nil_r in Hr, Hs. done. }
  destruct tool_context as [ctx|].
  - destruct (Hshape _ (current_tool_unreached rt host location units
                          save_to_file ctx w (fun ws => Hun ctx ws eq_refl)))
      as (H1 & H2 & H3 & H4).
    destruct (Hshape _ (forecast_tool_unreached rt host location days units
                          save_to_file ctx w (fun ws => Hun ctx ws eq_refl)))
      as (H5 & H6 & H7 & H8).
    done.
  - assert (Hnone : forall out : result (gmap string Value) * World,
      (exists m li, out = (Ok (tools.error_dict m), log_info li w)) ->
      (exists m, out.1 = Ok (tools.error_dict m))
      /\ http_requests (trace out.2) = http_requests (trace w)
      /\ artifact_saves (trace out.2) = artifact_saves (trace w)
      /\ agent_state out.2 = agent_state w).
    { intros out (m & li & ->). apply Hshape. simpl.
      split; [by eexists|]. split; [apply adds_log_info|done]. }
    destruct (Hnone (tools.get_current_weather rt host location units
                       save_to_file None w)) as (H1 & H2 & H3 & H4);
      [by eexists _, _|].
    destruct (Hnone (tools.get_weather_forecast rt host location days units
                       save_to_file None w)) as (H5 & H6 & H7 & H8);
      [by eexists _, _|].
    done.
Qed.

Lemma no_service_no_request_witness :
  exists m,
    (tools.get_current_weather sample_runtime
       (sample_host (Response200 sample_current) (Response200 sample_forecast)
          (SaveReturned None))
       "London" "metric" true (Some sample_context) empty_world).1
    = Ok (tools.error_dict m).
Proof.
  refine (proj1 (no_service_no_request sample_runtime
           (sample_host (Response200 sample_current)
              (Response200 sample_forecast) (SaveReturned None))
           "London" "metric" 5 true (Some sample_context) empty_world _)).
  intros ctx ws _ [_ H]. vm_compute in H. discriminate.
Defined.

Lemma error_dict_no_artifact m : tools.error_dict m !! "artifact" = None.
Proof. unfold tools.error_dict. by simplify_map_eq. Qed.

Lemma handle_raise_error li what e w :
  exists m, (tools.handle li what (Raise e) w).1 = Ok (tools.error_dict m).
Proof. destruct e; simpl; by eexists. Qed.

Lemma save_outcome_error host save tc fb w (out : result (gmap string Value) * World) m :
  out.1 = Ok (tools.error_dict m) ->
  artifact_saves (trace out.2) = artifact_saves (trace w) ->
  save_outcome host save tc fb w out.
Proof.
  intros Hout Hs.
  exists (tools.error_dict m). split; [done|]. left.
  split; [right; by exists m|]. split; [done|apply error_dict_no_artifact].
Qed.

Lemma adds_no_saves w w' reqs :
  adds w w' reqs [] -> artifact_saves (trace w') = artifact_saves (trace w).
Proof. intros [_ H]. by rewrite app_nil_r in H. Qed.

Lemma artifact_saves_log m w :
  artifact_saves (trace (log_info m w)) = artifact_saves (trace w).
Proof. apply (adds_no_saves _ _ []), adds_log_info. Qed.

Lemma success_dict_shape (l s : string) (v : Value) :
  success_result ({[ "status" := VStr "success"; "location" := VStr l;
                     "summary" := VStr s; "data" := v ]} : gmap string Value).
Proof. unfold success_result. simplify_map_eq. naive_solver. Qed.

Lemma success_dict_with_artifact (l s : string) (v a : Value) :
  success_result (<["artifact" := a]>
                    ({[ "status" := VStr "success"; "location" := VStr l;
                        "summary" := VStr s; "data" := v ]}
                     : gmap string Value)).
Proof.
  unfold success_result. rewrite !lookup_insert_ne by done.
  simplify_map_eq. naive_solver.
Qed.

(** The part of [save_outcome] for a fetched and summarised record. *)
Lemma save_outcome_success host save ctx fb w w2 (l s : string) v p li :
  payload_of_value v = Some p ->
  artifact_saves (trace w2) = artifact_saves (trace w) ->
  let result : gmap string Value :=
    {[ "status" := VStr "success"; "location" := VStr l;
       "summary" := VStr s; "data" := v ]} in
  let saved := tools._save_weather_artifact host p fb ctx w2 in
  save_outcome host save (Some ctx) fb w
    (Ok (if save then <["artifact" := VDict saved.1]> result else result),
     log_info li (if save then saved.2 else w2)).
Proof.
  intros Hp Hw2. cbv zeta. eexists. split; [reflexivity|].
  destruct save.
  - right. split; [done|]. split; [apply success_dict_with_artifact|].
    exists ctx, v, p, (tools._save_weather_artifact host p fb ctx w2).1.
    split; [done|]. split; [by simplify_map_eq|]. split; [done|]. split.
    + cbn [snd]. rewrite artifact_saves_log.
      destruct (save_adds host p fb ctx w2) as [_ Hs]. by rewrite Hs, Hw2.
    + split; [by rewrite lookup_insert_eq|].
      destruct (save_status host p fb ctx w2) as [st Hst]. by rewrite Hst.
  - left. split; [by left|]. split.
    + cbn [snd]. by rewrite artifact_saves_log.
    + by simplify_map_eq.
Qed.

(** X7. For every call of either tool: an artifact is saved at most once,
    and only when [save_to_file] is set and the result is a success; then
    the saved content is the [data] of the result, the file name starts with
    the tool's base name, and the result has an [artifact] dictionary with a
    [status].  In every other case nothing is saved and the result has no
    [artifact] key. *)
Theorem artifact_saved_only_on_success
    (rt : PyRuntime) (host : Host) (location units : string) (days : Z)
    (save_to_file : bool) (tool_context : option ToolContext) (w : World) :
  save_outcome host save_to_file tool_context
    ("current_weather_" +:+ location) w
    (tools.get_current_weather rt host location units save_to_file
       tool_context w)
  /\ save_outcome host save_to_file tool_context
       ("forecast_" +:+ location +:+ "_" +:+ pretty days +:+ "day") w
       (tools.get_weather_forecast rt host location days units save_to_file
          tool_context w).
Proof.
  split.
  - destruct tool_context as [ctx|].
    2:{ eapply save_outcome_error; [reflexivity|]. simpl.
        apply artifact_saves_log. }
    destruct (reachable_dec ctx w) as [[ws Hreach]|Hun].
    2:{ destruct (current_tool_unreached rt host location units save_to_file
                    ctx w Hun) as ([m Hm] & Hadds & _).
        eapply save_outcome_error; [exact Hm|].
        by apply (adds_no_saves _ _ []). }
    rewrite (current_tool_reached rt host location units save_to_file ctx w ws)
      by done. cbv zeta.
    match goal with
    | |- context [weather_service.get_current_weather ?r ?h ?s ?l ?u ?w0] =>
        pose proof (service_current_adds r h s l u w0) as Hs;
        destruct (weather_service.get_current_weather r h s l u w0)
          as [[fetched ws'] w2]
    end.
    cbn [fst snd] in *.
    assert (Hw2 : artifact_saves (trace (mutate_service ws' w2))
                  = artifact_saves (trace w)).
    { simpl. rewrite (adds_no_saves _ _ _ Hs). simpl.
      unfold artifact_saves. rewrite !omap_app. simpl.
      by rewrite !app_nil_r. }
    destruct fetched as [wd|e].
    + by apply (save_outcome_success host save_to_file ctx _ w _ _ _
                  (VCurrent wd) (PCurrent wd)).
    + destruct (handle_raise_error "[GetCurrentWeather]" "weather" e
                  (mutate_service ws' w2)) as [m Hm].
      eapply save_outcome_error; [exact Hm|].
      by rewrite (adds_no_saves _ _ _ (handle_adds _ _ _ _)).
  - destruct tool_context as [ctx|].
    2:{ eapply save_outcome_error; [reflexivity|]. simpl.
        apply artifact_saves_log. }
    destruct (decide (1 <= days <= 5)) as [Hdays|Hdays].
    2:{ unfold tools.get_weather_forecast.
        replace (negb ((1 <=? days) && (days <=? 5))) with true.
        - eapply save_outcome_error; [reflexivity|]. simpl.
          apply artifact_saves_log.
        - symmetry. apply negb_true_iff, andb_false_iff.
          destruct (decide (1 <= days));
            [right; apply Z.leb_gt|left; apply Z.leb_gt]; lia. }
    destruct (reachable_dec ctx w) as [[ws Hreach]|Hun].
    2:{ destruct (forecast_tool_unreached rt host location days units
                    save_to_file ctx w Hun) as ([m Hm] & Hadds & _).
        eapply save_outcome_error; [exact Hm|].
        by apply (adds_no_saves _ _ []). }
    rewrite (forecast_tool_reached rt host location days units save_to_file
               ctx w ws) by done. cbv zeta.
    match goal with
    | |- context [weather_service.get_weather_forecast ?r ?h ?s ?l ?d ?u ?w0] =>
        pose proof (service_forecast_adds r h s l d u w0) as Hs;
        destruct (weather_service.get_weather_forecast r h s l d u w0)
          as [[fetched ws'] w2]
    end.
    cbn [fst snd] in *.
    assert (Hw2 : artifact_saves (trace (mutate_service ws' w2))
                  = artifact_saves (trace w)).
    { simpl. rewrite (adds_no_saves _ _ _ Hs). simpl.
      unfold artifact_saves. rewrite !omap_app. simpl.
      by rewrite !app_nil_r. }
    assert (Hfail : forall e,
      save_outcome host save_to_file (Some ctx)
        ("forecast_" +:+ location +:+ "_" +:+ pretty days +:+ "day") w
        (tools.handle "[GetWeatherForecast]" "forecast" (Raise e)
           (mutate_service ws' w2))).
    { intros e.
      destruct (handle_raise_error "[GetWeatherForecast]" "forecast" e
                  (mutate_service ws' w2)) as [m Hm].
      eapply save_outcome_error; [exact Hm|].
      by rewrite (adds_no_saves _ _ _ (handle_adds _ _ _ _)). }
    destruct fetched as [fd|e]; [|apply Hfail].
    destruct (tools._create_forecast_summary rt fd) as [summary|e];
      [|apply Hfail].
    by apply (save_outcome_success host save_to_file ctx _ w _ _ _
                (VForecast fd) (PForecast fd)).
Qed.

Lemma service_eta (ws : WeatherService) :
  ws = {| api_key := api_key ws; base_url := base_url ws;
          session := session ws |}.
Proof. by destruct ws. Qed.

Lemma save_then_log_state host p fb ctx w li (save : bool) :
  agent_state (log_info li (if save
                            then (tools._save_weather_artifact host p fb ctx w).2
                            else w)) = agent_state w.
Proof. destruct save; simpl; [apply save_artifact_state|done]. Qed.

(** A tool call keeps the API key and the base URL of the stored service. *)
Lemma run_call_service rt c w ws :
  agent_state w !! "weather_service" = Some (SVService ws) ->
  exists s,
    agent_state (run_call rt c w) !! "weather_service"
    = Some (SVService {| api_key := api_key ws; base_url := base_url ws;
                         session := s |}).
Proof.
  intros Hws.
  assert (Hsame : forall w', agent_state w' = agent_state w ->
    exists s, agent_state w' !! "weather_service"
              = Some (SVService {| api_key := api_key ws;
                                   base_url := base_url ws; session := s |})).
  { intros w' ->. exists (session ws). by rewrite Hws, <- service_eta. }
  assert (Hmut : forall self w',
    exists s, agent_state (mutate_service
                             (weather_service._get_session self).2 w')
              !! "weather_service"
              = Some (SVService {| api_key := api_key self;
                                   base_url := base_url self; session := s |})).
  { intros self w'. simpl. rewrite lookup_insert_eq.
    destruct (session_after_get self) as (Hs & Hk & Hb & _).
    exists (Some {| closed := false |}).
    rewrite (service_eta (weather_service._get_session self).2).
    by rewrite Hs, Hk, Hb. }
  destruct c as [host [location units save ctxo|location days units save ctxo]];
    simpl.
  - destruct ctxo as [ctx|]; [|by apply Hsame].
    destruct (reachable_dec ctx w) as [[ws' Hreach]|Hun].
    2:{ apply Hsame.
        by destruct (current_tool_unreached rt host location units save ctx w
                       Hun) as (_ & _ & ?). }
    assert (ws' = ws) by (destruct Hreach as [_ H]; congruence). subst ws'.
    rewrite (current_tool_reached rt host location units save ctx w ws) by done.
    cbv zeta. rewrite service_current_unfold. cbv zeta. cbn [fst snd].
    match goal with
    | |- context [weather_service.on_response ?a ?b ?c ?d ?e] =>
        destruct (weather_service.on_response a b c d e) as [[wd|e0] w2]
    end; cbn [fst snd].
    + rewrite save_then_log_state. apply Hmut.
    + rewrite handle_state. apply Hmut.
  - destruct ctxo as [ctx|]; [|by apply Hsame].
    destruct (decide (1 <= days <= 5)) as [Hdays|Hdays].
    2:{ apply Hsame. unfold tools.get_weather_forecast.
        replace (negb ((1 <=? days) && (days <=? 5))) with true; [done|].
        symmetry. apply negb_true_iff, andb_false_iff.
        destruct (decide (1 <= days));
          [right; apply Z.leb_gt|left; apply Z.leb_gt]; lia. }
    destruct (reachable_dec ctx w) as [[ws' Hreach]|Hun].
    2:{ apply Hsame.
        by destruct (forecast_tool_unreached rt host location days units save
                       ctx w Hun) as (_ & _ & ?). }
    assert (ws' = ws) by (destruct Hreach as [_ H]; congruence). subst ws'.
    rewrite (forecast_tool_reached rt host location days units save ctx w ws)
      by done.
    cbv zeta. rewrite service_forecast_unfold. cbv zeta. cbn [fst snd].
    match goal with
    | |- context [weather_service.on_response ?a ?b ?c ?d ?e] =>
        destruct (weather_service.on_response a b c d e) as [[fd|e0] w2]
    end; cbn [fst snd].
    + destruct (tools._create_forecast_summary rt fd) as [summary|e0].
      * cbn [snd]. rewrite save_then_log_state. apply Hmut.
      * rewrite handle_state. apply Hmut.
    + rewrite handle_state. apply Hmut.
Qed.

Lemma run_calls_service rt calls w key base s :
  agent_state w !! "weather_service"
  = Some (SVService {| api_key := key; base_url := base; session := s |}) ->
  exists s',
    agent_state (run_calls rt calls w) !! "weather_service"
    = Some (SVService {| api_key := key; base_url := base; session := s' |}).
Proof.
  revert w s. induction calls as [|c calls IH]; intros w s Hws; simpl.
  - by exists s.
  - destruct (run_call_service rt c w _ Hws) as [s1 H1]. simpl in H1.
    by apply (IH _ s1).
Qed.

(** X9. After [initialize_weather_agent] and any sequence of tool calls,
    [cleanup_weather_agent] on a thread whose event loop is open and not
    running returns normally and leaves in the state store the service with
    the API key and base URL of the configuration and a session that is
    absent or closed, never open.  In every other case it raises and the
    state store is as the calls left it: a session they opened stays open. *)
Theorem cleanup_releases_the_session
    (rt : PyRuntime) (host host' : Host)
    (cfg : lifecycle.WeatherAgentInitConfig) (w0 : World)
    (calls : list (Host * ToolCall)) (policy : EventLoopPolicy) :
  let w1 := (lifecycle.initialize_weather_agent host cfg w0).2 in
  let w2 := run_calls rt calls w1 in
  let out := lifecycle.cleanup_weather_agent host' policy w2 in
  match policy with
  | CurrentLoop Idle =>
      out.1 = Ok tt
      /\ exists s,
           agent_state out.2 !! "weather_service"
           = Some (SVService {| api_key := lifecycle.cfg_api_key cfg;
                                base_url := lifecycle.cfg_base_url cfg;
                                session := s |})
           /\ s <> Some {| closed := false |}
  | _ =>
      (exists e, out.1 = Raise e)
      /\ agent_state out.2 = agent_state w2
  end.
Proof.
  cbv zeta.
  assert (H1 : agent_state (lifecycle.initialize_weather_agent host cfg w0).2
               !! "weather_service"
               = Some (SVService {| api_key := lifecycle.cfg_api_key cfg;
                                    base_url := lifecycle.cfg_base_url cfg;
                                    session := None |})).
  { unfold lifecycle.initialize_weather_agent. simpl.
    rewrite !lookup_insert_ne by done. by rewrite lookup_insert_eq. }
  destruct (run_calls_service rt calls _ _ _ _ H1) as [s2 H2].
  set (w2 := run_calls rt calls _) in *.
  unfold lifecycle.cleanup_weather_agent.
  destruct policy as [[| |]|thread];
    cbn [get_event_loop run_until_complete fst snd];
    [|split; [by eexists|done]..].
  unfold lifecycle.cleanup_async, lifecycle.cleanup_try,
    get_agent_specific_state.
  cbn [agent_state emit log_info]. rewrite H2.
  unfold weather_service.close. cbn [session api_key base_url].
  destruct s2 as [[[|]]|]; simpl; rewrite lookup_insert_eq;
    (split; [done|]); eexists; (split; [reflexivity|]); discriminate.
Qed.

Lemma cleanup_releases_the_session_witness :
  let host := sample_host (Response200 sample_current)
                (Response200 sample_forecast) (SaveReturned None) in
  let w2 := run_calls sample_runtime
              [(host, CallCurrentWeather "London" "metric" false
                        (Some sample_context))]
              (lifecycle.initialize_weather_agent host sample_config
                 empty_world).2 in
  agent_state w2 !! "weather_service"
  = Some (SVService {| api_key := "key";
                       base_url := "https://api.openweathermap.org/data/2.5";
                       session := Some {| closed := false |} |})
  /\ agent_state (lifecycle.cleanup_weather_agent host (CurrentLoop Running)
                    w2).2 = agent_state w2
  /\ agent_state (lifecycle.cleanup_weather_agent host (CurrentLoop Idle)
                    w2).2 !! "weather_service"
     = Some (SVService {| api_key := "key";
                          base_url := "https://api.openweathermap.org/data/2.5";
                          session := Some {| closed := true |} |}).
Proof.
  intros host w2. split; [vm_compute; reflexivity|]. split.
  - exact (proj2 (cleanup_releases_the_session sample_runtime host host
                    sample_config empty_world
                    [(host, CallCurrentWeather "London" "metric" false
                              (Some sample_context))]
                    (CurrentLoop Running))).
  - vm_compute; reflexivity.
Defined.

Lemma dated_isoformat_parses rt x :
  dated rt x ->
  Calendar.fromisoformat (Calendar.isoformat (sample_date rt x))
  = Ok (sample_date rt x).
Proof.
  intros [d Hd]. apply fromisoformat_isoformat.
  unfold sample_date. apply civil_valid_date.
  unfold weather_service.sample_datetime, Calendar.fromtimestamp in Hd.
  fold (Calendar.local_day (utcoffset rt) (rs_dt x)) in Hd.
  fold (sample_day rt x) in Hd.
  by destruct (Calendar.year_in_range _).
Qed.

Lemma summary_step_total rt summary a :
  dated_record rt a ->
  exists summary', tools.forecast_summary_step rt summary a = Ok summary'.
Proof.
  intros (r & x & -> & Hx & Hd). unfold tools.forecast_summary_step.
  rewrite Hd, (dated_isoformat_parses rt x Hx). simpl. by eexists.
Qed.

Lemma summary_loop_total rt forecasts :
  Forall (dated_record rt) forecasts ->
  forall summary, exists summary',
    foldM (tools.forecast_summary_step rt) forecasts summary = Ok summary'.
Proof.
  induction 1 as [|a forecasts Ha Hrest IH]; intros summary; simpl.
  - by eexists.
  - destruct (summary_step_total rt summary a Ha) as [s1 ->]. simpl. apply IH.
Qed.

Lemma forecast_summary_total rt fr :
  Forall (dated_record rt) (fr_forecasts fr) ->
  exists summary, tools._create_forecast_summary rt fr = Ok summary.
Proof.
  intros H. unfold tools._create_forecast_summary.
  destruct (summary_loop_total rt _ H
              ("Weather forecast for " +:+ fr_location fr +:+ ":" +:+ NL
               +:+ NL)) as [s ->].
  simpl. by eexists.
Qed.

(** X10. [_create_forecast_summary] accepts whatever
    [_format_forecast_data] returns: for [days >= 0] and samples that have a
    calendar date both return normally, the ISO date of every record being
    read back by [fromisoformat]. *)
Theorem summary_accepts_every_forecast
    (rt : PyRuntime) (data : RawForecast) (days : Z) :
  0 <= days -> Forall (dated rt) (rf_list data) ->
  exists fr summary,
    weather_service._format_forecast_data rt data days = Ok fr
    /\ tools._create_forecast_summary rt fr = Ok summary.
Proof.
  intros Hdays Hdated.
  destruct (format_forecast_safe rt data days Hdays Hdated)
    as (fr & Hfr & _ & _ & _ & Hrec).
  assert (Hdaily : Forall (dated_record rt) (fr_forecasts fr))
    by (eapply Forall_impl; [exact Hrec|]; intros a;
        apply record_of_sample_dated).
  destruct (forecast_summary_total rt fr Hdaily) as [summary Hsum].
  by exists fr, summary.
Qed.

Lemma summary_accepts_every_forecast_witness :
  exists fr summary,
    weather_service._format_forecast_data sample_runtime sample_forecast 5
    = Ok fr
    /\ tools._create_forecast_summary sample_runtime fr = Ok summary.
Proof.
  apply (summary_accepts_every_forecast sample_runtime sample_forecast 5).
  - lia.
  - repeat constructor; eexists; vm_compute; reflexivity.
Defined.

(** X11. When the service is reached, [days] is in 1..5 and the provider
    answers 200 with samples that have a calendar date, [get_weather_forecast]
    returns a success dictionary: [location] is ["<city name>, <country>"],
    [data] is the result of [_format_forecast_data] on the body, with at most
    [days] records, and [summary] is its [_create_forecast_summary]. *)
Theorem forecast_tool_succeeds
    (rt : PyRuntime) (host : Host) (location units : string) (days : Z)
    (save_to_file : bool) (ctx : ToolContext) (ws : WeatherService)
    (w : World) (data : RawForecast) :
  service_reachable ctx w ws -> 1 <= days <= 5 ->
  http_forecast host (forecast_request ws location days units)
  = Response200 data ->
  Forall (dated rt) (rf_list data) ->
  exists fr summary r,
    weather_service._format_forecast_data rt data days = Ok fr
    /\ tools._create_forecast_summary rt fr = Ok summary
    /\ (tools.get_weather_forecast rt host location days units save_to_file
          (Some ctx) w).1 = Ok r
    /\ r !! "status" = Some (VStr "success")
    /\ r !! "location"
       = Some (VStr (rf_city_name data +:+ ", " +:+ rf_city_country data))
    /\ r !! "summary" = Some (VStr summary)
    /\ r !! "data" = Some (VForecast fr)
    /\ Z.of_nat (length (fr_forecasts fr)) <= days.
Proof.
  intros Hreach Hdays Hhttp Hdated.
  destruct (format_forecast_safe rt data days ltac:(lia) Hdated)
    as (fr & Hfr & Hloc & Hlen & _ & Hrec).
  assert (Hdaily : Forall (dated_record rt) (fr_forecasts fr))
    by (eapply Forall_impl; [exact Hrec|]; intros a;
        apply record_of_sample_dated).
  destruct (forecast_summary_total rt fr Hdaily) as [summary Hsum].
  exists fr, summary.
  rewrite (forecast_tool_reached rt host location days units save_to_file
             ctx w ws) by done.
  rewrite service_forecast_unfold. cbv zeta. cbn [fst snd].
  rewrite Hhttp. cbn [weather_service.on_response fst snd].
  rewrite Hfr, Hsum. cbn [fst]. rewrite <- Hloc.
  eexists. split; [done|]. split; [done|]. split; [reflexivity|].
  destruct save_to_file.
  - rewrite !lookup_insert_ne by done. by simplify_map_eq.
  - by simplify_map_eq.
Qed.

Lemma forecast_tool_succeeds_witness :
  exists fr summary r,
    weather_service._format_forecast_data sample_runtime sample_forecast 2
    = Ok fr
    /\ tools._create_forecast_summary sample_runtime fr = Ok summary
    /\ (tools.get_weather_forecast sample_runtime
          (sample_host (Response200 sample_current)
             (Response200 sample_forecast) (SaveReturned None))
          "London" 2 "metric" true (Some sample_context)
          initialized_world).1 = Ok r
    /\ r !! "status" = Some (VStr "success").
Proof.
  destruct (forecast_tool_succeeds sample_runtime
              (sample_host (Response200 sample_current)
                 (Response200 sample_forecast) (SaveReturned None))
              "London" "metric" 2 true sample_context sample_service
              initialized_world sample_forecast sample_reachable
              ltac:(lia) eq_refl)
    as (fr & summary & r & H1 & H2 & H3 & H4 & _).
  - repeat constructor; eexists; vm_compute; reflexivity.
  - exists fr, summary, r. split; [exact H1|]. split; [exact H2|].
    split; [exact H3|exact H4].
Defined.

Lemma timestamp_isoformat_representable rt t :
  representable rt t ->
  exists s, weather_service.timestamp_isoformat rt t = Ok s.
Proof.
  intros [d Hd]. unfold weather_service.timestamp_isoformat. rewrite Hd.
  simpl. by eexists.
Qed.

(** X12. When the service is reached and the provider answers 200 with a
    body whose three timestamps can be converted, [get_current_weather]
    returns a success dictionary: [location] is ["<name>, <country>"], [data]
    is the normalised record (temperature as given, description in title
    case, visibility divided by 1000 with 0 for a missing value, wind speed
    and direction with 0 for a missing value) and [summary] is its
    [_create_weather_summary]. *)
Theorem current_tool_succeeds
    (rt : PyRuntime) (host : Host) (location units : string)
    (save_to_file : bool) (ctx : ToolContext) (ws : WeatherService)
    (w : World) (data : RawCurrent) :
  service_reachable ctx w ws ->
  http_current host (current_request ws location units) = Response200 data ->
  representable rt (rc_dt data) -> representable rt (rc_sunrise data) ->
  representable rt (rc_sunset data) ->
  exists d r,
    weather_service._format_current_weather rt data = Ok d
    /\ (tools.get_current_weather rt host location units save_to_file
          (Some ctx) w).1 = Ok r
    /\ r !! "status" = Some (VStr "success")
    /\ r !! "location" = Some (VStr (rc_name data +:+ ", " +:+ rc_country data))
    /\ r !! "summary" = Some (VStr (tools._create_weather_summary rt d))
    /\ r !! "data" = Some (VCurrent d)
    /\ cw_temperature d = rc_temp data
    /\ cw_description d = title (rc_description data)
    /\ cw_visibility d
       = (match rc_visibility data with Some v => v | None => 0 end / 1000)%Q
    /\ cw_wind_speed d = weather_service.wind_speed_or_0 (rc_wind data)
    /\ cw_wind_direction d = weather_service.wind_deg_or_0 (rc_wind data).
Proof.
  intros Hreach Hhttp Hdt Hrise Hset.
  destruct (timestamp_isoformat_representable rt _ Hdt) as [ts Hts].
  destruct (timestamp_isoformat_representable rt _ Hrise) as [sr Hsr].
  destruct (timestamp_isoformat_representable rt _ Hset) as [ss Hss].
  assert (Hfmt : exists d, weather_service._format_current_weather rt data = Ok d
            /\ cw_location d = rc_name data +:+ ", " +:+ rc_country data
            /\ cw_temperature d = rc_temp data
            /\ cw_description d = title (rc_description data)
            /\ cw_visibility d
               = (match rc_visibility data with Some v => v | None => 0 end
                  / 1000)%Q
            /\ cw_wind_speed d = weather_service.wind_speed_or_0 (rc_wind data)
            /\ cw_wind_direction d
               = weather_service.wind_deg_or_0 (rc_wind data)).
  { unfold weather_service._format_current_weather.
    rewrite Hts, Hsr, Hss. simpl. eexists. split; [reflexivity|]. by simpl. }
  destruct Hfmt as (d & Hd & Hloc & Hrest).
  exists d.
  rewrite (current_tool_reached rt host location units save_to_file ctx w ws)
    by done.
  rewrite service_current_unfold. cbv zeta. cbn [fst snd].
  rewrite Hhttp. cbn [weather_service.on_response fst snd].
  rewrite Hd. cbn [fst]. rewrite <- Hloc.
  eexists. split; [done|]. split; [reflexivity|].
  destruct save_to_file.
  - rewrite !lookup_insert_ne by done. by simplify_map_eq.
  - by simplify_map_eq.
Qed.

Lemma current_tool_succeeds_witness :
  exists d r,
    weather_service._format_current_weather sample_runtime sample_current
    = Ok d
    /\ (tools.get_current_weather sample_runtime
          (sample_host (Response200 sample_current)
             (Response200 sample_forecast) (SaveReturned None))
          "London" "metric" false (Some sample_context)
          initialized_world).1 = Ok r
    /\ r !! "data" = Some (VCurrent d).
Proof.
  destruct (current_tool_succeeds sample_runtime
              (sample_host (Response200 sample_current)
                 (Response200 sample_forecast) (SaveReturned None))
              "London" "metric" false sample_context sample_service
              initialized_world sample_current sample_reachable eq_refl)
    as (d & r & H1 & H2 & _ & _ & _ & H3 & _).
  - eexists; vm_compute; reflexivity.
  - eexists; vm_compute; reflexivity.
  - eexists; vm_compute; reflexivity.
  - exists d, r. split; [exact H1|]. split; [exact H2|exact H3].
Defined.

Lemma save_result host d fb ctx w :
  (tools._save_weather_artifact host d fb ctx w).1
  = match save_artifact_with_metadata host (artifact_request host d fb ctx) with
    | SaveRaised e =>
        tools.error_dict ("Failed to save artifact: " +:+ str_exn e)
    | SaveReturned status =>
        {[ "filename" := VStr (ar_filename (artifact_request host d fb ctx));
           "status" := VStr (default "success" status) ]}
    end.
Proof.
  unfold tools._save_weather_artifact. fold (artifact_request host d fb ctx).
  by destruct (save_artifact_with_metadata host _).
Qed.

(** The current-weather tool once the service is found and the fetch has
    succeeded. *)
Lemma current_tool_saved rt host location units (save : bool) ctx ws w data d :
  service_reachable ctx w ws ->
  http_current host (current_request ws location units) = Response200 data ->
  weather_service._format_current_weather rt data = Ok d ->
  (tools.get_current_weather rt host location units save (Some ctx) w).1
  = Ok (let r : gmap string Value :=
          {[ "status" := VStr "success";
             "location" := VStr (cw_location d);
             "summary" := VStr (tools._create_weather_summary rt d);
             "data" := VCurrent d ]} in
        if save
        then <["artifact" :=
                 VDict (tools._save_weather_artifact host (PCurrent d)
                          ("current_weather_" +:+ location) ctx w).1]> r
        else r).
Proof.
  intros Hreach Hhttp Hd.
  rewrite (current_tool_reached rt host location units save ctx w ws) by done.
  rewrite service_current_unfold. cbv zeta. cbn [fst snd].
  rewrite Hhttp. cbn [weather_service.on_response fst snd].
  rewrite Hd. cbn [fst]. destruct save; [|done].
  by rewrite !save_result.
Qed.

(** The forecast tool once the service is found and the fetch has
    succeeded. *)
Lemma forecast_tool_saved
    rt host location days units (save : bool) ctx ws w data fr summary :
  service_reachable ctx w ws -> 1 <= days <= 5 ->
  http_forecast host (forecast_request ws location days units)
  = Response200 data ->
  weather_service._format_forecast_data rt data days = Ok fr ->
  tools._create_forecast_summary rt fr = Ok summary ->
  (tools.get_weather_forecast rt host location days units save (Some ctx) w).1
  = Ok (let r : gmap string Value :=
          {[ "status" := VStr "success";
             "location" := VStr (fr_location fr);
             "summary" := VStr summary;
             "data" := VForecast fr ]} in
        if save
        then <["artifact" :=
                 VDict (tools._save_weather_artifact host (PForecast fr)
                          ("forecast_" +:+ location +:+ "_" +:+ pretty days
                           +:+ "day") ctx w).1]> r
        else r).
Proof.
  intros Hreach Hdays Hhttp Hfr Hsum.
  rewrite (forecast_tool_reached rt host location days units save ctx w ws)
    by done.
  rewrite service_forecast_unfold. cbv zeta. cbn [fst snd].
  rewrite Hhttp. cbn [weather_service.on_response fst snd].
  rewrite Hfr, Hsum. cbn [fst]. destruct save; [|done].
  by rewrite !save_result.
Qed.

(** C6, as stated, fails for a save that fails without raising: when
    [save_artifact_with_metadata] returns [{status: "error"}], the tool
    succeeds and the value under ["artifact"] is [{filename, status: "error"}],
    which has no [message] and is no [{status: "error", message}]
    dictionary. *)
Lemma returned_failure_has_no_message :
  let a : gmap string Value :=
    {[ "filename" := VStr "current_weather_London_20240101_120000.json";
       "status" := VStr "error" ]} in
  exists r,
    (tools.get_current_weather sample_runtime
       (sample_host (Response200 sample_current) (Response200 sample_forecast)
          (SaveReturned (Some "error")))
       "London" "metric" true (Some sample_context) initialized_world).1
    = Ok r
    /\ r !! "status" = Some (VStr "success")
    /\ r !! "artifact" = Some (VDict a)
    /\ a !! "message" = None
    /\ forall m, a <> tools.error_dict m.
Proof.
  intros a.
  destruct (weather_service._format_current_weather sample_runtime
              sample_current) as [d|e] eqn:Hd; [|vm_compute in Hd; discriminate].
  rewrite (current_tool_saved sample_runtime
             (sample_host (Response200 sample_current)
                (Response200 sample_forecast) (SaveReturned (Some "error")))
             "London" "metric" true sample_context sample_service
             initialized_world sample_current d sample_reachable eq_refl Hd).
  rewrite save_result. eexists. split; [reflexivity|]. cbv zeta.
  cbn [save_artifact_with_metadata sample_host].
  split; [rewrite lookup_insert_ne by discriminate; apply lookup_insert_eq|].
  split; [rewrite lookup_insert_eq; reflexivity|].
  split; [reflexivity|].
  intros m H. pose proof (error_dict_message m) as Hm.
  rewrite <- H in Hm. discriminate Hm.
Qed.

(** C6 (amended). When the service is reached and the fetch succeeds, each
    tool called without [save_to_file] returns the success dictionary
    [{status: "success", location, summary, data}], and called with
    [save_to_file] it returns that same dictionary with one more key,
    ["artifact"], whatever the save comes to: the status is still
    ["success"] and [location], [summary] and [data] are unchanged.  The
    value under ["artifact"] is
    [{status: "error", message: "Failed to save artifact: <e>"}] when the save
    raises [e], and [{filename, status}], with the status the artifact helper
    returned (["success"] if it returned none) and no message, when the
    helper returns. *)
Theorem save_failure_is_nested
    (rt : PyRuntime) (host : Host) (location units : string) (days : Z)
    (ctx : ToolContext) (ws : WeatherService) (w : World) :
  service_reachable ctx w ws ->
  let report (req : ArtifactRequest) : gmap string Value :=
    match save_artifact_with_metadata host req with
    | SaveRaised e =>
        tools.error_dict ("Failed to save artifact: " +:+ str_exn e)
    | SaveReturned status =>
        {[ "filename" := VStr (ar_filename req);
           "status" := VStr (default "success" status) ]}
    end in
  (forall data,
      http_current host (current_request ws location units) = Response200 data ->
      representable rt (rc_dt data) -> representable rt (rc_sunrise data) ->
      representable rt (rc_sunset data) ->
      exists d r,
        weather_service._format_current_weather rt data = Ok d
        /\ r = {[ "status" := VStr "success";
                  "location" := VStr (cw_location d);
                  "summary" := VStr (tools._create_weather_summary rt d);
                  "data" := VCurrent d ]}
        /\ (tools.get_current_weather rt host location units false (Some ctx)
              w).1 = Ok r
        /\ (tools.get_current_weather rt host location units true (Some ctx)
              w).1
           = Ok (<["artifact" :=
                     VDict (report (artifact_request host (PCurrent d)
                                      ("current_weather_" +:+ location) ctx))]>
                   r))
  /\ (forall data,
      1 <= days <= 5 ->
      http_forecast host (forecast_request ws location days units)
      = Response200 data ->
      Forall (dated rt) (rf_list data) ->
      exists fr summary r,
        weather_service._format_forecast_data rt data days = Ok fr
        /\ tools._create_forecast_summary rt fr = Ok summary
        /\ r = {[ "status" := VStr "success";
                  "location" := VStr (fr_location fr);
                  "summary" := VStr summary;
                  "data" := VForecast fr ]}
        /\ (tools.get_weather_forecast rt host location days units false
              (Some ctx) w).1 = Ok r
        /\ (tools.get_weather_forecast rt host location days units true
              (Some ctx) w).1
           = Ok (<["artifact" :=
                     VDict (report (artifact_request host (PForecast fr)
                                      ("forecast_" +:+ location +:+ "_"
                                       +:+ pretty days +:+ "day") ctx))]>
                   r)).
Proof.
  intros Hreach report. split.
  - intros data Hhttp Hdt Hrise Hset.
    destruct (timestamp_isoformat_representable rt _ Hdt) as [ts Hts].
    destruct (timestamp_isoformat_representable rt _ Hrise) as [sr Hsr].
    destruct (timestamp_isoformat_representable rt _ Hset) as [ss Hss].
    assert (Hfmt : exists d,
              weather_service._format_current_weather rt data = Ok d).
    { unfold weather_service._format_current_weather.
      rewrite Hts, Hsr, Hss. simpl. by eexists. }
    destruct Hfmt as [d Hd]. exists d. eexists.
    split; [exact Hd|]. split; [reflexivity|].
    rewrite !(current_tool_saved rt host location units _ ctx ws w data d)
      by done.
    by rewrite save_result.
  - intros data Hdays Hhttp Hdated.
    destruct (format_forecast_safe rt data days ltac:(lia) Hdated)
      as (fr & Hfr & _ & _ & _ & Hrec).
    assert (Hdaily : Forall (dated_record rt) (fr_forecasts fr))
      by (eapply Forall_impl; [exact Hrec|]; intros a;
          apply record_of_sample_dated).
    destruct (forecast_summary_total rt fr Hdaily) as [summary Hsum].
    exists fr, summary. eexists.
    split; [exact Hfr|]. split; [exact Hsum|]. split; [reflexivity|].
    rewrite !(forecast_tool_saved rt host location days units _ ctx ws w data
                fr summary) by done.
    by rewrite save_result.
Qed.

Lemma save_failure_is_nested_witness :
  (exists r,
     (tools.get_current_weather sample_runtime
        (sample_host (Response200 sample_current) (Response200 sample_forecast)
           (SaveRaised (Exception "store unavailable")))
        "London" "metric" false (Some sample_context) initialized_world).1
     = Ok r
     /\ (tools.get_current_weather sample_runtime
           (sample_host (Response200 sample_current)
              (Response200 sample_forecast)
              (SaveRaised (Exception "store unavailable")))
           "London" "metric" true (Some sample_context) initialized_world).1
        = Ok (<["artifact" :=
                  VDict (tools.error_dict
                           "Failed to save artifact: store unavailable")]> r))
  /\ (exists r,
        (tools.get_weather_forecast sample_runtime
           (sample_host (Response200 sample_current)
              (Response200 sample_forecast) (SaveReturned (Some "error")))
           "London" 2 "metric" false (Some sample_context)
           initialized_world).1 = Ok r
        /\ (tools.get_weather_forecast sample_runtime
              (sample_host (Response200 sample_current)
                 (Response200 sample_forecast) (SaveReturned (Some "error")))
              "London" 2 "metric" true (Some sample_context)
              initialized_world).1
           = Ok (<["artifact" :=
                     VDict {[ "filename" :=
                                VStr "forecast_London_2day_20240101_120000.json";
                              "status" := VStr "error" ]}]> r)).
Proof.
  split.
  - destruct (proj1 (save_failure_is_nested sample_runtime
                (sample_host (Response200 sample_current)
                   (Response200 sample_forecast)
                   (SaveRaised (Exception "store unavailable")))
                "London" "metric" 2 sample_context sample_service
                initialized_world sample_reachable) sample_current eq_refl)
      as (d & r & _ & _ & H1 & H2).
    + eexists; vm_compute; reflexivity.
    + eexists; vm_compute; reflexivity.
    + eexists; vm_compute; reflexivity.
    + exists r. split; [exact H1|exact H2].
  - destruct (proj2 (save_failure_is_nested sample_runtime
                (sample_host (Response200 sample_current)
                   (Response200 sample_forecast) (SaveReturned (Some "error")))
                "London" "metric" 2 sample_context sample_service
                initialized_world sample_reachable) sample_forecast
                ltac:(lia) eq_refl)
      as (fr & summary & r & _ & _ & _ & H1 & H2).
    + repeat constructor; eexists; vm_compute; reflexivity.
    + exists r. split; [exact H1|exact H2].
Defined.

Lemma rstrip_app_keep (s t : string) :
  tools.rstrip t <> "" -> tools.rstrip (s +:+ t) = s +:+ tools.rstrip t.
Proof.
  intros Ht. induction s as [|c s IH]; [done|].
  change (String c s +:+ t) with (String c (s +:+ t)).
  change (String c s +:+ tools.rstrip t) with (String c (s +:+ tools.rstrip t)).
  cbn [tools.rstrip]. rewrite IH.
  destruct (s +:+ tools.rstrip t) as [|c' r] eqn:E; [|done].
  destruct s; [|discriminate].
  change ("" +:+ tools.rstrip t) with (tools.rstrip t) in E. congruence.
Qed.

(** X13. For a forecast without daily records the summary is the header
    line alone, ["Weather forecast for <location>:"], the trailing blank
    lines being stripped. *)
Theorem empty_forecast_summary_is_header (rt : PyRuntime) (location : string) :
  tools._create_forecast_summary rt
    {| fr_location := location; fr_forecasts := [] |}
  = Ok ("Weather forecast for " +:+ location +:+ ":").
Proof.
  unfold tools._create_forecast_summary. cbn [fr_forecasts fr_location foldM bind].
  f_equal. unfold tools.strip.
  change ("Weather forecast for " +:+ location +:+ ":" +:+ NL +:+ NL)
    with (String "W" ("eather forecast for " +:+ location +:+ ":" +:+ NL
                      +:+ NL)).
  cbn [tools.lstrip]. change (tools.is_space "W") with false. cbv iota.
  change (String "W" ("eather forecast for " +:+ location +:+ ":" +:+ NL
                      +:+ NL))
    with ("Weather forecast for " +:+ location +:+ ":" +:+ NL +:+ NL).
  rewrite rstrip_app_keep.
  - f_equal. rewrite rstrip_app_keep; [done|]. vm_compute. discriminate.
  - rewrite rstrip_app_keep; [|vm_compute; discriminate].
    destruct location; vm_compute; discriminate.
Qed.

(** X14. After [initialize_weather_agent] and any sequence of tool calls, a
    call whose context leads to the host component issues exactly one
    request, to the base URL of the configuration and with its API key. *)
Theorem configured_key_in_every_request
    (rt : PyRuntime) (host host' : Host)
    (cfg : lifecycle.WeatherAgentInitConfig) (w0 : World)
    (calls : list (Host * ToolCall)) (ctx : ToolContext) (a : Agent)
    (hc : HostComponent) (location units : string) (days : Z)
    (save_to_file : bool) :
  agent ctx = Some a -> host_component a = Some hc -> 1 <= days <= 5 ->
  let w := run_calls rt calls
             (lifecycle.initialize_weather_agent host cfg w0).2 in
  http_requests
    (trace (tools.get_current_weather rt host' location units save_to_file
              (Some ctx) w).2)
  = http_requests (trace w)
    ++ [{| url := lifecycle.cfg_base_url cfg +:+ "/weather"; q := location;
           appid := lifecycle.cfg_api_key cfg; units_param := units;
           cnt := None |}]
  /\ http_requests
       (trace (tools.get_weather_forecast rt host' location days units
                 save_to_file (Some ctx) w).2)
     = http_requests (trace w)
       ++ [{| url := lifecycle.cfg_base_url cfg +:+ "/forecast"; q := location;
              appid := lifecycle.cfg_api_key cfg; units_param := units;
              cnt := Some (days * 8) |}].
Proof.
  intros Ha Hh Hdays. cbv zeta.
  assert (H1 : agent_state (lifecycle.initialize_weather_agent host cfg w0).2
               !! "weather_service"
               = Some (SVService {| api_key := lifecycle.cfg_api_key cfg;
                                    base_url := lifecycle.cfg_base_url cfg;
                                    session := None |})).
  { unfold lifecycle.initialize_weather_agent. simpl.
    rewrite !lookup_insert_ne by done. by rewrite lookup_insert_eq. }
  destruct (run_calls_service rt calls _ _ _ _ H1) as [s Hs].
  apply (tool_requests rt host' location units days save_to_file ctx
           {| api_key := lifecycle.cfg_api_key cfg;
              base_url := lifecycle.cfg_base_url cfg; session := s |});
    [|done].
  split; [by exists a, hc|exact Hs].
Qed.

Lemma configured_key_in_every_request_witness :
  http_requests
    (trace (tools.get_current_weather sample_runtime
              (sample_host Response404 Response404 (SaveReturned None))
              "Paris" "metric" false (Some sample_context)
              (run_calls sample_runtime
                 [(sample_host (Response200 sample_current)
                     (Response200 sample_forecast) (SaveReturned None),
                   CallCurrentWeather "London" "metric" false
                     (Some sample_context))]
                 (lifecycle.initialize_weather_agent
                    (sample_host Response404 Response404 (SaveReturned None))
                    sample_config empty_world).2)).2)
  = http_requests
      (trace (run_calls sample_runtime
                [(sample_host (Response200 sample_current)
                    (Response200 sample_forecast) (SaveReturned None),
                  CallCurrentWeather "London" "metric" false
                    (Some sample_context))]
                (lifecycle.initialize_weather_agent
                   (sample_host Response404 Response404 (SaveReturned None))
                   sample_config empty_world).2))
    ++ [{| url := lifecycle.cfg_base_url sample_config +:+ "/weather";
           q := "Paris"; appid := lifecycle.cfg_api_key sample_config;
           units_param := "metric"; cnt := None |}].
Proof.
  apply (proj1 (configured_key_in_every_request sample_runtime
           (sample_host Response404 Response404 (SaveReturned None))
           (sample_host Response404 Response404 (SaveReturned None))
           sample_config empty_world
           [(sample_host (Response200 sample_current)
               (Response200 sample_forecast) (SaveReturned None),
             CallCurrentWeather "London" "metric" false (Some sample_context))]
           sample_context {| host_component := Some TheHostComponent |}
           TheHostComponent "Paris" "metric" 5 false eq_refl eq_refl
           ltac:(lia))).
Defined.

(** X15. On a host that was never initialised (no service and no counter
    in the state store) [cleanup_weather_agent] leaves the state store as it
    is and issues no HTTP request.  On a thread whose event loop is open and
    not running it returns normally, having read the two keys and logged that
    the agent processed 0 weather requests: the counter defaults to 0.  In
    every other case it raises right after its first log line, having read
    nothing. *)
Theorem cleanup_without_initialisation
    (host : Host) (policy : EventLoopPolicy) (w : World) :
  agent_state w !! "weather_service" = None ->
  agent_state w !! "weather_requests_count" = None ->
  let out := lifecycle.cleanup_weather_agent host policy w in
  agent_state out.2 = agent_state w
  /\ http_requests (trace out.2) = http_requests (trace w)
  /\ match policy with
     | CurrentLoop Idle =>
         out.1 = Ok tt
         /\ trace out.2
            = trace w
              ++ [EvLog INFO (("[" +:+ agent_name host +:+ ":cleanup]")
                              +:+ " Starting Weather Agent cleanup...");
                  EvStateGet "weather_service";
                  EvStateGet "weather_requests_count";
                  EvLog INFO (("[" +:+ agent_name host +:+ ":cleanup]")
                              +:+ " Agent processed " +:+ "0"
                              +:+ " weather requests during its lifetime");
                  EvLog INFO (("[" +:+ agent_name host +:+ ":cleanup]")
                              +:+ " Weather Agent cleanup completed");
                  EvLog INFO (("[" +:+ agent_name host +:+ ":cleanup]")
                              +:+ " Weather Agent cleanup completed successfully")]
     | _ =>
         (exists e, out.1 = Raise e)
         /\ trace out.2
            = trace w
              ++ [EvLog INFO (("[" +:+ agent_name host +:+ ":cleanup]")
                              +:+ " Starting Weather Agent cleanup...")]
     end.
Proof.
  intros Hws Hcount. cbv zeta.
  unfold lifecycle.cleanup_weather_agent.
  destruct policy as [[| |]|thread];
    cbn [get_event_loop run_until_complete fst snd].
  2-4: (split; [done|]); (split; [|split; [by eexists|done]]);
       unfold http_requests; cbn [log_info emit trace]; rewrite omap_app;
       simpl; by rewrite app_nil_r.
  unfold lifecycle.cleanup_async, lifecycle.cleanup_try,
    lifecycle.read_request_count, get_agent_specific_state.
  cbn [agent_state emit log_info fst snd]. rewrite Hws.
  cbn [agent_state emit log_info fst snd]. rewrite Hcount.
  simpl. split; [done|]. rewrite <- !app_assoc. simpl. split; [|done].
  unfold http_requests. rewrite omap_app. simpl. by rewrite app_nil_r.
Qed.

Lemma cleanup_without_initialisation_witness :
  (lifecycle.cleanup_weather_agent
     (sample_host Response404 Response404 (SaveReturned None))
     (CurrentLoop Idle) empty_world).1 = Ok tt
  /\ length (trace (lifecycle.cleanup_weather_agent
                      (sample_host Response404 Response404 (SaveReturned None))
                      (CurrentLoop Idle) empty_world).2) = 6%nat
  /\ length (trace (lifecycle.cleanup_weather_agent
                      (sample_host Response404 Response404 (SaveReturned None))
                      (CurrentLoop Running) empty_world).2) = 1%nat.
Proof.
  destruct (cleanup_without_initialisation
              (sample_host Response404 Response404 (SaveReturned None))
              (CurrentLoop Idle) empty_world eq_refl eq_refl)
    as (_ & _ & H1 & H2).
  destruct (cleanup_without_initialisation
              (sample_host Response404 Response404 (SaveReturned None))
              (CurrentLoop Running) empty_world eq_refl eq_refl)
    as (_ & _ & _ & H3).
  split; [exact H1|]. split.
  - exact (f_equal (@length Event) H2).
  - exact (f_equal (@length Event) H3).
Defined.
